(** * Slot availability resolution engine (backend/index.mjs)

    A shallow embedding of the read-side resolver of the booking backend:
    the calendar/slot helpers, the service resolution table, the upstream
    fetcher/indexer, the two-probe slot evaluator and the two grid
    handlers, followed by the properties established about them.

    Conventions of the embedding.
    - JavaScript strings are [string]s (code units below 256); string
      comparison is the code-unit lexicographic order.
    - Day arithmetic is integer arithmetic on [Z]. The probe offset is a
      JavaScript number ([JS.number]): NaN, an infinity, or a finite
      double; minute arithmetic is followed on the multiples of 1/1024,
      where it is exact, and [%] is the truncating remainder [Z.rem].
    - JSON numbers carried by upstream records ([rental_id], [price]) are
      rationals [Q].
    - A thrown exception is the [Throw] outcome of a computation, a
      rejected promise the [Rejected] case of [settled]; a [Map] with
      string keys is a [gmap string _], except [pairs], whose iteration
      order is kept in an association list.
    - Concurrent fetches carry the time at which they settle, so that
      [Promise.all] can reject with the first rejection. *)

From Stdlib Require Import ZArith QArith Lia Ascii String.
From stdpp Require Import base option strings list gmap.

Local Open Scope Z_scope.

(** ** The fragment of JavaScript the engine relies on *)

Module JS.

(** Values found in a property of a parsed JSON object; [JUndefined]
    stands for an absent property, [JObject] for any array or object
    (the engine never looks inside one). *)
Inductive value : Type :=
| JUndefined
| JNull
| JBool (b : bool)
| JNum (q : Q)
| JStr (s : string)
| JObject.

Definition code (c : ascii) : Z := Z.of_N (Ascii.N_of_ascii c).

(** [a < b] on strings: the first differing code unit decides, a proper
    prefix is smaller. *)
Fixpoint str_lt (a b : string) : bool :=
  match a, b with
  | _, EmptyString => false
  | EmptyString, String _ _ => true
  | String c a', String d b' =>
      if code c <? code d then true
      else if code d <? code c then false
      else str_lt a' b'
  end.

(** [a >= b] is the negation of [a < b]. *)
Definition str_ge (a b : string) : bool := negb (str_lt a b).

Definition is_digit (c : ascii) : bool :=
  (48 <=? code c) && (code c <=? 57).

Definition digit_val (c : ascii) : Z := code c - 48.

Definition digit_char (d : Z) : ascii :=
  Ascii.ascii_of_N (Z.to_N (48 + d)).

Fixpoint digits_val (s : string) (acc : Z) : option Z :=
  match s with
  | EmptyString => Some acc
  | String c s' =>
      if is_digit c then digits_val s' (10 * acc + digit_val c) else None
  end.

(** [Number(s)] on a (possibly empty) string of decimal digits; [None]
    on any other string, which lies outside the modelled fragment (the
    handlers only pass regex-validated text). *)
Definition Number (s : string) : option Z := digits_val s 0.

Fixpoint dec_digits (fuel : nat) (n : Z) (acc : string) : string :=
  match fuel with
  | O => acc
  | S f =>
      let acc' := String (digit_char (n mod 10)) acc in
      if n / 10 =? 0 then acc' else dec_digits f (n / 10) acc'
  end.

(** [String(n)] for an integer [n]. *)
Definition String_ (n : Z) : string :=
  if n <? 0 then String "-"%char (dec_digits (Z.to_nat (- n)) (- n) "")
  else dec_digits (S (Z.to_nat n)) n "".

(** A JavaScript number is a double: NaN, an infinity or a finite value.
    The finite values followed here are the multiples of 1/1024 of
    magnitude at most 2^42, [Fixed k] standing for k/1024 (with k of
    magnitude at most 2^52, see [followed]): every integer of that size
    and, for instance, 30.5 = [Fixed 31232]. [Unfollowed] is any other
    finite double; what is computed from one is not followed. *)
Inductive number : Type :=
| NaN
| Infinity (negative : bool)
| Fixed (k : Z)
| Unfollowed.

Definition followed (k : Z) : bool := Z.abs k <=? 2 ^ 52.

Definition fixed (k : Z) : number :=
  if followed k then Fixed k else Unfollowed.

(** The number whose value is the integer [z]. *)
Definition int (z : Z) : number := fixed (1024 * z).

(** [a + b]. The sum of two multiples of 1/1024 is one, and a double
    when its magnitude is at most 2^42: it is then computed exactly. *)
Definition add (a b : number) : number :=
  match a, b with
  | NaN, _ | _, NaN => NaN
  | Infinity n, Infinity n' => if Bool.eqb n n' then Infinity n else NaN
  | Infinity n, _ | _, Infinity n => Infinity n
  | Fixed x, Fixed y => fixed (x + y)
  | _, _ => Unfollowed
  end.

(** [a % d] for a positive integer constant [d]: the remainder has the
    sign of the dividend and is always exact. *)
Definition rem (a : number) (d : Z) : number :=
  match a with
  | NaN | Infinity _ => NaN
  | Fixed k => Fixed (Z.rem k (1024 * d))
  | Unfollowed => Unfollowed
  end.

(** [Math.floor(a / d)] for a positive integer constant [d] below 2^20,
    followed for [a] of magnitude at most 2^20: the quotient is then
    rounded by less than 2^-33, and a quotient that is not an integer is
    at least 1/(1024 d) away from the next one, so the floor of the
    rounded quotient is the floor of the exact one. *)
Definition floor_div (a : number) (d : Z) : number :=
  match a with
  | NaN => NaN
  | Infinity n => Infinity n
  | Fixed k =>
      if Z.abs k <=? 2 ^ 30 then Fixed (1024 * (k / (1024 * d)))
      else Unfollowed
  | Unfollowed => Unfollowed
  end.

(** The decimal digits of r/1024 after the point, for 0 <= r < 1024,
    by long division; the expansion ends within ten digits. *)
Fixpoint frac_digits (fuel : nat) (r : Z) : string :=
  match fuel with
  | O => EmptyString
  | S f =>
      if r =? 0 then EmptyString
      else String (digit_char (10 * r / 1024))
             (frac_digits f ((10 * r) mod 1024))
  end.

(** [String(a)]. An integer is printed by its digits. A value that is
    not an integer is followed below 100000: its exact decimal expansion
    then has at most 15 significant digits, hence is the shortest text
    that reads back as the same double, which is what is printed. *)
Definition toString (a : number) : option string :=
  match a with
  | NaN => Some "NaN"%string
  | Infinity false => Some "Infinity"%string
  | Infinity true => Some "-Infinity"%string
  | Fixed k =>
      if k mod 1024 =? 0 then Some (String_ (k / 1024))
      else if Z.abs k <? 1024 * 100000 then
        Some ((if k <? 0 then "-" else "")
              +:+ String_ (Z.abs k / 1024) +:+ "."
              +:+ frac_digits 10 (Z.abs k mod 1024))
      else None
  | Unfollowed => None
  end.

(** [s.padStart(2, "0")]. *)
Definition padStart2 (s : string) : string :=
  match s with
  | EmptyString => "00"
  | String c EmptyString => String "0"%char s
  | _ => s
  end.

(** [s.slice(0, 2)]. *)
Definition slice02 (s : string) : string :=
  match s with
  | String a (String b _) => String a (String b EmptyString)
  | _ => s
  end.

(** [s.split(sep)] for a one-character separator. *)
Fixpoint split_go (sep : ascii) (s : string) (cur : string) : list string :=
  match s with
  | EmptyString => [String.rev cur]
  | String c s' =>
      if Ascii.eqb c sep then String.rev cur :: split_go sep s' ""
      else split_go sep s' (String c cur)
  end.

Definition split (sep : ascii) (s : string) : list string :=
  split_go sep s "".

End JS.

(** ** The ECMAScript date algorithms behind [Date.UTC], [setUTCDate] and
       the [getUTC*] accessors (time values in milliseconds) *)

Module JSDate.

Definition msPerDay : Z := 86400000.

Definition Day (t : Z) : Z := t / msPerDay.
Definition TimeWithinDay (t : Z) : Z := t mod msPerDay.

Definition leap (y : Z) : bool :=
  ((y mod 4 =? 0) && negb (y mod 100 =? 0)) || (y mod 400 =? 0).

Definition DaysInYear (y : Z) : Z := if leap y then 366 else 365.

Definition DayFromYear (y : Z) : Z :=
  365 * (y - 1970) + (y - 1969) / 4 - (y - 1901) / 100 + (y - 1601) / 400.

(** The year [y] with [DayFromYear y <= d < DayFromYear (y + 1)]: an
    estimate from the mean year length, corrected by at most one. *)
Definition YearFromDay (d : Z) : Z :=
  let y := 1970 + (400 * d) / 146097 in
  if d <? DayFromYear y then y - 1
  else if DayFromYear (y + 1) <=? d then y + 1
  else y.

Definition YearFromTime (t : Z) : Z := YearFromDay (Day t).

Definition InLeapYear (t : Z) : Z :=
  if leap (YearFromTime t) then 1 else 0.

Definition DayWithinYear (t : Z) : Z :=
  Day t - DayFromYear (YearFromTime t).

(** Days of the year before month [m] (0-based) in a year with leap
    flag [l]. *)
Definition monthStart (l : Z) (m : Z) : Z :=
  match m with
  | 0 => 0
  | 1 => 31
  | 2 => 59 + l
  | 3 => 90 + l
  | 4 => 120 + l
  | 5 => 151 + l
  | 6 => 181 + l
  | 7 => 212 + l
  | 8 => 243 + l
  | 9 => 273 + l
  | 10 => 304 + l
  | _ => 334 + l
  end.

Definition MonthFromTime (t : Z) : Z :=
  let d := DayWithinYear t in
  let l := InLeapYear t in
  if d <? 31 then 0
  else if d <? 59 + l then 1
  else if d <? 90 + l then 2
  else if d <? 120 + l then 3
  else if d <? 151 + l then 4
  else if d <? 181 + l then 5
  else if d <? 212 + l then 6
  else if d <? 243 + l then 7
  else if d <? 273 + l then 8
  else if d <? 304 + l then 9
  else if d <? 334 + l then 10
  else 11.

Definition DateFromTime (t : Z) : Z :=
  DayWithinYear t + 1 - monthStart (InLeapYear t) (MonthFromTime t).

Definition WeekDay (t : Z) : Z := (Day t + 4) mod 7.

(** [MakeDay(year, month, date)]: the day number of the first of the
    month, plus [date - 1]. *)
Definition MakeDay (year month date : Z) : Z :=
  let ym := year + month / 12 in
  let mn := month mod 12 in
  DayFromYear ym + monthStart (if leap ym then 1 else 0) mn + date - 1.

Definition MakeDate (day time : Z) : Z := day * msPerDay + time.

(** [Date.UTC(y, m, d, 12, 0, 0)]; a year from 0 to 99 means 1900 + y. *)
Definition UTC_noon (y m d : Z) : Z :=
  let yr := if (0 <=? y) && (y <=? 99) then 1900 + y else y in
  MakeDate (MakeDay yr m d) (12 * 3600000).

Definition getUTCFullYear (t : Z) : Z := YearFromTime t.
Definition getUTCMonth (t : Z) : Z := MonthFromTime t.
Definition getUTCDate (t : Z) : Z := DateFromTime t.
Definition getUTCDay (t : Z) : Z := WeekDay t.

(** [dt.setUTCDate(date)]. *)
Definition setUTCDate (t : Z) (date : Z) : Z :=
  MakeDate (MakeDay (YearFromTime t) (MonthFromTime t) date)
           (TimeWithinDay t).

End JSDate.

(** ** Upstream data and exceptions *)

(** An element of the [data] array of an upstream answer; [date_time] is
    the text [String(it.date_time || "")] that [parseDateTime] matches,
    the other two fields are the raw properties. *)
Record item : Type := Item {
  date_time : string;
  rental_id : JS.value;
  price : JS.value
}.

(** A parsed response body: a JSON object with the properties the engine
    reads ([error_message] as text, [data] when it is an array), or any
    other JSON value, of which only the truthiness matters. *)
Inductive body : Type :=
| BodyObject (result : JS.value) (error : JS.value)
             (error_message : option string) (data : option (list item))
| BodyOther (truthy : bool).

(** What the catch blocks read from a thrown error; [err_details] is what
    [apiGet] attaches to it. *)
Inductive details : Type :=
| DetailsJson (b : body)
| DetailsRaw (raw : string)
| DetailsUpstream (result : JS.value) (error : JS.value)
                  (error_message : string).

Record error : Type := mkError {
  message : string;
  status : option Z;
  err_details : option details
}.

Definition plainError (msg : string) : error := mkError msg None None.

(** A computation returns, throws, or leaves the modelled fragment of
    JavaScript ([Unmodelled]: [JS.Number] applied to text that is not a
    run of digits, a destructuring that finds too few parts, or minute
    arithmetic on a number that is not followed). *)
Inductive comp (A : Type) : Type :=
| Ret (a : A)
| Throw (e : error)
| Unmodelled.

Arguments Ret {A} a.
Arguments Throw {A} e.
Arguments Unmodelled {A}.

#[global] Instance comp_ret : MRet comp := fun A a => Ret a.
#[global] Instance comp_bind : MBind comp := fun A B f c =>
  match c with
  | Ret a => f a
  | Throw e => Throw e
  | Unmodelled => Unmodelled
  end.

Definition lift {A : Type} (o : option A) : comp A :=
  match o with
  | Some a => Ret a
  | None => Unmodelled
  end.

(** ** Reference data *)

Inductive DayType : Type := Weekday | Weekend.
Inductive DayBand : Type := BandDay | BandNight.

Definition dayTypeName (t : DayType) : string :=
  match t with Weekday => "weekday" | Weekend => "weekend" end.
Definition bandName (b : DayBand) : string :=
  match b with BandDay => "day" | BandNight => "night" end.

Record room : Type := mkRoom {
  room_id : string;
  room_title : string;
  room_type : string;
  room_group : string
}.

(** [rooms_services.json] after [loadConfig]'s checks: the room list and
    the two nested tables of [services]; a table answers [None] for a
    path that is not there. *)
Record config : Type := mkConfig {
  rooms : list room;
  services_elite : DayType -> DayBand -> option string;
  services_comfort : string -> DayType -> DayBand -> option string
}.

Definition splitRooms (rs : list room) : list room * option room :=
  (List.filter (fun r => String.eqb (room_type r) "comfort") rs,
   List.find (fun r => String.eqb (room_type r) "elite") rs).

(** ** Calendar and slot helpers *)

Definition getDayType (dateIso : string) : option DayType :=
  match List.map JS.Number (JS.split "-" dateIso) with
  | Some y :: Some m :: Some d :: _ =>
      let dt := JSDate.UTC_noon y (m - 1) d in
      let dow := JSDate.getUTCDay dt in
      let isWeekend := (dow =? 5) || (dow =? 6) || (dow =? 0) in
      Some (if isWeekend then Weekend else Weekday)
  | _ => None
  end.

Definition getDayBand (startHHMM : string) : DayBand :=
  if JS.str_ge startHHMM "08:00" && JS.str_lt startHHMM "16:00"
  then BandDay else BandNight.

(** A service id is usable when it is present and not the empty string. *)
Definition truthy_id (o : option string) : option string :=
  match o with
  | Some s => if String.eqb s "" then None else Some s
  | None => None
  end.

Definition pickEliteServiceId (cfg : config) (realDateIso startHHMM : string)
  : comp string :=
  dayType ← lift (getDayType realDateIso);
  let band := getDayBand startHHMM in
  match truthy_id (services_elite cfg dayType band) with
  | Some id => Ret id
  | None =>
      Throw (plainError ("Missing elite service_id for "
                         +:+ dayTypeName dayType +:+ "/" +:+ bandName band))
  end.

Definition pickComfortServiceId (cfg : config)
    (group realDateIso startHHMM : string) : comp string :=
  dayType ← lift (getDayType realDateIso);
  let band := getDayBand startHHMM in
  match truthy_id (services_comfort cfg group dayType band) with
  | Some id => Ret id
  | None =>
      Throw (plainError ("Missing comfort service_id for " +:+ group +:+ "/"
                         +:+ dayTypeName dayType +:+ "/" +:+ bandName band))
  end.

(** Matching a string against a sequence of character classes, as the
    anchored regular expressions of the source do. *)
Fixpoint match_prefix (pat : list (ascii -> bool)) (s : string)
  : option string :=
  match pat with
  | [] => Some s
  | p :: pat' =>
      match s with
      | String c s' => if p c then match_prefix pat' s' else None
      | EmptyString => None
      end
  end.

Definition chr (c : ascii) : ascii -> bool := fun x => Ascii.eqb x c.

Definition date_pattern : list (ascii -> bool) :=
  [JS.is_digit; JS.is_digit; JS.is_digit; JS.is_digit; chr "-";
   JS.is_digit; JS.is_digit; chr "-"; JS.is_digit; JS.is_digit].

Definition time_pattern : list (ascii -> bool) :=
  [JS.is_digit; JS.is_digit; chr ":"; JS.is_digit; JS.is_digit].

Definition isIsoDate (s : string) : bool :=
  match match_prefix date_pattern s with
  | Some EmptyString => true
  | _ => false
  end.

Definition addDaysIso (isoDate : string) (deltaDays : Z) : option string :=
  match List.map JS.Number (JS.split "-" isoDate) with
  | Some y :: Some m :: Some d :: _ =>
      let dt := JSDate.UTC_noon y (m - 1) d in
      let dt := JSDate.setUTCDate dt (JSDate.getUTCDate dt + deltaDays) in
      Some (JS.String_ (JSDate.getUTCFullYear dt) +:+ "-"
            +:+ JS.padStart2 (JS.String_ (JSDate.getUTCMonth dt + 1)) +:+ "-"
            +:+ JS.padStart2 (JS.String_ (JSDate.getUTCDate dt)))
  | _ => None
  end.

Definition realDateForStart (uiDateIso startHHMM : string) : option string :=
  hh ← JS.Number (JS.slice02 startHHMM);
  if hh <? 6 then addDaysIso uiDateIso (-1) else Some uiDateIso.

Definition shiftMinutes (hhmm : string) (delta : JS.number)
  : option string :=
  match List.map JS.Number (JS.split ":" hhmm) with
  | Some h :: Some m :: _ =>
      let total :=
        JS.rem (JS.add (JS.add (JS.int (h * 60 + m)) delta) (JS.int 1440))
          1440 in
      let hh := JS.floor_div total 60 in
      let mm := JS.rem total 60 in
      hs ← JS.toString hh;
      ms ← JS.toString mm;
      Some (JS.padStart2 hs +:+ ":" +:+ JS.padStart2 ms)
  | _ => None
  end.

Definition STARTS : list string :=
  ["06:00"; "08:00"; "10:00"; "12:00"; "14:00"; "16:00";
   "18:00"; "20:00"; "22:00"; "00:00"; "02:00"; "04:00"].

(** ** Upstream records and the slot evaluator *)

Definition parseDateTime (it : item) : string * string :=
  let s := date_time it in
  match match_prefix
          (date_pattern ++ [fun c => chr " " c || chr "T" c] ++ time_pattern)
          s with
  | Some _ => (String.substring 0 10 s, String.substring 11 5 s)
  | None => (""%string, ""%string)
  end.

(** An index entry that is present is an object, hence truthy; [None] is
    the [undefined] of a failed [Map.get] (or the [null] used when the
    pair has no index). *)
Definition isFreeItem (it : option item) : bool :=
  match it with
  | None => false
  | Some it =>
      match rental_id it with
      | JS.JNull | JS.JUndefined => true
      | JS.JStr s => String.eqb s ""
      | JS.JNum q => Qeq_bool q 0
      | _ => false
      end
  end.

Inductive Status : Type := Free | Busy | Missing.

Record slot_info : Type := mkSlotInfo {
  slot_date_time : string;
  found : bool;
  slot_rental_id : JS.value;
  slot_status : Status
}.

Definition slotInfo (it : option item) (date time : string) : slot_info :=
  match it with
  | None => mkSlotInfo (date +:+ " " +:+ time) false JS.JNull Missing
  | Some i =>
      mkSlotInfo (date +:+ " " +:+ time) true
        (match rental_id i with JS.JUndefined => JS.JNull | v => v end)
        (if isFreeItem it then Free else Busy)
  end.

Definition pickPrice (it1 it2 : option item) : option Q :=
  let p1 := match it1 with
            | Some i => match price i with JS.JNum q => Some q | _ => None end
            | None => None
            end in
  match p1 with
  | Some p => Some p
  | None =>
      match it2 with
      | Some i => match price i with JS.JNum q => Some q | _ => None end
      | None => None
      end
  end.

Record verdict : Type := mkVerdict {
  v_status : Status;
  v_reason : option string
}.

Definition is_missing (s : Status) : bool :=
  match s with Missing => true | _ => false end.
Definition is_busy (s : Status) : bool :=
  match s with Busy => true | _ => false end.
Definition is_free (s : Status) : bool :=
  match s with Free => true | _ => false end.

Definition evaluateRoomStatus (slot1 slot2 : slot_info) : verdict :=
  if is_missing (slot_status slot1) || is_missing (slot_status slot2)
  then mkVerdict Missing (Some "slot_missing"%string)
  else if is_busy (slot_status slot1) || is_busy (slot_status slot2)
  then mkVerdict Busy (Some "occupied"%string)
  else mkVerdict Free None.

(** ** Talking to the upstream system *)

Record http_response : Type := mkResponse {
  resp_ok : bool;
  resp_status : Z;
  resp_text : string;
  resp_json : option body
}.

(** What [fetch] does with a request: it rejects, or resolves with a
    response ([resp_json] is [None] for an empty or unparseable body). *)
Inductive reply : Type :=
| NetworkError (msg : string)
| Response (r : http_response).

Definition extractUpstreamError (json : option body) : option details :=
  match json with
  | Some (BodyObject (JS.JBool false) err msg _) =>
      Some (DetailsUpstream (JS.JBool false)
              (match err with JS.JUndefined => JS.JNull | v => v end)
              (default "Upstream returned result=false"%string msg))
  | _ => None
  end.

Definition body_truthy (json : option body) : option body :=
  match json with
  | Some (BodyOther false) => None
  | j => j
  end.

(** How a promise settles. *)
Inductive settled (A : Type) : Type :=
| Fulfilled (a : A)
| Rejected (e : error).

Arguments Fulfilled {A} a.
Arguments Rejected {A} e.

(** [await p]. *)
Definition await {A : Type} (p : settled A) : comp A :=
  match p with
  | Fulfilled a => Ret a
  | Rejected e => Throw e
  end.

(** [apiGet] from the reply of [fetch] on (the environment variables it
    reads are taken to be set). *)
Definition apiGet (r : reply) : settled (option body) :=
  match r with
  | NetworkError msg => Rejected (plainError msg)
  | Response resp =>
      if negb (resp_ok resp) then
        Rejected
          (mkError ("Upstream error " +:+ JS.String_ (resp_status resp))
             (Some (resp_status resp))
             (Some (match body_truthy (resp_json resp) with
                    | Some b => DetailsJson b
                    | None => DetailsRaw (resp_text resp)
                    end)))
      else
        match extractUpstreamError (resp_json resp) with
        | Some (DetailsUpstream r e msg) =>
            Rejected (mkError ("Upstream result=false: " +:+ msg) (Some 502)
                        (Some (DetailsUpstream r e msg)))
        | _ => Fulfilled (resp_json resp)
        end
  end.

Definition normalizeRentalTimesPayload (json : option body) : list item :=
  match json with
  | Some (BodyObject _ _ _ (Some d)) => d
  | _ => []
  end.

(** The loop of [fetchIndexedRentalTimes] over the items of an answer:
    one that does not parse is skipped, a later one replaces an earlier
    one under the same ["date|time"] key. *)
Fixpoint index_items (items : list item) (byKey : gmap string item)
  : gmap string item :=
  match items with
  | [] => byKey
  | it :: rest =>
      let '(d, t) := parseDateTime it in
      if String.eqb d "" || String.eqb t "" then index_items rest byKey
      else index_items rest (<[ d +:+ "|" +:+ t := it ]> byKey)
  end.

Definition fetchIndexedRentalTimes (r : reply) : settled (gmap string item) :=
  match apiGet r with
  | Fulfilled upstream =>
      Fulfilled (index_items (normalizeRentalTimesPayload upstream) ∅)
  | Rejected e => Rejected e
  end.

(** [Promise.all]: the first rejection in time wins (the earlier array
    position on a tie); without one, the values in array order. *)
Fixpoint earliest_rejection {A : Type} (ps : list (nat * settled A))
  : option (nat * error) :=
  match ps with
  | [] => None
  | (t, Rejected e) :: rest =>
      match earliest_rejection rest with
      | Some (t', e') => if (t' <? t)%nat then Some (t', e') else Some (t, e)
      | None => Some (t, e)
      end
  | (_, Fulfilled _) :: rest => earliest_rejection rest
  end.

Fixpoint fulfilled {A : Type} (ps : list (nat * settled A)) : list A :=
  match ps with
  | [] => []
  | (_, Fulfilled a) :: rest => a :: fulfilled rest
  | (_, Rejected _) :: rest => fulfilled rest
  end.

Definition promise_all {A : Type} (ps : list (nat * settled A))
  : comp (list A) :=
  match earliest_rejection ps with
  | Some (_, e) => Throw e
  | None => Ret (fulfilled ps)
  end.

(** [m.set(k, v)] on a [Map] kept in insertion order: an existing key
    keeps its place and takes the new value. *)
Fixpoint map_set {V : Type} (k : string) (v : V) (m : list (string * V))
  : list (string * V) :=
  match m with
  | [] => [(k, v)]
  | (k', v') :: m' =>
      if String.eqb k k' then (k, v) :: m' else (k', v') :: map_set k v m'
  end.

Definition map_values {V : Type} (m : list (string * V)) : list V :=
  List.map snd m.

(** ** The grid handlers *)

Record pair : Type := mkPair {
  service_id : string;
  pair_room_id : string
}.

Definition pair_key (p : pair) : string :=
  service_id p +:+ "|" +:+ pair_room_id p.

Record query : Type := mkQuery {
  q_club_id : string;
  q_service_id : string;
  q_room_id : string;
  q_start_date : string;
  q_end_date : string
}.

(** One upstream exchange: when it settles and with what. *)
Record exchange : Type := mkExchange {
  settled_at : nat;
  answer : reply
}.

Record meta_entry : Type := mkMeta {
  m_start : string;
  m_realDate : string;
  m_service_id : string;
  m_room_id : string
}.

Record elite_cell : Type := mkEliteCell {
  free : Z;
  cell_price : option Q;
  cell_service_id : string;
  cell_room_id : string;
  elite_total_count : Z;
  reason : option string
}.

Record comfort_cell : Type := mkComfortCell {
  free_count : Z;
  busy_count : Z;
  total_count : Z;
  min_price : option Q
}.

(** The request after [req.query.club_id || process.env.DEFAULT_CLUB_ID]
    and [String(date)]; an absent club id is the empty string. *)
Record request : Type := mkRequest {
  req_club_id : string;
  req_date : string
}.

Inductive response : Type :=
| ErrorResponse (code : Z) (error : string) (upstream : option details)
| EliteGrid (club_id date start_date end_date : string)
            (grid : list (string * elite_cell))
| ComfortGrid (club_id date start_date end_date : string)
              (grid : list (string * comfort_cell)).

(** The catch block shared by the handlers. *)
Definition catch_response (e : error) : response :=
  ErrorResponse
    (match status e with
     | Some s => if s =? 0 then 500 else s
     | None => 500
     end)
    (if String.eqb (message e) "" then "Backend error" else message e)
    (err_details e).

Definition try_catch (c : comp response) : option response :=
  match c with
  | Ret r => Some r
  | Throw e => Some (catch_response e)
  | Unmodelled => None
  end.

(** [Math.min] on two prices. *)
Definition Math_min (a b : Q) : Q := if Qle_bool a b then a else b.

Section Engine.

(** The configured probe skew,
    [Number(process.env.SLOT_OFFSET_MINUTES || 0)], and the upstream
    system as seen during one request. *)
Variable SLOT_OFFSET_MINUTES : JS.number.
Variable upstream : query -> exchange.

Definition slotTime1 (startHHMM : string) : option string :=
  shiftMinutes startHHMM SLOT_OFFSET_MINUTES.

Definition slotTime2 (startHHMM : string) : option string :=
  shiftMinutes startHHMM (JS.add (JS.int 60) SLOT_OFFSET_MINUTES).

(** [byKey ? byKey.get(`${date}|${time}`) : null]. *)
Definition probe (byKey : option (gmap string item)) (date time : string)
  : option item :=
  match byKey with
  | Some m => m !! (date +:+ "|" +:+ time)
  | None => None
  end.

(** One callback of the [Promise.all] fan-out: the query it sends, and
    the entry it stores into [idxByPair] once the answer is indexed. *)
Definition query_of (club_id start_date end_date : string) (p : pair)
  : query :=
  mkQuery club_id (service_id p) (pair_room_id p) start_date end_date.

Definition fetch_pair (club_id start_date end_date : string) (p : pair)
  : nat * settled (string * gmap string item) :=
  let ex := upstream (query_of club_id start_date end_date p) in
  (settled_at ex,
   match fetchIndexedRentalTimes (answer ex) with
   | Fulfilled byKey => Fulfilled (pair_key p, byKey)
   | Rejected e => Rejected e
   end).

Definition store_all (entries : list (string * gmap string item))
  : gmap string (gmap string item) :=
  fold_left (fun idx kv => <[ fst kv := snd kv ]> idx) entries ∅.

Definition fetch_all (club_id start_date end_date : string)
    (pairs : list (string * pair))
  : comp (gmap string (gmap string item)) :=
  entries ← promise_all
              (List.map (fetch_pair club_id start_date end_date)
                 (map_values pairs));
  Ret (store_all entries).

(** *** Exclusive room *)

Fixpoint elite_plan (cfg : config) (eliteId uiDate : string)
    (starts : list string)
    (meta : list meta_entry) (pairs : list (string * pair))
  : comp (list meta_entry * list (string * pair)) :=
  match starts with
  | [] => Ret (meta, pairs)
  | start :: rest =>
      realDate ← lift (realDateForStart uiDate start);
      sid ← pickEliteServiceId cfg realDate start;
      let key := sid +:+ "|" +:+ eliteId in
      elite_plan cfg eliteId uiDate rest
        (meta ++ [mkMeta start realDate sid eliteId])
        (map_set key (mkPair sid eliteId) pairs)
  end.

Definition elite_cell_of (idxByPair : gmap string (gmap string item))
    (m : meta_entry) : comp elite_cell :=
  t1 ← lift (slotTime1 (m_start m));
  t2 ← lift (slotTime2 (m_start m));
  let byKey := idxByPair !! (m_service_id m +:+ "|" +:+ m_room_id m) in
  let it1 := probe byKey (m_realDate m) t1 in
  let it2 := probe byKey (m_realDate m) t2 in
  let slot1 := slotInfo it1 (m_realDate m) t1 in
  let slot2 := slotInfo it2 (m_realDate m) t2 in
  let st := evaluateRoomStatus slot1 slot2 in
  let free := if is_free (v_status st) then 1 else 0 in
  let price := pickPrice it1 it2 in
  Ret (mkEliteCell free price (m_service_id m) (m_room_id m) 1
         (v_reason st)).

Fixpoint elite_grid (idxByPair : gmap string (gmap string item))
    (meta : list meta_entry) (grid : list (string * elite_cell))
  : comp (list (string * elite_cell)) :=
  match meta with
  | [] => Ret grid
  | m :: rest =>
      cell ← elite_cell_of idxByPair m;
      elite_grid idxByPair rest (map_set (m_start m) cell grid)
  end.

Definition availability_grid_elite (req : request)
    (loadConfig : settled config) : option response :=
  if String.eqb (req_club_id req) "" then
    Some (ErrorResponse 400 "Missing club_id" None)
  else if negb (isIsoDate (req_date req)) then
    Some (ErrorResponse 400 "Missing/invalid date (YYYY-MM-DD)" None)
  else
    let uiDate := req_date req in
    start_date ← addDaysIso uiDate (-1);
    end_date ← addDaysIso uiDate 1;
    try_catch (
      cfg ← await loadConfig;
      match snd (splitRooms (rooms cfg)) with
      | None =>
          Ret (ErrorResponse 500
                 "Elite room not found in rooms_services.json" None)
      | Some elite =>
          if String.eqb (room_id elite) "" then
            Ret (ErrorResponse 500
                   "Elite room not found in rooms_services.json" None)
          else
            '(meta, pairs) ←
              elite_plan cfg (room_id elite) uiDate STARTS [] [];
            idxByPair ←
              fetch_all (req_club_id req) start_date end_date pairs;
            grid ← elite_grid idxByPair meta [];
            Ret (EliteGrid (req_club_id req) uiDate start_date end_date
                   grid)
      end).

(** *** Pooled rooms *)

Fixpoint comfort_plan_rooms (cfg : config) (start realDate : string)
    (comfort : list room)
    (meta : list meta_entry) (pairs : list (string * pair))
  : comp (list meta_entry * list (string * pair)) :=
  match comfort with
  | [] => Ret (meta, pairs)
  | r :: rest =>
      sid ← pickComfortServiceId cfg (room_group r) realDate start;
      let key := sid +:+ "|" +:+ room_id r in
      comfort_plan_rooms cfg start realDate rest
        (meta ++ [mkMeta start realDate sid (room_id r)])
        (map_set key (mkPair sid (room_id r)) pairs)
  end.

Fixpoint comfort_plan (cfg : config) (uiDate : string)
    (comfort : list room) (starts : list string)
    (meta : list meta_entry) (pairs : list (string * pair))
  : comp (list meta_entry * list (string * pair)) :=
  match starts with
  | [] => Ret (meta, pairs)
  | start :: rest =>
      realDate ← lift (realDateForStart uiDate start);
      '(meta', pairs') ←
        comfort_plan_rooms cfg start realDate comfort meta pairs;
      comfort_plan cfg uiDate comfort rest meta' pairs'
  end.

(** The verdict and price of one room of the pool for one slot, as the
    body of the inner aggregation loop computes them. *)
Definition comfort_room_status (cfg : config)
    (idxByPair : gmap string (gmap string item))
    (start realDate t1 t2 : string) (r : room)
  : comp (verdict * option Q) :=
  sid ← pickComfortServiceId cfg (room_group r) realDate start;
  let byKey := idxByPair !! (sid +:+ "|" +:+ room_id r) in
  let it1 := probe byKey realDate t1 in
  let it2 := probe byKey realDate t2 in
  let slot1 := slotInfo it1 realDate t1 in
  let slot2 := slotInfo it2 realDate t2 in
  Ret (evaluateRoomStatus slot1 slot2, pickPrice it1 it2).

Fixpoint comfort_fold (cfg : config)
    (idxByPair : gmap string (gmap string item))
    (start realDate t1 t2 : string) (comfort : list room)
    (free_count busy_count : Z) (min_price : option Q)
  : comp (Z * Z * option Q) :=
  match comfort with
  | [] => Ret (free_count, busy_count, min_price)
  | r :: rest =>
      '(st, price) ←
        comfort_room_status cfg idxByPair start realDate t1 t2 r;
      if is_free (v_status st) then
        comfort_fold cfg idxByPair start realDate t1 t2 rest
          (free_count + 1) busy_count
          (match price with
           | Some p =>
               Some (match min_price with
                     | None => p
                     | Some mp => Math_min mp p
                     end)
           | None => min_price
           end)
      else
        comfort_fold cfg idxByPair start realDate t1 t2 rest
          free_count (busy_count + 1) min_price
  end.

Definition comfort_cell_of (cfg : config)
    (idxByPair : gmap string (gmap string item))
    (uiDate : string) (comfort : list room) (start : string)
  : comp comfort_cell :=
  realDate ← lift (realDateForStart uiDate start);
  t1 ← lift (slotTime1 start);
  t2 ← lift (slotTime2 start);
  '(free_count, busy_count, min_price) ←
    comfort_fold cfg idxByPair start realDate t1 t2 comfort 0 0 None;
  Ret (mkComfortCell free_count busy_count (Z.of_nat (length comfort))
         min_price).

Fixpoint comfort_grid (cfg : config)
    (idxByPair : gmap string (gmap string item))
    (uiDate : string) (comfort : list room) (starts : list string)
    (grid : list (string * comfort_cell))
  : comp (list (string * comfort_cell)) :=
  match starts with
  | [] => Ret grid
  | start :: rest =>
      cell ← comfort_cell_of cfg idxByPair uiDate comfort start;
      comfort_grid cfg idxByPair uiDate comfort rest
        (map_set start cell grid)
  end.

Definition availability_grid_comfort (req : request)
    (loadConfig : settled config) : option response :=
  if String.eqb (req_club_id req) "" then
    Some (ErrorResponse 400 "Missing club_id" None)
  else if negb (isIsoDate (req_date req)) then
    Some (ErrorResponse 400 "Missing/invalid date (YYYY-MM-DD)" None)
  else
    let uiDate := req_date req in
    start_date ← addDaysIso uiDate (-1);
    end_date ← addDaysIso uiDate 1;
    try_catch (
      cfg ← await loadConfig;
      let comfort := fst (splitRooms (rooms cfg)) in
      match comfort with
      | [] =>
          Ret (ErrorResponse 500
                 "Comfort rooms not found in rooms_services.json" None)
      | _ =>
          '(meta, pairs) ← comfort_plan cfg uiDate comfort STARTS [] [];
          idxByPair ←
            fetch_all (req_club_id req) start_date end_date pairs;
          grid ← comfort_grid cfg idxByPair uiDate comfort STARTS [];
          Ret (ComfortGrid (req_club_id req) uiDate start_date end_date
                 grid)
      end).

End Engine.

(** * Vocabulary of the properties *)

(** ** Records and prices *)

(** The forms of [rental_id] that mark a free interval. *)
Definition free_rental_id (v : JS.value) : Prop :=
  v = JS.JNull \/ v = JS.JUndefined \/ v = JS.JStr "" \/
  exists q, v = JS.JNum q /\ (q == 0)%Q.

(** A probe has numeric price [q]: its record is there and [price] is
    the number [q]. *)
Definition has_numeric_price (it : option item) (q : Q) : Prop :=
  exists i, it = Some i /\ price i = JS.JNum q.

Definition no_numeric_price (it : option item) : Prop :=
  forall q, ~ has_numeric_price it q.

(** ** Numbers and clock times *)


(** Text of the form [HH:MM]: the pattern two digits, a colon, two
    digits, and nothing else. *)
Definition clock_text (s : string) : bool :=
  match match_prefix time_pattern s with
  | Some EmptyString => true
  | _ => false
  end.

(** ** Lexicographic order *)

(** The lexicographic order on strings, stated on its own: a proper
    prefix comes first, otherwise the first differing character decides. *)
Inductive lex_lt : string -> string -> Prop :=
| lex_lt_nil c b : lex_lt EmptyString (String c b)
| lex_lt_head c d a b :
    JS.code c < JS.code d -> lex_lt (String c a) (String d b)
| lex_lt_tail c a b : lex_lt a b -> lex_lt (String c a) (String c b).

Definition lex_le (a b : string) : Prop := a = b \/ lex_lt a b.

(** ** Calendar dates *)

(** The Gregorian calendar, stated without reference to time values. *)
Module Calendar.

Definition leap_year (y : Z) : bool :=
  ((y mod 4 =? 0) && negb (y mod 100 =? 0)) || (y mod 400 =? 0).

Definition days_in_month (y m : Z) : Z :=
  match m with
  | 1 | 3 | 5 | 7 | 8 | 10 | 12 => 31
  | 4 | 6 | 9 | 11 => 30
  | 2 => if leap_year y then 29 else 28
  | _ => 0
  end.

Definition valid_date (y m d : Z) : Prop :=
  1 <= m <= 12 /\ 1 <= d <= days_in_month y m.

(** The day before [y-m-d]. *)
Definition prev_day (y m d : Z) : Z * Z * Z :=
  if 1 <? d then (y, m, d - 1)
  else if 1 <? m then (y, m - 1, days_in_month y (m - 1))
  else (y - 1, 12, 31).

End Calendar.

(** The text forms the engine exchanges: two and four decimal digits,
    [YYYY-MM-DD] and [HH:MM]. *)
Definition two_digits (n : Z) : string :=
  String (JS.digit_char (n / 10))
    (String (JS.digit_char (n mod 10)) EmptyString).

Definition four_digits (n : Z) : string :=
  String (JS.digit_char (n / 1000))
    (String (JS.digit_char (n / 100 mod 10))
       (String (JS.digit_char (n / 10 mod 10))
          (String (JS.digit_char (n mod 10)) EmptyString))).

Definition iso_date (y m d : Z) : string :=
  four_digits y +:+ "-" +:+ two_digits m +:+ "-" +:+ two_digits d.

Definition clock (h m : Z) : string :=
  two_digits h +:+ ":" +:+ two_digits m.

(** Runs of decimal digits. *)
Definition digit_string (s : string) : bool :=
  forallb JS.is_digit (String.list_ascii_of_string s).

(** Text of the form digits-digits-digits. *)
Definition date_text (s : string) : Prop :=
  exists a b c,
    s = a +:+ "-" +:+ b +:+ "-" +:+ c /\
    digit_string a = true /\ digit_string b = true /\ digit_string c = true.

(** ** Maps, plans and indexes *)

(** [m.get(k)] on an insertion-ordered map. *)
Fixpoint map_get {V : Type} (k : string) (m : list (string * V)) : option V :=
  match m with
  | [] => None
  | (k', v) :: m' => if String.eqb k k' then Some v else map_get k m'
  end.

Definition pair_of (m : meta_entry) : pair :=
  mkPair (m_service_id m) (m_room_id m).

(** What the two planning loops maintain: the keys of [pairs] are
    distinct, every entry sits under the key of its own pair and comes
    from a resolved slot, and every resolved slot has its key in [pairs]. *)
Record plan_inv (meta : list meta_entry) (pairs : list (string * pair))
  : Prop := {
  inv_nodup : List.NoDup (List.map fst pairs);
  inv_keys : forall k p, In (k, p) pairs ->
               k = pair_key p /\ exists m, In m meta /\ pair_of m = p;
  inv_cover : forall m, In m meta ->
                In (pair_key (pair_of m)) (List.map fst pairs)
}.

(** How an entry of [meta] was resolved. *)
Definition elite_resolved (cfg : config) (eliteId uiDate : string)
    (m : meta_entry) : Prop :=
  realDateForStart uiDate (m_start m) = Some (m_realDate m) /\
  pickEliteServiceId cfg (m_realDate m) (m_start m) = Ret (m_service_id m) /\
  m_room_id m = eliteId.

Definition comfort_resolved (cfg : config) (comfort : list room)
    (uiDate : string) (m : meta_entry) : Prop :=
  realDateForStart uiDate (m_start m) = Some (m_realDate m) /\
  exists r, In r comfort /\ m_room_id m = room_id r /\
    pickComfortServiceId cfg (room_group r) (m_realDate m) (m_start m)
      = Ret (m_service_id m).

(** The composite key tells the resolved pairs apart. *)
Definition keys_separate (meta : list meta_entry) : Prop :=
  forall m1 m2, In m1 meta -> In m2 meta ->
    pair_key (pair_of m1) = pair_key (pair_of m2) -> pair_of m1 = pair_of m2.

Definition bar_free (s : string) : Prop :=
  forall c, In c (String.list_ascii_of_string s) -> c <> "|"%char.

(** Deciding [bar_free]. *)
Definition bar_freeb (s : string) : bool :=
  forallb (fun c => negb (Ascii.eqb c "|")) (String.list_ascii_of_string s).

(** The index the engine builds from the answer to the query for [p]. *)
Definition index_for (upstream : query -> exchange)
    (club_id start_date end_date : string) (p : pair)
  : settled (gmap string item) :=
  fetchIndexedRentalTimes
    (answer (upstream (query_of club_id start_date end_date p))).

(** The rooms of the pool whose verdict for the slot satisfies [P]. *)
Definition rooms_with (cfg : config)
    (idxByPair : gmap string (gmap string item))
    (start realDate t1 t2 : string)
    (P : Status -> bool) (comfort : list room) : Z :=
  Z.of_nat
    (length
       (List.filter
          (fun r =>
             match comfort_room_status cfg idxByPair start realDate t1 t2 r with
             | Ret (st, _) => P (v_status st)
             | _ => false
             end)
          comfort)).

(** ** Worked requests *)

Module Scenario.

Definition service_for (prefix : string) (t : DayType) (b : DayBand)
  : option string :=
  Some (prefix +:+ "-" +:+ dayTypeName t +:+ "-" +:+ bandName b).

(** A pool of three rooms and the exclusive room. *)
Definition cfg : config :=
  mkConfig
    [mkRoom "r1" "Comfort 1" "comfort" "g1";
     mkRoom "r2" "Comfort 2" "comfort" "g1";
     mkRoom "r3" "Comfort 3" "comfort" "g2";
     mkRoom "e9" "Elite" "elite" ""]
    (service_for "elite")
    service_for.

Definition answer_with (items : list item) : reply :=
  Response
    (mkResponse true 200 ""
       (Some (BodyObject (JS.JBool true) JS.JUndefined None (Some items)))).

(** Upstream knows nothing about rooms r1 and r2; room r3 is free at
    02:00 and 03:00 of 2025-01-19; the exclusive room is free at 14:00
    and 15:00 of 2025-01-20. *)
Definition upstream (q : query) : exchange :=
  if String.eqb (q_room_id q) "r3" then
    mkExchange 3
      (answer_with [Item "2025-01-19 02:00:00" JS.JNull (JS.JNum 900);
                    Item "2025-01-19 03:00:00" JS.JNull JS.JNull])
  else if String.eqb (q_room_id q) "e9" then
    mkExchange 2
      (answer_with [Item "2025-01-20 14:00:00" JS.JNull (JS.JNum 1200);
                    Item "2025-01-20 15:00:00" JS.JNull JS.JNull])
  else mkExchange 1 (answer_with []).

(** The same, with the queries for room r2 answered by HTTP 503. *)
Definition upstream_down (q : query) : exchange :=
  if String.eqb (q_room_id q) "r2" then
    mkExchange 2
      (Response (mkResponse false 503 "Service Unavailable" None))
  else upstream q.

Definition req : request := mkRequest "club" "2025-01-20".

(** A pool whose ids contain the separator of the composite key: both
    rooms resolve to the key "a|b|c". *)
Definition cfg_bar : config :=
  mkConfig
    [mkRoom "c" "Comfort 1" "comfort" "g1";
     mkRoom "b|c" "Comfort 2" "comfort" "g2"]
    (fun _ _ => Some "e"%string)
    (fun g _ _ => if String.eqb g "g1" then Some "a|b"%string
                  else Some "a"%string).

(** Room "c" (service "a|b") is booked all day, room "b|c" (service "a")
    is free from 06:00 to 08:00 of 2025-01-20. *)
Definition upstream_bar (q : query) : exchange :=
  if String.eqb (q_service_id q) "a" then
    mkExchange 1
      (answer_with [Item "2025-01-20 06:00:00" JS.JNull (JS.JNum 700);
                    Item "2025-01-20 07:00:00" JS.JNull JS.JNull])
  else
    mkExchange 1
      (answer_with [Item "2025-01-20 06:00:00" (JS.JStr "rent-1") JS.JNull;
                    Item "2025-01-20 07:00:00" (JS.JStr "rent-1") JS.JNull]).

End Scenario.

(** The index of the pooled scenario: nothing for rooms r1 and r2, two
    free hours for room r3 (2025-01-19 is a Sunday). *)
Definition scenario_index : gmap string (gmap string item) :=
  <[ "g1-weekend-night|r1"%string := ∅ ]>
    (<[ "g1-weekend-night|r2"%string := ∅ ]>
       (<[ "g2-weekend-night|r3"%string :=
             <[ "2025-01-19|02:00"%string :=
                  Item "2025-01-19 02:00:00" JS.JNull (JS.JNum 900) ]>
               (<[ "2025-01-19|03:00"%string :=
                     Item "2025-01-19 03:00:00" JS.JNull JS.JNull ]> ∅) ]> ∅)).

Definition scenario_pool : list room :=
  fst (splitRooms (rooms Scenario.cfg)).


(** ** Service resolution *)

(** The service table has an id for the slot [start] of display date
    [uiDate], or lacks one for its day type [dt]. *)
Definition elite_slot_resolved (cfg : config) (uiDate start : string)
  : Prop :=
  exists r dt id,
    realDateForStart uiDate start = Some r /\
    getDayType r = Some dt /\
    truthy_id (services_elite cfg dt (getDayBand start)) = Some id.

Definition elite_slot_unresolved (cfg : config) (uiDate start : string)
    (dt : DayType) : Prop :=
  exists r,
    realDateForStart uiDate start = Some r /\
    getDayType r = Some dt /\
    truthy_id (services_elite cfg dt (getDayBand start)) = None.

Definition comfort_slot_resolved (cfg : config) (uiDate start group : string)
  : Prop :=
  exists r dt id,
    realDateForStart uiDate start = Some r /\
    getDayType r = Some dt /\
    truthy_id (services_comfort cfg group dt (getDayBand start)) = Some id.

Definition comfort_slot_unresolved (cfg : config)
    (uiDate start group : string) (dt : DayType) : Prop :=
  exists r,
    realDateForStart uiDate start = Some r /\
    getDayType r = Some dt /\
    truthy_id (services_comfort cfg group dt (getDayBand start)) = None.

(** The configuration of the worked requests without the exclusive
    service of weekend nights. *)
Definition cfg_gap : config :=
  mkConfig (rooms Scenario.cfg)
    (fun t b =>
       match t, b with
       | Weekend, BandNight => None
       | _, _ => Scenario.service_for "elite" t b
       end)
    Scenario.service_for.

(** ** The pool, room by room *)


(** The numeric prices picked for the rooms of the pool whose verdict is
    free, in room order. *)
Definition free_prices (cfg : config)
    (idxByPair : gmap string (gmap string item))
    (start realDate t1 t2 : string) (comfort : list room) : list Q :=
  List.flat_map
    (fun r =>
       match comfort_room_status cfg idxByPair start realDate t1 t2 r with
       | Ret (st, Some p) => if is_free (v_status st) then [p] else []
       | _ => []
       end)
    comfort.

(** ** Indexed records *)

(** The key under which a record is indexed, if its timestamp parses. *)
Definition item_key (it : item) : option string :=
  let '(d, t) := parseDateTime it in
  if String.eqb d "" || String.eqb t "" then None
  else Some (d +:+ "|" +:+ t).

(** The last record of a list, in list order, that is indexed under [k]. *)
Fixpoint last_with_key (k : string) (items : list item) : option item :=
  match items with
  | [] => None
  | it :: rest =>
      match last_with_key k rest with
      | Some x => Some x
      | None =>
          match item_key it with
          | Some k' => if String.eqb k' k then Some it else None
          | None => None
          end
      end
  end.

(** ** A pool of one room *)



(** ** More of the calendar *)

(** The day after [y-m-d]. *)
Definition next_day (y m d : Z) : Z * Z * Z :=
  if d <? Calendar.days_in_month y m then (y, m, d + 1)
  else if m <? 12 then (y, m + 1, 1)
  else (y + 1, 1, 1).

(** Zeller's congruence for the Gregorian calendar: 0 is Saturday, 1 is
    Sunday, ..., 6 is Friday. *)
Definition zeller (y m d : Z) : Z :=
  let y' := if m <? 3 then y - 1 else y in
  let m' := if m <? 3 then m + 12 else m in
  let K := y' mod 100 in
  let J := y' / 100 in
  (d + 13 * (m' + 1) / 5 + K + K / 4 + J / 4 + 5 * J) mod 7.

(** Friday, Saturday and Sunday. *)
Definition zeller_weekend (y m d : Z) : bool :=
  (zeller y m d =? 6) || (zeller y m d =? 0) || (zeller y m d =? 1).

(** * Properties *)

(** ** Occupancy records and the two-probe verdict *)

Lemma isFreeItem_free_rental_id (it : item) :
  isFreeItem (Some it) = true <-> free_rental_id (rental_id it).
Proof.
  unfold isFreeItem, free_rental_id.
  destruct (rental_id it) as [ | | b | q | s | ]; split; intros H.
  all: try (left; reflexivity).
  all: try (right; left; reflexivity).
  all: try reflexivity.
  all: try discriminate H.
  - destruct H as [H | [H | [H | (q & H & _)]]]; discriminate H.
  - right; right; right. exists q. split; [reflexivity | ].
    by apply Qeq_bool_iff.
  - destruct H as [H | [H | [H | (q' & H & Hq)]]]; try discriminate H.
    injection H as ->. by apply Qeq_bool_iff.
  - right; right; left. apply String.eqb_eq in H. by rewrite H.
  - destruct H as [H | [H | [H | (q & H & _)]]]; try discriminate H.
    injection H as ->. reflexivity.
  - destruct H as [H | [H | [H | (q & H & _)]]]; discriminate H.
Qed.

(** C8. A record that is present in the index is reported [Free] exactly
    when its [rental_id] is null, absent, the empty string or zero, and
    [Busy] for every other value; it is never [Missing]. *)
Theorem present_record_free_iff (it : item) (date time : string) :
  (slot_status (slotInfo (Some it) date time) = Free
     <-> free_rental_id (rental_id it)) /\
  (slot_status (slotInfo (Some it) date time) = Busy
     <-> ~ free_rental_id (rental_id it)) /\
  slot_status (slotInfo (Some it) date time) <> Missing.
Proof.
  pose proof (isFreeItem_free_rental_id it) as Hfree.
  cbn [slotInfo slot_status].
  destruct (isFreeItem (Some it)) eqn:E.
  - split; [ | split]; [ | | discriminate].
    + split; [intros _; by apply Hfree | reflexivity].
    + split; [discriminate | ].
      intros Hf. exfalso. apply Hf. by apply Hfree.
  - split; [ | split]; [ | | discriminate].
    + split; [discriminate | ].
      intros Hf. apply Hfree in Hf. discriminate Hf.
    + split; [ | reflexivity].
      intros _ Hf. apply Hfree in Hf. discriminate Hf.
Qed.

(** C2. Missing is decided before busy: with either probe key absent
    from the index (or no index at all for the pair) the verdict is
    missing / "slot_missing", whatever the other record says; with both
    present it is busy / "occupied" as soon as one of them is not free,
    and free without a reason otherwise. *)
Theorem verdict_missing_precedes_busy
    (byKey : gmap string item) (date t1 t2 : string) :
  evaluateRoomStatus
    (slotInfo (probe (Some byKey) date t1) date t1)
    (slotInfo (probe (Some byKey) date t2) date t2)
  = match byKey !! (date +:+ "|" +:+ t1), byKey !! (date +:+ "|" +:+ t2) with
    | None, _ | _, None => mkVerdict Missing (Some "slot_missing"%string)
    | Some r1, Some r2 =>
        if isFreeItem (Some r1) && isFreeItem (Some r2)
        then mkVerdict Free None
        else mkVerdict Busy (Some "occupied"%string)
    end
  /\
  evaluateRoomStatus
    (slotInfo (probe None date t1) date t1)
    (slotInfo (probe None date t2) date t2)
  = mkVerdict Missing (Some "slot_missing"%string).
Proof.
  split; [ | reflexivity].
  unfold probe.
  destruct (byKey !! (date +:+ "|" +:+ t1)) as [r1|],
           (byKey !! (date +:+ "|" +:+ t2)) as [r2|]; cbn [slotInfo].
  - destruct (isFreeItem (Some r1)), (isFreeItem (Some r2)); reflexivity.
  - unfold evaluateRoomStatus; cbn [slot_status].
    destruct (isFreeItem (Some r1)); reflexivity.
  - reflexivity.
  - reflexivity.
Qed.

Lemma numeric_price_cases (it : option item) :
  (exists q, has_numeric_price it q) \/ no_numeric_price it.
Proof.
  destruct it as [i|].
  - destruct (price i) as [ | | b | q | s | ] eqn:E.
    4: { left. exists q, i. by split. }
    all: right; intros q (i' & Hi & Hp); injection Hi as <-; congruence.
  - right. intros q (i & Hi & _). discriminate Hi.
Qed.

(** C5. The slot price is the numeric price of probe 1, else the numeric
    price of probe 2, else none; (500, 700) gives 500, (none, 700) gives
    700 and (none, none) gives none. *)
Theorem pickPrice_first_numeric :
  (forall it1 it2 q,
     has_numeric_price it1 q -> pickPrice it1 it2 = Some q) /\
  (forall it1 it2 q,
     no_numeric_price it1 -> has_numeric_price it2 q ->
     pickPrice it1 it2 = Some q) /\
  (forall it1 it2,
     no_numeric_price it1 -> no_numeric_price it2 ->
     pickPrice it1 it2 = None) /\
  (forall d1 r1 d2 r2,
     pickPrice (Some (Item d1 r1 (JS.JNum 500)))
               (Some (Item d2 r2 (JS.JNum 700))) = Some 500%Q) /\
  (forall d1 r1 d2 r2,
     pickPrice (Some (Item d1 r1 JS.JNull))
               (Some (Item d2 r2 (JS.JNum 700))) = Some 700%Q) /\
  (forall d2 r2,
     pickPrice None (Some (Item d2 r2 (JS.JNum 700))) = Some 700%Q) /\
  (forall d1 r1 d2 r2,
     pickPrice (Some (Item d1 r1 JS.JUndefined))
               (Some (Item d2 r2 JS.JNull)) = None).
Proof.
  assert (Hnone : forall it, no_numeric_price it ->
            match it with
            | Some i => match price i with JS.JNum q => Some q | _ => None end
            | None => None
            end = None).
  { intros [i|] Hno; [ | reflexivity].
    destruct (price i) as [ | | b | q | s | ] eqn:E; try reflexivity.
    exfalso. apply (Hno q). exists i. by split. }
  assert (Hsome : forall it q, has_numeric_price it q ->
            match it with
            | Some i => match price i with JS.JNum q => Some q | _ => None end
            | None => None
            end = Some q).
  { intros it q (i & -> & Hp). by rewrite Hp. }
  split; [ | split; [ | split]].
  - intros it1 it2 q H. unfold pickPrice. by rewrite (Hsome _ _ H).
  - intros it1 it2 q H1 H2. unfold pickPrice.
    by rewrite (Hnone _ H1), (Hsome _ _ H2).
  - intros it1 it2 H1 H2. unfold pickPrice.
    by rewrite (Hnone _ H1), (Hnone _ H2).
  - repeat split; reflexivity.
Qed.

(** ** Day band *)

Lemma code_inj (c d : ascii) : JS.code c = JS.code d -> c = d.
Proof.
  unfold JS.code. intros H. apply N2Z.inj in H.
  rewrite <- (ascii_N_embedding c), <- (ascii_N_embedding d). by rewrite H.
Qed.

Lemma str_lt_lex (a b : string) : JS.str_lt a b = true <-> lex_lt a b.
Proof.
  split.
  - revert b. induction a as [ | c a IH]; intros [ | d b] H; cbn in H;
      try discriminate H.
    + constructor.
    + destruct (JS.code c <? JS.code d) eqn:E1.
      * apply lex_lt_head. lia.
      * destruct (JS.code d <? JS.code c) eqn:E2; [discriminate H | ].
        assert (c = d) as -> by (apply code_inj; lia).
        apply lex_lt_tail. by apply IH.
  - induction 1 as [c b | c d a b Hlt | c a b _ IH]; cbn.
    + reflexivity.
    + destruct (JS.code c <? JS.code d) eqn:E1; [reflexivity | lia].
    + by rewrite Z.ltb_irrefl.
Qed.

Lemma lex_lt_irrefl (a : string) : ~ lex_lt a a.
Proof.
  induction a as [ | c a IH]; inversion 1; subst; [lia | by apply IH].
Qed.

Lemma lex_lt_asym (a b : string) : lex_lt a b -> ~ lex_lt b a.
Proof.
  induction 1 as [c b | c d a b Hlt | c a b _ IH]; inversion 1; subst.
  - lia.
  - lia.
  - lia.
  - by apply IH.
Qed.

Lemma lex_total (a b : string) : lex_lt a b \/ a = b \/ lex_lt b a.
Proof.
  revert b. induction a as [ | c a IH]; intros [ | d b].
  - right; by left.
  - left; constructor.
  - right; right; constructor.
  - destruct (Z.lt_trichotomy (JS.code c) (JS.code d)) as [H | [H | H]].
    + left. by apply lex_lt_head.
    + apply code_inj in H as ->.
      destruct (IH b) as [H | [-> | H]].
      * left. by apply lex_lt_tail.
      * right; by left.
      * right; right. by apply lex_lt_tail.
    + right; right. by apply lex_lt_head.
Qed.

Lemma str_ge_lex (a b : string) : JS.str_ge a b = true <-> lex_le b a.
Proof.
  unfold JS.str_ge, lex_le. rewrite negb_true_iff.
  split.
  - intros H. destruct (lex_total a b) as [Hlt | [-> | Hgt]].
    + apply str_lt_lex in Hlt. congruence.
    + by left.
    + by right.
  - intros H. destruct (JS.str_lt a b) eqn:E; [ | reflexivity].
    apply str_lt_lex in E. destruct H as [-> | H].
    + by apply lex_lt_irrefl in E.
    + by apply lex_lt_asym in E.
Qed.

Lemma getDayBand_day_iff (start : string) :
  getDayBand start = BandDay <->
  lex_le "08:00" start /\ lex_lt start "16:00".
Proof.
  unfold getDayBand. rewrite <- str_ge_lex, <- str_lt_lex.
  destruct (JS.str_ge start "08:00"), (JS.str_lt start "16:00"); cbn;
    split; try done; intros [? ?]; done.
Qed.

Lemma pickElite_uses_label_band (cfg : config) (realDate start id : string) :
  pickEliteServiceId cfg realDate start = Ret id ->
  exists dayType,
    getDayType realDate = Some dayType /\
    truthy_id (services_elite cfg dayType (getDayBand start)) = Some id.
Proof.
  unfold pickEliteServiceId. intros H.
  destruct (getDayType realDate) as [dayType|]; cbn in H; [ | discriminate H].
  exists dayType. split; [reflexivity | ].
  destruct (truthy_id (services_elite cfg dayType (getDayBand start)));
    [ | discriminate H].
  by injection H as ->.
Qed.

Lemma pickComfort_uses_label_band
    (cfg : config) (group realDate start id : string) :
  pickComfortServiceId cfg group realDate start = Ret id ->
  exists dayType,
    getDayType realDate = Some dayType /\
    truthy_id (services_comfort cfg group dayType (getDayBand start))
      = Some id.
Proof.
  unfold pickComfortServiceId. intros H.
  destruct (getDayType realDate) as [dayType|]; cbn in H; [ | discriminate H].
  exists dayType. split; [reflexivity | ].
  destruct (truthy_id (services_comfort cfg group dayType (getDayBand start)));
    [ | discriminate H].
  by injection H as ->.
Qed.

(** ** Calendar arithmetic *)

Import JSDate.

Local Ltac zdiv := Z.to_euclidean_division_equations; lia.

Lemma leap_spec (y : Z) :
  leap y = true <-> (y mod 4 = 0 /\ y mod 100 <> 0) \/ y mod 400 = 0.
Proof.
  unfold leap.
  rewrite orb_true_iff, andb_true_iff, negb_true_iff, !Z.eqb_eq, Z.eqb_neq.
  tauto.
Qed.

Lemma DayFromYear_succ (y : Z) :
  DayFromYear (y + 1) = DayFromYear y + DaysInYear y.
Proof.
  unfold DaysInYear, DayFromYear.
  destruct (leap y) eqn:E.
  - apply leap_spec in E. zdiv.
  - assert (~ ((y mod 4 = 0 /\ y mod 100 <> 0) \/ y mod 400 = 0)) as N.
    { rewrite <- leap_spec. congruence. }
    zdiv.
Qed.

Lemma YearFromDay_spec (y n : Z) :
  DayFromYear y <= n < DayFromYear (y + 1) -> YearFromDay n = y.
Proof.
  intros H. unfold YearFromDay.
  pose proof (DayFromYear_succ y) as S0.
  pose proof (DayFromYear_succ (y - 1)) as S1.
  pose proof (DayFromYear_succ (y + 1)) as S2.
  replace (y - 1 + 1) with y in S1 by lia.
  assert (Hlen : forall z, 365 <= DaysInYear z <= 366).
  { intros z. unfold DaysInYear. destruct (leap z); lia. }
  pose proof (Hlen y). pose proof (Hlen (y - 1)). pose proof (Hlen (y + 1)).
  set (g := 1970 + 400 * n / 146097).
  assert (y - 1 <= g <= y + 1) as Hg.
  { subst g. unfold DayFromYear in H. clear S0 S1 S2. zdiv. }
  assert (g = y - 1 \/ g = y \/ g = y + 1) as [-> | [-> | ->]] by lia.
  - replace (y - 1 + 1) with y by lia.
    destruct (n <? DayFromYear (y - 1)) eqn:E1; [lia | ].
    destruct (DayFromYear y <=? n) eqn:E2; lia.
  - destruct (n <? DayFromYear y) eqn:E1; [lia | ].
    destruct (DayFromYear (y + 1) <=? n) eqn:E2; lia.
  - destruct (n <? DayFromYear (y + 1)) eqn:E1; [lia | ].
    lia.
Qed.

Import Calendar.

Local Ltac split_month m :=
  let H := fresh in
  assert (m = 1 \/ m = 2 \/ m = 3 \/ m = 4 \/ m = 5 \/ m = 6 \/ m = 7 \/
          m = 8 \/ m = 9 \/ m = 10 \/ m = 11 \/ m = 12) as H by lia;
  repeat (destruct H as [H | H]); subst m.

Local Ltac eval_monthStart :=
  repeat match goal with
         | |- context [monthStart ?l ?m] =>
             let v := eval vm_compute in (monthStart l m) in
             change (monthStart l m) with v
         | H : context [monthStart ?l ?m] |- _ =>
             let v := eval vm_compute in (monthStart l m) in
             change (monthStart l m) with v in H
         end.

Local Ltac eval_pred :=
  repeat match goal with
         | |- context [Zpos ?a - 1] =>
             let v := eval vm_compute in (Zpos a - 1) in
             change (Zpos a - 1) with v
         end.

Local Ltac decide_ltb :=
  repeat match goal with
         | |- context [?a <? ?b] => destruct (Z.ltb_spec a b); try lia
         end.

Lemma Day_MakeDate (n tod : Z) :
  0 <= tod < msPerDay -> Day (MakeDate n tod) = n.
Proof. unfold Day, MakeDate, msPerDay. intros H. zdiv. Qed.

Lemma TimeWithinDay_MakeDate (n tod : Z) :
  0 <= tod < msPerDay -> TimeWithinDay (MakeDate n tod) = tod.
Proof. unfold TimeWithinDay, MakeDate, msPerDay. intros H. zdiv. Qed.

Lemma MakeDay_valid (y m d : Z) :
  1 <= m <= 12 ->
  MakeDay y (m - 1) d =
    DayFromYear y + monthStart (if leap y then 1 else 0) (m - 1) + d - 1.
Proof.
  intros H. unfold MakeDay.
  replace ((m - 1) / 12) with 0 by zdiv.
  replace ((m - 1) mod 12) with (m - 1) by zdiv.
  by rewrite Z.add_0_r.
Qed.

(** Reading back the fields of a time value built from a calendar date. *)
Lemma fields_of_valid_date (y m d tod : Z) :
  valid_date y m d -> 0 <= tod < msPerDay ->
  let t := MakeDate (MakeDay y (m - 1) d) tod in
  YearFromTime t = y /\ MonthFromTime t = m - 1 /\ DateFromTime t = d.
Proof.
  intros [Hm Hd] Htod t.
  assert (Day t = MakeDay y (m - 1) d) as HDay by by apply Day_MakeDate.
  rewrite MakeDay_valid in HDay by done.
  assert (YearFromTime t = y) as HY.
  { unfold YearFromTime. rewrite HDay. apply YearFromDay_spec.
    rewrite DayFromYear_succ. unfold DaysInYear.
    unfold days_in_month, leap_year in Hd. fold (leap y) in Hd.
    destruct (leap y); split_month m; cbv beta iota in Hd;
      eval_monthStart; lia. }
  assert (DayWithinYear t =
          monthStart (if leap y then 1 else 0) (m - 1) + d - 1) as HW.
  { unfold DayWithinYear. rewrite HY, HDay. lia. }
  assert (InLeapYear t = if leap y then 1 else 0) as HL.
  { unfold InLeapYear. by rewrite HY. }
  assert (MonthFromTime t = m - 1) as HM.
  { unfold MonthFromTime. rewrite HW, HL.
    unfold days_in_month, leap_year in Hd. fold (leap y) in Hd.
    destruct (leap y); split_month m; cbv beta iota in Hd;
      eval_monthStart; decide_ltb;
      match goal with |- ?a = ?b - 1 => by vm_compute end. }
  split; [done | split; [done | ]].
  unfold DateFromTime. rewrite HM, HW, HL. lia.
Qed.

Lemma prev_day_valid (y m d : Z) :
  valid_date y m d ->
  let '(y', m', d') := prev_day y m d in valid_date y' m' d'.
Proof.
  intros [Hm Hd]. unfold prev_day, valid_date.
  destruct (Z.ltb_spec 1 d); [lia | ].
  destruct (Z.ltb_spec 1 m).
  - split; [lia | ].
    unfold days_in_month.
    split_month m; try lia; destruct (leap_year y); vm_compute;
      split; congruence.
  - vm_compute. repeat split; congruence.
Qed.

Lemma MakeDay_prev_day (y m d : Z) :
  valid_date y m d ->
  let '(y', m', d') := prev_day y m d in
  MakeDay y (m - 1) (d - 1) = MakeDay y' (m' - 1) d'.
Proof.
  intros [Hm Hd]. unfold prev_day.
  destruct (Z.ltb_spec 1 d); [reflexivity | ].
  assert (d = 1) as -> by lia.
  destruct (Z.ltb_spec 1 m).
  - rewrite !MakeDay_valid by lia.
    unfold days_in_month, leap_year. fold (leap y).
    destruct (leap y); split_month m; try lia; eval_pred; cbv beta iota;
      eval_monthStart; lia.
  - assert (m = 1) as -> by lia.
    rewrite !MakeDay_valid by lia.
    pose proof (DayFromYear_succ (y - 1)) as HS.
    replace (y - 1 + 1) with y in HS by lia. unfold DaysInYear in HS.
    destruct (leap (y - 1)), (leap y); eval_monthStart; lia.
Qed.

(** What [addDaysIso] computes on the numbers of a calendar date whose
    year [Date.UTC] takes as it is: the day before. *)
Lemma setUTCDate_prev_day (y m d : Z) :
  valid_date y m d -> ~ (0 <= y <= 99) ->
  let dt := UTC_noon y (m - 1) d in
  let dt' := setUTCDate dt (getUTCDate dt + -1) in
  (getUTCFullYear dt', getUTCMonth dt' + 1, getUTCDate dt') = prev_day y m d.
Proof.
  intros Hv Hy dt dt'.
  assert (0 <= 12 * 3600000 < msPerDay) as Hnoon by (unfold msPerDay; lia).
  assert (dt = MakeDate (MakeDay y (m - 1) d) (12 * 3600000)) as Hdt.
  { subst dt. unfold UTC_noon.
    destruct (Z.leb_spec 0 y), (Z.leb_spec y 99); cbn [andb]; try reflexivity.
    lia. }
  destruct (fields_of_valid_date y m d _ Hv Hnoon) as (HY & HM & HD).
  rewrite <- Hdt in HY, HM, HD.
  assert (dt' = MakeDate (MakeDay y (m - 1) (d - 1)) (12 * 3600000)) as Hdt'.
  { subst dt'. unfold setUTCDate, getUTCDate. rewrite HY, HM, HD.
    rewrite Hdt at 1. rewrite TimeWithinDay_MakeDate by done.
    by replace (d + -1) with (d - 1) by lia. }
  pose proof (prev_day_valid y m d Hv) as Hv'.
  pose proof (MakeDay_prev_day y m d Hv) as HMk.
  destruct (prev_day y m d) as [[y' m'] d'].
  rewrite HMk in Hdt'.
  destruct (fields_of_valid_date y' m' d' _ Hv' Hnoon) as (HY' & HM' & HD').
  rewrite <- Hdt' in HY', HM', HD'.
  unfold getUTCFullYear, getUTCMonth, getUTCDate.
  rewrite HY', HM', HD'. by replace (m' - 1 + 1) with m' by lia.
Qed.

(** ** Dates and clock times as text *)

Lemma digit_char_facts (d : Z) :
  0 <= d <= 9 ->
  JS.is_digit (JS.digit_char d) = true /\
  JS.digit_val (JS.digit_char d) = d /\
  Ascii.eqb (JS.digit_char d) "-" = false /\
  Ascii.eqb (JS.digit_char d) ":" = false.
Proof.
  intros H.
  assert (d = 0 \/ d = 1 \/ d = 2 \/ d = 3 \/ d = 4 \/ d = 5 \/ d = 6 \/
          d = 7 \/ d = 8 \/ d = 9) as C by lia.
  repeat (destruct C as [C | C]); subst d; vm_compute; by repeat split.
Qed.

Local Ltac use_digit e :=
  let H := fresh in
  assert (0 <= e <= 9) as H by zdiv;
  destruct (digit_char_facts e H) as (? & ? & ? & ?); clear H.

Local Ltac rewrite_digits :=
  repeat match goal with
         | H : JS.is_digit ?c = true |- context [JS.is_digit ?c] => rewrite H
         | H : JS.digit_val ?c = _ |- context [JS.digit_val ?c] => rewrite H
         | H : Ascii.eqb ?c ?s = false |- context [Ascii.eqb ?c ?s] =>
             rewrite H
         end.

Lemma Number_two_digits (n : Z) :
  0 <= n <= 99 -> JS.Number (two_digits n) = Some n.
Proof.
  intros H. use_digit (n / 10). use_digit (n mod 10).
  unfold JS.Number, two_digits. cbn [JS.digits_val]. rewrite_digits.
  cbn [JS.digits_val]. rewrite_digits. f_equal. zdiv.
Qed.

Lemma Number_four_digits (n : Z) :
  0 <= n <= 9999 -> JS.Number (four_digits n) = Some n.
Proof.
  intros H. use_digit (n / 1000). use_digit (n / 100 mod 10).
  use_digit (n / 10 mod 10). use_digit (n mod 10).
  unfold JS.Number, four_digits.
  repeat (cbn [JS.digits_val]; rewrite_digits). f_equal. zdiv.
Qed.

Lemma split_iso_date (y m d : Z) :
  0 <= y <= 9999 -> 0 <= m <= 99 -> 0 <= d <= 99 ->
  JS.split "-" (iso_date y m d) = [four_digits y; two_digits m; two_digits d].
Proof.
  intros Hy Hm Hd.
  use_digit (y / 1000). use_digit (y / 100 mod 10).
  use_digit (y / 10 mod 10). use_digit (y mod 10).
  use_digit (m / 10). use_digit (m mod 10).
  use_digit (d / 10). use_digit (d mod 10).
  unfold JS.split, iso_date, four_digits, two_digits.
  cbv [String.append].
  repeat (rewrite_digits; cbn [JS.split_go]).
  reflexivity.
Qed.


Lemma slice02_clock (h m : Z) : JS.slice02 (clock h m) = two_digits h.
Proof. reflexivity. Qed.

Lemma String_two_digits (n : Z) :
  0 <= n <= 99 -> JS.padStart2 (JS.String_ n) = two_digits n.
Proof.
  intros H. unfold JS.String_.
  destruct (Z.ltb_spec n 0); [lia | ].
  destruct (Z.to_nat n) as [ | k] eqn:E.
  - assert (n = 0) as -> by lia. reflexivity.
  - cbn [JS.dec_digits]. unfold two_digits.
    destruct (Z.eqb_spec (n / 10) 0) as [E0 | E0].
    + rewrite E0. reflexivity.
    + destruct (Z.eqb_spec (n / 10 / 10) 0) as [E1 | E1]; [ | zdiv].
      replace (n / 10 mod 10) with (n / 10) by zdiv. reflexivity.
Qed.

Lemma String_four_digits (n : Z) :
  1000 <= n <= 9999 -> JS.String_ n = four_digits n.
Proof.
  intros H. unfold JS.String_.
  destruct (Z.ltb_spec n 0); [lia | ].
  destruct (Z.to_nat n) as [ | [ | [ | k]]] eqn:E; try lia.
  cbn [JS.dec_digits]. unfold four_digits.
  destruct (Z.eqb_spec (n / 10) 0); [zdiv | ].
  destruct (Z.eqb_spec (n / 10 / 10) 0); [zdiv | ].
  destruct (Z.eqb_spec (n / 10 / 10 / 10) 0); [zdiv | ].
  destruct (Z.eqb_spec (n / 10 / 10 / 10 / 10) 0); [ | zdiv].
  replace (n / 10 / 10 / 10 mod 10) with (n / 1000) by zdiv.
  replace (n / 10 / 10 mod 10) with (n / 100 mod 10) by zdiv.
  reflexivity.
Qed.

(** ** Real date of a slot, probe times *)

Lemma days_in_month_le_31 (y m : Z) : days_in_month y m <= 31.
Proof.
  unfold days_in_month.
  destruct m as [ | p | p]; try lia.
  do 4 (try destruct p as [p | p | ]); try lia; destruct (leap_year y); lia.
Qed.

Lemma addDaysIso_prev_day (y m d : Z) :
  valid_date y m d -> 1000 <= y <= 9999 -> (y, m, d) <> (1000, 1, 1) ->
  addDaysIso (iso_date y m d) (-1) =
    Some (let '(y', m', d') := prev_day y m d in iso_date y' m' d').
Proof.
  intros Hv Hy Hne.
  pose proof (days_in_month_le_31 y m) as Hle.
  assert (~ 0 <= y <= 99) as Hy' by lia.
  pose proof (setUTCDate_prev_day y m d Hv Hy') as Hp. cbv zeta in Hp.
  pose proof (prev_day_valid y m d Hv) as Hv'.
  assert (let '(y', _, _) := prev_day y m d in 1000 <= y' <= 9999) as Hy1.
  { unfold prev_day. destruct Hv as [Hm Hd].
    destruct (Z.ltb_spec 1 d); [lia | ].
    destruct (Z.ltb_spec 1 m); [lia | ].
    assert (y <> 1000) by (intros ->; apply Hne; f_equal; [f_equal | ]; lia).
    lia. }
  destruct (prev_day y m d) as [[y' m'] d'].
  injection Hp as HY HM HD.
  destruct Hv as [Hm Hd], Hv' as [Hm' Hd'].
  pose proof (days_in_month_le_31 y' m') as Hle'.
  unfold addDaysIso.
  rewrite split_iso_date by lia. cbn [List.map].
  rewrite Number_four_digits, !Number_two_digits by lia.
  cbv zeta. rewrite HY, HM, HD.
  rewrite String_four_digits, !String_two_digits by lia.
  reflexivity.
Qed.

Lemma realDateForStart_clock (uiDate : string) (h mi : Z) :
  0 <= h <= 99 ->
  realDateForStart uiDate (clock h mi) =
    if h <? 6 then addDaysIso uiDate (-1) else Some uiDate.
Proof.
  intros Hh. unfold realDateForStart.
  rewrite slice02_clock, Number_two_digits by done. reflexivity.
Qed.

(** For a calendar date with a four-digit year, a slot starting before
    06:00 is looked up under the day before, any other slot under the
    date itself. *)
Theorem real_date_of_calendar_day (y m d h mi : Z) :
  valid_date y m d -> 1000 <= y <= 9999 -> (y, m, d) <> (1000, 1, 1) ->
  0 <= h <= 99 ->
  realDateForStart (iso_date y m d) (clock h mi) =
    Some (if h <? 6
          then let '(y', m', d') := prev_day y m d in iso_date y' m' d'
          else iso_date y m d).
Proof.
  intros Hv Hy Hne Hh. rewrite realDateForStart_clock by done.
  destruct (h <? 6); [by apply addDaysIso_prev_day | reflexivity].
Qed.








(** ** Insertion-ordered maps *)

Lemma map_get_set_eq {V : Type} (k : string) (v : V) (m : list (string * V)) :
  map_get k (map_set k v m) = Some v.
Proof.
  induction m as [ | [k' v'] m IH]; cbn.
  - by rewrite String.eqb_refl.
  - destruct (String.eqb k k') eqn:E; cbn; rewrite ?String.eqb_refl, ?E; done.
Qed.

Lemma map_get_set_ne {V : Type} (k k0 : string) (v : V)
    (m : list (string * V)) :
  k <> k0 -> map_get k (map_set k0 v m) = map_get k m.
Proof.
  intros Hne. induction m as [ | [k' v'] m IH]; cbn.
  - by apply String.eqb_neq in Hne as ->.
  - destruct (String.eqb k0 k') eqn:E; cbn.
    + apply String.eqb_eq in E as <-.
      by apply String.eqb_neq in Hne as ->.
    + by rewrite IH.
Qed.

Lemma map_set_In {V : Type} (k k0 : string) (v v0 : V)
    (m : list (string * V)) :
  In (k, v) (map_set k0 v0 m) -> (k = k0 /\ v = v0) \/ In (k, v) m.
Proof.
  induction m as [ | [k' v'] m IH]; cbn.
  - intros [H | []]. left. by injection H as <- <-.
  - destruct (String.eqb k0 k') eqn:E; cbn.
    + intros [H | H]; [left; by injection H as <- <- | right; by right].
    + intros [H | H]; [right; by left | ].
      destruct (IH H) as [? | ?]; [by left | right; by right].
Qed.

Lemma map_get_In {V : Type} (k : string) (v : V) (m : list (string * V)) :
  map_get k m = Some v -> In (k, v) m.
Proof.
  induction m as [ | [k' v'] m IH]; cbn; [done | ].
  destruct (String.eqb k k') eqn:E.
  - apply String.eqb_eq in E as <-. intros H. injection H as <-. by left.
  - intros H. right. by apply IH.
Qed.

Lemma map_set_keys {V : Type} (k k0 : string) (v0 : V)
    (m : list (string * V)) :
  In k (List.map fst (map_set k0 v0 m)) <-> k = k0 \/ In k (List.map fst m).
Proof.
  induction m as [ | [k' v'] m IH]; cbn.
  - split; [intros [<- | []]; by left | intros [-> | []]; by left].
  - destruct (String.eqb k0 k') eqn:E; cbn.
    + apply String.eqb_eq in E as <-. intuition congruence.
    + rewrite IH. intuition congruence.
Qed.

Lemma map_set_NoDup {V : Type} (k0 : string) (v0 : V)
    (m : list (string * V)) :
  List.NoDup (List.map fst m) -> List.NoDup (List.map fst (map_set k0 v0 m)).
Proof.
  induction m as [ | [k' v'] m IH]; cbn; intros H.
  - constructor; [intros [] | constructor].
  - inversion H as [ | ? ? Hn Hnd]; subst.
    destruct (String.eqb k0 k') eqn:E; cbn.
    + apply String.eqb_eq in E as <-. by constructor.
    + constructor; [ | by apply IH].
      rewrite map_set_keys. intros [-> | Hin]; [ | done].
      by rewrite String.eqb_refl in E.
Qed.

Lemma NoDup_keys_get {V : Type} (k : string) (v : V) (m : list (string * V)) :
  List.NoDup (List.map fst m) -> In (k, v) m -> map_get k m = Some v.
Proof.
  induction m as [ | [k' v'] m IH]; cbn; [done | ].
  intros Hnd [H | H].
  - injection H as -> ->. by rewrite String.eqb_refl.
  - inversion Hnd as [ | ? ? Hn Hnd']; subst.
    destruct (String.eqb k k') eqn:E; [ | by apply IH].
    apply String.eqb_eq in E as <-. exfalso. apply Hn.
    by apply (List.in_map fst) in H.
Qed.

(** ** [Promise.all] *)

Lemma earliest_rejection_In {A : Type} (ps : list (nat * settled A))
    (t : nat) (e : error) :
  earliest_rejection ps = Some (t, e) -> In (t, Rejected e) ps.
Proof.
  revert t e.
  induction ps as [ | [t0 [a | e0]] ps IH]; cbn [earliest_rejection In];
    intros t e H.
  - discriminate H.
  - right. by apply IH.
  - destruct (earliest_rejection ps) as [[t' e'] | ] eqn:E.
    + destruct (t' <? t0)%nat; inversion H; subst; [ | by left].
      right. by apply IH.
    + inversion H; subst. by left.
Qed.

Lemma earliest_rejection_None {A : Type} (ps : list (nat * settled A)) :
  earliest_rejection ps = None ->
  forall t e, ~ In (t, Rejected e) ps.
Proof.
  induction ps as [ | [t0 [a | e0]] ps IH]; cbn [earliest_rejection In];
    intros H t e.
  - tauto.
  - intros [Hin | Hin]; [discriminate Hin | by apply (IH H t e)].
  - destruct (earliest_rejection ps) as [[t' e'] | ]; [ | discriminate H].
    destruct (t' <? t0)%nat; discriminate H.
Qed.

(** A single rejection makes the whole [Promise.all] reject, with the
    error of one of the rejected promises. *)
Lemma promise_all_rejects {A : Type} (ps : list (nat * settled A))
    (t : nat) (e : error) :
  In (t, Rejected e) ps ->
  exists t' e', In (t', Rejected e') ps /\ promise_all ps = Throw e'.
Proof.
  intros Hin. unfold promise_all.
  destruct (earliest_rejection ps) as [[t' e'] | ] eqn:E.
  - exists t', e'. split; [by apply earliest_rejection_In | reflexivity].
  - exfalso. by apply (earliest_rejection_None ps E t e).
Qed.

Lemma promise_all_returns {A : Type} (ps : list (nat * settled A))
    (vs : list A) :
  promise_all ps = Ret vs ->
  vs = fulfilled ps /\ forall t e, ~ In (t, Rejected e) ps.
Proof.
  unfold promise_all.
  destruct (earliest_rejection ps) as [[t' e'] | ] eqn:E; [done | ].
  intros H. injection H as <-. split; [done | ].
  by apply earliest_rejection_None.
Qed.

Lemma fulfilled_all {A : Type} (ps : list (nat * settled A)) :
  (forall t e, ~ In (t, Rejected e) ps) ->
  List.map snd ps = List.map Fulfilled (fulfilled ps).
Proof.
  induction ps as [ | [t0 [a | e0]] ps IH]; cbn; intros H.
  - reflexivity.
  - f_equal. apply IH. intros t e Hin. apply (H t e). by right.
  - exfalso. apply (H t0 e0). by left.
Qed.

(** ** Aggregation over the pool *)

Section Pool.

Variables (cfg : config) (idxByPair : gmap string (gmap string item)).
Variables (start realDate t1 t2 : string).

Lemma rooms_with_cons (P : Status -> bool) (r : room) (comfort : list room)
    (st : verdict) (p : option Q) :
  comfort_room_status cfg idxByPair start realDate t1 t2 r = Ret (st, p) ->
  rooms_with cfg idxByPair start realDate t1 t2 P (r :: comfort) =
    (if P (v_status st) then 1 else 0)
    + rooms_with cfg idxByPair start realDate t1 t2 P comfort.
Proof.
  intros H. unfold rooms_with. cbn [List.filter]. rewrite H.
  destruct (P (v_status st)); cbn [length]; lia.
Qed.

Lemma comfort_fold_counts (comfort : list room) :
  forall (f b : Z) (mp : option Q) (f' b' : Z) (mp' : option Q),
    comfort_fold cfg idxByPair start realDate t1 t2 comfort f b mp
      = Ret (f', b', mp') ->
    f' = f + rooms_with cfg idxByPair start realDate t1 t2 is_free comfort /\
    b' = b + rooms_with cfg idxByPair start realDate t1 t2 is_busy comfort
           + rooms_with cfg idxByPair start realDate t1 t2 is_missing comfort.
Proof.
  induction comfort as [ | r comfort IH]; intros f b mp f' b' mp' H.
  - cbn in H. injection H as <- <- <-. unfold rooms_with. cbn. lia.
  - cbn [comfort_fold] in H.
    destruct (comfort_room_status cfg idxByPair start realDate t1 t2 r)
      as [[st p] | e | ] eqn:E; cbn in H; try discriminate H.
    rewrite !(rooms_with_cons _ _ _ _ _ E).
    destruct (v_status st); cbn [is_free is_busy is_missing] in *;
      apply IH in H; lia.
Qed.

End Pool.

(** What a cell of the pooled grid counts: [free_count] the rooms whose
    verdict is free, [busy_count] the rooms whose verdict is busy together
    with those whose verdict is missing, [total_count] all rooms. *)
Lemma comfort_cell_counts (offset : JS.number) (cfg : config)
    (idxByPair : gmap string (gmap string item))
    (uiDate : string) (comfort : list room) (start : string)
    (cell : comfort_cell) :
  comfort_cell_of offset cfg idxByPair uiDate comfort start = Ret cell ->
  exists realDate t1 t2,
    realDateForStart uiDate start = Some realDate /\
    slotTime1 offset start = Some t1 /\
    slotTime2 offset start = Some t2 /\
    free_count cell =
      rooms_with cfg idxByPair start realDate t1 t2 is_free comfort /\
    busy_count cell =
      rooms_with cfg idxByPair start realDate t1 t2 is_busy comfort +
      rooms_with cfg idxByPair start realDate t1 t2 is_missing comfort /\
    total_count cell = Z.of_nat (length comfort).
Proof.
  unfold comfort_cell_of. intros H.
  destruct (realDateForStart uiDate start) as [realDate | ];
    [ | discriminate H].
  destruct (slotTime1 offset start) as [t1 | ]; [ | discriminate H].
  destruct (slotTime2 offset start) as [t2 | ]; [ | discriminate H].
  cbn in H.
  destruct (comfort_fold cfg idxByPair start realDate t1 t2 comfort 0 0 None)
    as [[[f b] mp] | e | ] eqn:E; cbn in H; try discriminate H.
  injection H as <-. apply comfort_fold_counts in E as [-> ->].
  exists realDate, t1, t2. cbn. repeat split; lia.
Qed.

Lemma rooms_with_total (cfg : config)
    (idxByPair : gmap string (gmap string item))
    (start realDate t1 t2 : string) (comfort : list room) :
  (forall r, In r comfort ->
     exists x, comfort_room_status cfg idxByPair start realDate t1 t2 r
               = Ret x) ->
  rooms_with cfg idxByPair start realDate t1 t2 is_free comfort +
  rooms_with cfg idxByPair start realDate t1 t2 is_busy comfort +
  rooms_with cfg idxByPair start realDate t1 t2 is_missing comfort
  = Z.of_nat (length comfort).
Proof.
  induction comfort as [ | r comfort IH]; intros H.
  - reflexivity.
  - destruct (H r (or_introl eq_refl)) as [[st p] E].
    rewrite !(rooms_with_cons _ _ _ _ _ _ _ _ _ _ _ E).
    assert (Hrest : forall r', In r' comfort ->
              exists x, comfort_room_status cfg idxByPair start realDate
                          t1 t2 r' = Ret x).
    { intros r' Hin. apply H. by right. }
    specialize (IH Hrest). cbn [length].
    destruct (v_status st); cbn [is_free is_busy is_missing]; lia.
Qed.

Lemma comfort_fold_total (cfg : config)
    (idxByPair : gmap string (gmap string item))
    (start realDate t1 t2 : string) (comfort : list room) :
  forall (f b : Z) (mp : option Q) (f' b' : Z) (mp' : option Q),
    comfort_fold cfg idxByPair start realDate t1 t2 comfort f b mp
      = Ret (f', b', mp') ->
    f' + b' = f + b + Z.of_nat (length comfort).
Proof.
  induction comfort as [ | r comfort IH]; intros f b mp f' b' mp' H.
  - cbn in H. injection H as <- <- <-. cbn. lia.
  - cbn [comfort_fold] in H.
    destruct (comfort_room_status cfg idxByPair start realDate t1 t2 r)
      as [[st p] | e | ]; cbn in H; try discriminate H.
    destruct (is_free (v_status st)); apply IH in H; cbn [length]; lia.
Qed.

Lemma comfort_cell_total (offset : JS.number) (cfg : config)
    (idxByPair : gmap string (gmap string item))
    (uiDate : string) (comfort : list room) (start : string)
    (cell : comfort_cell) :
  comfort_cell_of offset cfg idxByPair uiDate comfort start = Ret cell ->
  free_count cell + busy_count cell = total_count cell /\
  total_count cell = Z.of_nat (length comfort).
Proof.
  unfold comfort_cell_of. intros H.
  destruct (realDateForStart uiDate start) as [realDate | ];
    [ | discriminate H].
  destruct (slotTime1 offset start) as [t1 | ]; [ | discriminate H].
  destruct (slotTime2 offset start) as [t2 | ]; [ | discriminate H].
  cbn in H.
  destruct (comfort_fold cfg idxByPair start realDate t1 t2 comfort 0 0 None)
    as [[[f b] mp] | e | ] eqn:E; cbn in H; try discriminate H.
  injection H as <-. apply comfort_fold_total in E. cbn. lia.
Qed.

Lemma comfort_grid_cells (offset : JS.number) (cfg : config)
    (idxByPair : gmap string (gmap string item))
    (uiDate : string) (comfort : list room) (starts : list string) :
  forall grid0 grid,
    comfort_grid offset cfg idxByPair uiDate comfort starts grid0 = Ret grid ->
    forall start cell, In (start, cell) grid ->
      In (start, cell) grid0 \/
      (In start starts /\
       comfort_cell_of offset cfg idxByPair uiDate comfort start = Ret cell).
Proof.
  induction starts as [ | s starts IH]; intros grid0 grid H start cell Hin.
  - cbn in H. injection H as <-. by left.
  - cbn [comfort_grid] in H.
    destruct (comfort_cell_of offset cfg idxByPair uiDate comfort s)
      as [c | e | ] eqn:E; cbn in H; try discriminate H.
    destruct (IH _ _ H _ _ Hin) as [Hin0 | [Hs Hc]].
    + apply map_set_In in Hin0 as [[-> ->] | Hin0].
      * right. split; [by left | done].
      * by left.
    + right. split; [by right | done].
Qed.

(** The stages a pooled-grid request went through when it answers with a
    grid. *)
Lemma comfort_handler_stages (offset : JS.number) (upstream : query -> exchange)
    (req : request) (cfg : config)
    (club date sd ed : string) (grid : list (string * comfort_cell)) :
  availability_grid_comfort offset upstream req (Fulfilled cfg)
    = Some (ComfortGrid club date sd ed grid) ->
  let comfort := fst (splitRooms (rooms cfg)) in
  exists meta pairs idxByPair,
    club = req_club_id req /\ date = req_date req /\
    addDaysIso date (-1) = Some sd /\ addDaysIso date 1 = Some ed /\
    comfort_plan cfg date comfort STARTS [] [] = Ret (meta, pairs) /\
    fetch_all upstream club sd ed pairs = Ret idxByPair /\
    comfort_grid offset cfg idxByPair date comfort STARTS [] = Ret grid.
Proof.
  intros H comfort. unfold availability_grid_comfort in H.
  destruct (String.eqb (req_club_id req) ""); [discriminate H | ].
  destruct (isIsoDate (req_date req)); cbn [negb] in H; [ | discriminate H].
  destruct (addDaysIso (req_date req) (-1)) as [sd' | ] eqn:Es;
    [ | discriminate H].
  destruct (addDaysIso (req_date req) 1) as [ed' | ] eqn:Ee;
    [ | discriminate H].
  cbn [mbind option_bind comp_bind await] in H. fold comfort in H.
  destruct comfort as [ | r0 rest]; [discriminate H | ].
  destruct (comfort_plan cfg (req_date req) (r0 :: rest) STARTS [] [])
    as [[meta pairs] | e | ] eqn:Ep; cbn [mbind comp_bind try_catch] in H;
    try discriminate H.
  destruct (fetch_all upstream (req_club_id req) sd' ed' pairs)
    as [idx | e | ] eqn:Ef; cbn [mbind comp_bind try_catch] in H;
    try discriminate H.
  destruct (comfort_grid offset cfg idx (req_date req) (r0 :: rest) STARTS [])
    as [g | e | ] eqn:Eg; cbn [mbind comp_bind try_catch] in H;
    try discriminate H.
  injection H as <- <- <- <- <-.
  exists meta, pairs, idx. by repeat split.
Qed.

(** ** Planning the upstream queries *)

Lemma plan_inv_nil : plan_inv [] [].
Proof. split; [constructor | intros ? ? [] | intros ? []]. Qed.

Lemma plan_inv_step (meta : list meta_entry) (pairs : list (string * pair))
    (m : meta_entry) :
  plan_inv meta pairs ->
  plan_inv (meta ++ [m]) (map_set (pair_key (pair_of m)) (pair_of m) pairs).
Proof.
  intros [Hnd Hk Hc]. split.
  - by apply map_set_NoDup.
  - intros k p Hin. apply map_set_In in Hin as [[-> ->] | Hin].
    + split; [done | ]. exists m. split; [ | done].
      apply List.in_or_app. right. by left.
    + destruct (Hk k p Hin) as (-> & m' & Hm' & <-).
      split; [done | ]. exists m'. split; [ | done].
      apply List.in_or_app. by left.
  - intros m' Hin. rewrite map_set_keys.
    apply List.in_app_or in Hin as [Hin | [<- | []]]; [right | by left].
    by apply Hc.
Qed.

Lemma elite_plan_inv (cfg : config) (eliteId uiDate : string)
    (starts : list string) :
  forall meta pairs meta' pairs',
    plan_inv meta pairs ->
    elite_plan cfg eliteId uiDate starts meta pairs = Ret (meta', pairs') ->
    plan_inv meta' pairs'.
Proof.
  induction starts as [ | s starts IH]; intros meta pairs meta' pairs' Hi H.
  - cbn in H. by injection H as <- <-.
  - cbn [elite_plan] in H.
    destruct (realDateForStart uiDate s) as [realDate | ];
      cbn [lift mbind comp_bind] in H; [ | discriminate H].
    destruct (pickEliteServiceId cfg realDate s) as [sid | e | ];
      cbn [mbind comp_bind] in H; try discriminate H.
    apply IH in H; [done | ].
    apply (plan_inv_step _ _ (mkMeta s realDate sid eliteId) Hi).
Qed.

Lemma comfort_plan_rooms_inv (cfg : config) (start realDate : string)
    (comfort : list room) :
  forall meta pairs meta' pairs',
    plan_inv meta pairs ->
    comfort_plan_rooms cfg start realDate comfort meta pairs
      = Ret (meta', pairs') ->
    plan_inv meta' pairs'.
Proof.
  induction comfort as [ | r comfort IH]; intros meta pairs meta' pairs' Hi H.
  - cbn in H. by injection H as <- <-.
  - cbn [comfort_plan_rooms] in H.
    destruct (pickComfortServiceId cfg (room_group r) realDate start)
      as [sid | e | ]; cbn [mbind comp_bind] in H; try discriminate H.
    apply IH in H; [done | ].
    apply (plan_inv_step _ _ (mkMeta start realDate sid (room_id r)) Hi).
Qed.

Lemma comfort_plan_inv (cfg : config) (uiDate : string) (comfort : list room)
    (starts : list string) :
  forall meta pairs meta' pairs',
    plan_inv meta pairs ->
    comfort_plan cfg uiDate comfort starts meta pairs = Ret (meta', pairs') ->
    plan_inv meta' pairs'.
Proof.
  induction starts as [ | s starts IH]; intros meta pairs meta' pairs' Hi H.
  - cbn in H. by injection H as <- <-.
  - cbn [comfort_plan] in H.
    destruct (realDateForStart uiDate s) as [realDate | ];
      cbn [lift mbind comp_bind] in H; [ | discriminate H].
    destruct (comfort_plan_rooms cfg s realDate comfort meta pairs)
      as [[meta1 pairs1] | e | ] eqn:E; cbn [mbind comp_bind] in H;
      try discriminate H.
    apply IH in H; [done | ].
    by apply (comfort_plan_rooms_inv _ _ _ _ _ _ _ _ Hi E).
Qed.

Lemma elite_plan_meta (cfg : config) (eliteId uiDate : string)
    (starts : list string) :
  forall meta pairs meta' pairs',
    elite_plan cfg eliteId uiDate starts meta pairs = Ret (meta', pairs') ->
    List.map m_start meta' = List.map m_start meta ++ starts /\
    (List.Forall (elite_resolved cfg eliteId uiDate) meta ->
     List.Forall (elite_resolved cfg eliteId uiDate) meta').
Proof.
  induction starts as [ | s starts IH]; intros meta pairs meta' pairs' H.
  - cbn in H. injection H as <- <-. by rewrite List.app_nil_r.
  - cbn [elite_plan] in H.
    destruct (realDateForStart uiDate s) as [realDate | ] eqn:Er;
      cbn [lift mbind comp_bind] in H; [ | discriminate H].
    destruct (pickEliteServiceId cfg realDate s) as [sid | e | ] eqn:Es;
      cbn [mbind comp_bind] in H; try discriminate H.
    apply IH in H as [Hs Hf]. split.
    + rewrite Hs, List.map_app. cbn. by rewrite <- List.app_assoc.
    + intros Hm. apply Hf. apply List.Forall_app. split; [done | ].
      constructor; [ | constructor]. by repeat split.
Qed.

Lemma comfort_plan_rooms_meta (cfg : config) (all : list room)
    (uiDate start realDate : string) (comfort : list room) :
  realDateForStart uiDate start = Some realDate ->
  (forall r, In r comfort -> In r all) ->
  forall meta pairs meta' pairs',
    comfort_plan_rooms cfg start realDate comfort meta pairs
      = Ret (meta', pairs') ->
    (List.Forall (comfort_resolved cfg all uiDate) meta ->
     List.Forall (comfort_resolved cfg all uiDate) meta') /\
    (forall m, In m meta -> In m meta') /\
    (forall r, In r comfort ->
       exists m, In m meta' /\ m_start m = start /\ m_realDate m = realDate /\
                 m_room_id m = room_id r /\
                 pickComfortServiceId cfg (room_group r) realDate start
                   = Ret (m_service_id m)).
Proof.
  intros Hr. induction comfort as [ | r comfort IH];
    intros Hsub meta pairs meta' pairs' H.
  - cbn in H. injection H as <- <-. split; [done | ]. split; [done | ].
    intros ? [].
  - cbn [comfort_plan_rooms] in H.
    destruct (pickComfortServiceId cfg (room_group r) realDate start)
      as [sid | e | ] eqn:Es; cbn [mbind comp_bind] in H; try discriminate H.
    apply IH in H as (Hf & Hkeep & Hall);
      [ | intros r' Hin; apply Hsub; by right].
    split; [ | split].
    + intros Hm. apply Hf. apply List.Forall_app. split; [done | ].
      constructor; [ | constructor]. split; [done | ].
      exists r. split; [apply Hsub; by left | by split].
    + intros m Hin. apply Hkeep. apply List.in_or_app. by left.
    + intros r' [<- | Hin]; [ | by apply Hall].
      exists (mkMeta start realDate sid (room_id r)). split; [ | done].
      apply Hkeep. apply List.in_or_app. right. by left.
Qed.

Lemma comfort_plan_meta (cfg : config) (uiDate : string) (comfort : list room)
    (starts : list string) :
  forall meta pairs meta' pairs',
    comfort_plan cfg uiDate comfort starts meta pairs = Ret (meta', pairs') ->
    (List.Forall (comfort_resolved cfg comfort uiDate) meta ->
     List.Forall (comfort_resolved cfg comfort uiDate) meta') /\
    (forall m, In m meta -> In m meta') /\
    (forall s r, In s starts -> In r comfort ->
       exists m realDate,
         In m meta' /\ m_start m = s /\ m_room_id m = room_id r /\
         realDateForStart uiDate s = Some realDate /\
         pickComfortServiceId cfg (room_group r) realDate s
           = Ret (m_service_id m)).
Proof.
  induction starts as [ | s starts IH]; intros meta pairs meta' pairs' H.
  - cbn in H. injection H as <- <-. split; [done | ]. split; [done | ].
    intros ? ? [].
  - cbn [comfort_plan] in H.
    destruct (realDateForStart uiDate s) as [realDate | ] eqn:Er;
      cbn [lift mbind comp_bind] in H; [ | discriminate H].
    destruct (comfort_plan_rooms cfg s realDate comfort meta pairs)
      as [[meta1 pairs1] | e | ] eqn:E; cbn [mbind comp_bind] in H;
      try discriminate H.
    apply (comfort_plan_rooms_meta cfg comfort uiDate) in E
      as (Hf1 & Hk1 & Hall1); [ | done | done].
    apply IH in H as (Hf & Hkeep & Hall).
    split; [ | split].
    + intros Hm. by apply Hf, Hf1.
    + intros m Hin. by apply Hkeep, Hk1.
    + intros s' r [<- | Hin] Hr; [ | by apply Hall].
      destruct (Hall1 r Hr) as (m & Hm & Hs & _ & Hid & Hp).
      exists m, realDate. split; [by apply Hkeep | done].
Qed.

(** ** The fan-out of upstream queries *)

Lemma store_all_lookup (entries : list (string * gmap string item)) :
  forall (acc : gmap string (gmap string item)) (k : string),
    (~ In k (List.map fst entries) ->
     fold_left (fun idx kv => <[ fst kv := snd kv ]> idx) entries acc !! k
       = acc !! k) /\
    (List.NoDup (List.map fst entries) ->
     forall v, In (k, v) entries ->
       fold_left (fun idx kv => <[ fst kv := snd kv ]> idx) entries acc !! k
         = Some v).
Proof.
  induction entries as [ | [k0 v0] entries IH]; intros acc k; cbn.
  - split; [done | intros _ v []].
  - destruct (IH (<[k0:=v0]> acc) k) as [IH1 IH2]. split.
    + intros Hn. rewrite IH1 by tauto.
      apply lookup_insert_ne. tauto.
    + intros Hnd v [Heq | Hin].
      * injection Heq as -> ->. inversion Hnd; subst.
        rewrite IH1 by done. apply lookup_insert_eq.
      * inversion Hnd; subst. by apply IH2.
Qed.

Section FanOut.

Variable upstream : query -> exchange.
Variables (club_id start_date end_date : string).

Local Abbreviation index_of := (index_for upstream club_id start_date end_date).

Lemma fetch_pair_rejected (p : pair) (t : nat) (e : error) :
  fetch_pair upstream club_id start_date end_date p = (t, Rejected e) <->
  t = settled_at (upstream (query_of club_id start_date end_date p)) /\
  index_of p = Rejected e.
Proof.
  unfold fetch_pair, index_for.
  destruct (fetchIndexedRentalTimes _) as [b | e0]; split.
  - intros H. discriminate H.
  - intros [_ H]. discriminate H.
  - intros H. by injection H as <- <-.
  - intros [-> H]. by injection H as <-.
Qed.

Lemma fetched_entries (ps : list pair) :
  (forall t e,
     ~ In (t, Rejected e)
         (List.map (fetch_pair upstream club_id start_date end_date) ps)) ->
  List.Forall2
    (fun p kv => fst kv = pair_key p /\ index_of p = Fulfilled (snd kv))
    ps
    (fulfilled
       (List.map (fetch_pair upstream club_id start_date end_date) ps)).
Proof.
  induction ps as [ | p ps IH]; intros H; cbn [List.map fulfilled].
  - constructor.
  - assert (Hrest : forall t e,
              ~ In (t, Rejected e)
                  (List.map (fetch_pair upstream club_id start_date end_date)
                     ps)).
    { intros t e Hin. apply (H t e). by right. }
    specialize (IH Hrest).
    destruct (fetch_pair upstream club_id start_date end_date p)
      as [t [kv | e]] eqn:E.
    + constructor; [ | done].
      unfold fetch_pair in E. fold (index_of p) in E.
      destruct (index_of p) as [b | e]; [ | discriminate E].
      by injection E as _ <-.
    + exfalso. apply (H t e). left. by rewrite E.
Qed.

(** When the fan-out completes, the index stored under the key of a
    planned pair is the one built from the answer to that pair's query. *)
Lemma fetch_all_reads (meta : list meta_entry) (pairs : list (string * pair))
    (idxByPair : gmap string (gmap string item)) :
  plan_inv meta pairs ->
  fetch_all upstream club_id start_date end_date pairs = Ret idxByPair ->
  forall k p, In (k, p) pairs ->
    exists byKey, index_of p = Fulfilled byKey /\
                  idxByPair !! k = Some byKey.
Proof.
  intros [Hnd Hk _] H k p Hin. unfold fetch_all in H.
  destruct (promise_all _) as [entries | e | ] eqn:E;
    cbn [mbind comp_bind] in H; try discriminate H.
  injection H as <-.
  apply promise_all_returns in E as [-> Hno].
  pose proof (fetched_entries _ Hno) as HF.
  assert (Hkeys : List.map fst pairs =
                  List.map pair_key (map_values pairs)).
  { unfold map_values. rewrite List.map_map. apply List.map_ext_in.
    intros [k' p'] Hin'. by destruct (Hk k' p' Hin') as [-> _]. }
  set (entries := fulfilled _) in *.
  assert (Hfst : List.map fst entries = List.map pair_key (map_values pairs)).
  { clear -HF. induction HF as [ | p0 kv ps es [Hf _] _ IH]; cbn;
      [done | by rewrite Hf, IH]. }
  assert (Hp : In p (map_values pairs)).
  { unfold map_values. by apply (List.in_map snd) in Hin. }
  assert (Hex : exists kv, In kv entries /\ fst kv = pair_key p /\
                           index_of p = Fulfilled (snd kv)).
  { clear -HF Hp. induction HF as [ | p0 kv ps es [Hf Hi] _ IH].
    - destruct Hp.
    - destruct Hp as [<- | Hp].
      + exists kv. split; [by left | done].
      + destruct (IH Hp) as (kv' & ? & ?). exists kv'.
        split; [by right | done]. }
  destruct Hex as ([k' byKey] & Hin' & Hk' & Hidx). cbn in Hk', Hidx.
  destruct (Hk k p Hin) as [-> _]. subst k'.
  exists byKey. split; [done | ].
  unfold store_all.
  apply (store_all_lookup entries ∅ (pair_key p)); [ | done].
  by rewrite Hfst, <- Hkeys.
Qed.

(** One rejected query makes the fan-out throw the error of a rejected
    query. *)
Lemma fetch_all_rejects (pairs : list (string * pair)) (p : pair) (e : error) :
  In p (map_values pairs) -> index_of p = Rejected e ->
  exists p' e',
    In p' (map_values pairs) /\ index_of p' = Rejected e' /\
    fetch_all upstream club_id start_date end_date pairs = Throw e'.
Proof.
  intros Hin Hrej.
  set (t := settled_at (upstream (query_of club_id start_date end_date p))).
  assert (Hfp : In (t, Rejected e)
                  (List.map (fetch_pair upstream club_id start_date end_date)
                     (map_values pairs))).
  { apply List.in_map_iff. exists p. split; [ | done].
    by apply fetch_pair_rejected. }
  apply promise_all_rejects in Hfp as (t' & e' & Hin' & Hall).
  apply List.in_map_iff in Hin' as (p' & Hfp' & Hp').
  apply fetch_pair_rejected in Hfp' as [_ Hrej'].
  exists p', e'. split; [done | split; [done | ]].
  unfold fetch_all. by rewrite Hall.
Qed.

End FanOut.

(** ** The handlers, stage by stage *)

Lemma comfort_handler_run (offset : JS.number) (upstream : query -> exchange)
    (req : request) (cfg : config) (sd ed : string) :
  req_club_id req <> ""%string -> isIsoDate (req_date req) = true ->
  addDaysIso (req_date req) (-1) = Some sd ->
  addDaysIso (req_date req) 1 = Some ed ->
  fst (splitRooms (rooms cfg)) <> [] ->
  availability_grid_comfort offset upstream req (Fulfilled cfg) =
    try_catch (
      '(meta, pairs) ← comfort_plan cfg (req_date req)
                         (fst (splitRooms (rooms cfg))) STARTS [] [];
      idxByPair ← fetch_all upstream (req_club_id req) sd ed pairs;
      grid ← comfort_grid offset cfg idxByPair (req_date req)
                (fst (splitRooms (rooms cfg))) STARTS [];
      Ret (ComfortGrid (req_club_id req) (req_date req) sd ed grid)).
Proof.
  intros Hc Hd Hs He Hne. unfold availability_grid_comfort.
  apply String.eqb_neq in Hc. rewrite Hc, Hd, Hs, He.
  cbn [negb mbind option_bind comp_bind await].
  destruct (fst (splitRooms (rooms cfg))); [done | reflexivity].
Qed.

Lemma elite_handler_run (offset : JS.number) (upstream : query -> exchange)
    (req : request) (cfg : config) (sd ed : string) (elite : room) :
  req_club_id req <> ""%string -> isIsoDate (req_date req) = true ->
  addDaysIso (req_date req) (-1) = Some sd ->
  addDaysIso (req_date req) 1 = Some ed ->
  snd (splitRooms (rooms cfg)) = Some elite -> room_id elite <> ""%string ->
  availability_grid_elite offset upstream req (Fulfilled cfg) =
    try_catch (
      '(meta, pairs) ← elite_plan cfg (room_id elite) (req_date req)
                         STARTS [] [];
      idxByPair ← fetch_all upstream (req_club_id req) sd ed pairs;
      grid ← elite_grid offset idxByPair meta [];
      Ret (EliteGrid (req_club_id req) (req_date req) sd ed grid)).
Proof.
  intros Hc Hd Hs He Hel Hid. unfold availability_grid_elite.
  apply String.eqb_neq in Hc. rewrite Hc, Hd, Hs, He.
  cbn [negb mbind option_bind comp_bind await]. rewrite Hel.
  apply String.eqb_neq in Hid. by rewrite Hid.
Qed.

Lemma elite_handler_stages (offset : JS.number) (upstream : query -> exchange)
    (req : request) (cfg : config)
    (club date sd ed : string) (grid : list (string * elite_cell)) :
  availability_grid_elite offset upstream req (Fulfilled cfg)
    = Some (EliteGrid club date sd ed grid) ->
  exists elite meta pairs idxByPair,
    snd (splitRooms (rooms cfg)) = Some elite /\
    club = req_club_id req /\ date = req_date req /\
    addDaysIso date (-1) = Some sd /\ addDaysIso date 1 = Some ed /\
    elite_plan cfg (room_id elite) date STARTS [] [] = Ret (meta, pairs) /\
    fetch_all upstream club sd ed pairs = Ret idxByPair /\
    elite_grid offset idxByPair meta [] = Ret grid.
Proof.
  intros H. unfold availability_grid_elite in H.
  destruct (String.eqb (req_club_id req) ""); [discriminate H | ].
  destruct (isIsoDate (req_date req)); cbn [negb] in H; [ | discriminate H].
  destruct (addDaysIso (req_date req) (-1)) as [sd' | ] eqn:Es;
    [ | discriminate H].
  destruct (addDaysIso (req_date req) 1) as [ed' | ] eqn:Ee;
    [ | discriminate H].
  cbn [mbind option_bind comp_bind await] in H.
  destruct (snd (splitRooms (rooms cfg))) as [elite | ];
    [ | discriminate H].
  destruct (String.eqb (room_id elite) ""); [discriminate H | ].
  destruct (elite_plan cfg (room_id elite) (req_date req) STARTS [] [])
    as [[meta pairs] | e | ] eqn:Ep; cbn [mbind comp_bind try_catch] in H;
    try discriminate H.
  destruct (fetch_all upstream (req_club_id req) sd' ed' pairs)
    as [idx | e | ] eqn:Ef; cbn [mbind comp_bind try_catch] in H;
    try discriminate H.
  destruct (elite_grid offset idx meta []) as [g | e | ] eqn:Eg;
    cbn [mbind comp_bind try_catch] in H; try discriminate H.
  injection H as <- <- <- <- <-.
  exists elite, meta, pairs, idx. by repeat split.
Qed.

Lemma elite_grid_cells (offset : JS.number)
    (idxByPair : gmap string (gmap string item)) (meta : list meta_entry) :
  forall grid0 grid,
    elite_grid offset idxByPair meta grid0 = Ret grid ->
    forall start cell, In (start, cell) grid ->
      In (start, cell) grid0 \/
      exists m, In m meta /\ m_start m = start /\
                elite_cell_of offset idxByPair m = Ret cell.
Proof.
  induction meta as [ | m meta IH]; intros grid0 grid H start cell Hin.
  - cbn in H. injection H as <-. by left.
  - cbn [elite_grid] in H.
    destruct (elite_cell_of offset idxByPair m) as [c | e | ] eqn:E;
      cbn [mbind comp_bind] in H; try discriminate H.
    destruct (IH _ _ H _ _ Hin) as [Hin0 | (m' & Hm' & Hs & Hc)].
    + apply map_set_In in Hin0 as [[-> ->] | Hin0].
      * right. exists m. split; [by left | done].
      * by left.
    + right. exists m'. split; [by right | done].
Qed.

Lemma elite_cell_service (offset : JS.number)
    (idxByPair : gmap string (gmap string item)) (m : meta_entry)
    (cell : elite_cell) :
  elite_cell_of offset idxByPair m = Ret cell ->
  cell_service_id cell = m_service_id m /\ cell_room_id cell = m_room_id m.
Proof.
  unfold elite_cell_of. intros H.
  destruct (slotTime1 offset (m_start m)); [ | discriminate H].
  destruct (slotTime2 offset (m_start m)); [ | discriminate H].
  cbn [lift mbind comp_bind] in H. by injection H as <-.
Qed.

(** A cell of the exclusive grid, from the index stored under the key of
    its slot: the two probes are looked up under the slot's real date. *)
Lemma elite_cell_eval (offset : JS.number)
    (idxByPair : gmap string (gmap string item)) (m : meta_entry)
    (cell : elite_cell) :
  elite_cell_of offset idxByPair m = Ret cell ->
  exists t1 t2,
    slotTime1 offset (m_start m) = Some t1 /\
    slotTime2 offset (m_start m) = Some t2 /\
    let byKey := idxByPair !! pair_key (pair_of m) in
    let it1 := probe byKey (m_realDate m) t1 in
    let it2 := probe byKey (m_realDate m) t2 in
    let st := evaluateRoomStatus (slotInfo it1 (m_realDate m) t1)
                (slotInfo it2 (m_realDate m) t2) in
    cell = mkEliteCell (if is_free (v_status st) then 1 else 0)
             (pickPrice it1 it2) (m_service_id m) (m_room_id m) 1
             (v_reason st).
Proof.
  unfold elite_cell_of. intros H.
  destruct (slotTime1 offset (m_start m)) as [t1 | ]; [ | discriminate H].
  destruct (slotTime2 offset (m_start m)) as [t2 | ]; [ | discriminate H].
  cbn [lift mbind comp_bind] in H. injection H as <-.
  by exists t1, t2.
Qed.

(** ** One query per pair *)

Lemma plan_keys_values (meta : list meta_entry)
    (pairs : list (string * pair)) :
  plan_inv meta pairs ->
  List.map fst pairs = List.map pair_key (map_values pairs).
Proof.
  intros [_ Hk _]. unfold map_values. rewrite List.map_map.
  apply List.map_ext_in. intros [k p] Hin. by destruct (Hk k p Hin) as [-> _].
Qed.

(** No pair is queried twice. *)
Lemma planned_pairs_distinct (meta : list meta_entry)
    (pairs : list (string * pair)) :
  plan_inv meta pairs -> List.NoDup (map_values pairs).
Proof.
  intros Hi. apply (List.NoDup_map_inv pair_key).
  rewrite <- (plan_keys_values _ _ Hi). by destruct Hi.
Qed.

(** Every queried pair is the pair of some resolved slot. *)
Lemma planned_pairs_resolved (meta : list meta_entry)
    (pairs : list (string * pair)) (p : pair) :
  plan_inv meta pairs -> In p (map_values pairs) ->
  In p (List.map pair_of meta).
Proof.
  intros [_ Hk _] Hin. unfold map_values in Hin.
  apply List.in_map_iff in Hin as ([k p'] & <- & Hin).
  destruct (Hk k p' Hin) as (_ & m & Hm & <-). cbn. by apply List.in_map.
Qed.

(** With keys that separate the resolved pairs, every resolved pair is
    queried, under its own key. *)
Lemma resolved_pairs_planned (meta : list meta_entry)
    (pairs : list (string * pair)) (m : meta_entry) :
  plan_inv meta pairs -> keys_separate meta -> In m meta ->
  In (pair_key (pair_of m), pair_of m) pairs.
Proof.
  intros [Hnd Hk Hc] Hsep Hm.
  pose proof (Hc m Hm) as Hin.
  apply List.in_map_iff in Hin as ([k p] & Hk' & Hin). cbn in Hk'. subst k.
  destruct (Hk _ _ Hin) as (Hkey & m' & Hm' & <-).
  by rewrite <- (Hsep m m' Hm Hm' Hkey) in Hin.
Qed.

Lemma append_cons (c : ascii) (s t : string) :
  String c s +:+ t = String c (s +:+ t).
Proof. reflexivity. Qed.

Lemma append_nil (t : string) : "" +:+ t = t.
Proof. reflexivity. Qed.

Lemma append_bar_inj (a b x y : string) :
  bar_free a -> bar_free b ->
  a +:+ "|" +:+ x = b +:+ "|" +:+ y -> a = b /\ x = y.
Proof.
  revert b. induction a as [ | c a IH]; intros [ | d b] Ha Hb H;
    rewrite ?append_cons, ?append_nil in H.
  - by injection H as <-.
  - injection H as <- _. exfalso. apply (Hb "|"%char); [by left | done].
  - injection H as -> _. exfalso. apply (Ha "|"%char); [by left | done].
  - injection H as <- H.
    destruct (IH b) as [-> ->]; [ | | done | done].
    + intros c' Hin. apply Ha. by right.
    + intros c' Hin. apply Hb. by right.
Qed.

Lemma pair_key_inj (p q : pair) :
  bar_free (service_id p) -> bar_free (service_id q) ->
  pair_key p = pair_key q -> p = q.
Proof.
  destruct p as [s1 r1], q as [s2 r2]. unfold pair_key. cbn.
  intros H1 H2 H. by destruct (append_bar_inj _ _ _ _ H1 H2 H) as [-> ->].
Qed.

(** With service ids free of the separator, the queries sent for the
    pooled grid are exactly the distinct resolved pairs, each sent once,
    and every room reads, for every slot, the index built from the answer
    to the query for its own pair. *)
Theorem pooled_queries_deduplicated (upstream : query -> exchange)
    (cfg : config) (club uiDate sd ed : string)
    (meta : list meta_entry) (pairs : list (string * pair)) :
  let comfort := fst (splitRooms (rooms cfg)) in
  comfort_plan cfg uiDate comfort STARTS [] [] = Ret (meta, pairs) ->
  (forall m, In m meta -> bar_free (m_service_id m)) ->
  List.NoDup (map_values pairs) /\
  (forall p, In p (map_values pairs) <-> In p (List.map pair_of meta)) /\
  (forall s r, In s STARTS -> In r comfort ->
     exists realDate sid,
       realDateForStart uiDate s = Some realDate /\
       pickComfortServiceId cfg (room_group r) realDate s = Ret sid /\
       In (mkPair sid (room_id r)) (map_values pairs)) /\
  (forall idxByPair,
     fetch_all upstream club sd ed pairs = Ret idxByPair ->
     forall m, In m meta ->
       exists byKey,
         index_for upstream club sd ed (pair_of m) = Fulfilled byKey /\
         idxByPair !! (m_service_id m +:+ "|" +:+ m_room_id m) = Some byKey).
Proof.
  intros comfort Hplan Hbar.
  pose proof (comfort_plan_inv _ _ _ _ _ _ _ _ plan_inv_nil Hplan) as Hi.
  destruct (comfort_plan_meta _ _ _ _ _ _ _ _ Hplan) as (_ & _ & Hall).
  assert (Hsep : keys_separate meta).
  { intros m1 m2 H1 H2. apply pair_key_inj; by apply Hbar. }
  split; [by apply (planned_pairs_distinct meta) | ].
  split; [ | split].
  - intros p. split; [by apply planned_pairs_resolved | ].
    intros Hin. apply List.in_map_iff in Hin as (m & <- & Hm).
    exact (List.in_map snd _ _ (resolved_pairs_planned _ _ _ Hi Hsep Hm)).
  - intros s r Hs Hr.
    destruct (Hall s r Hs Hr) as (m & realDate & Hm & Hms & Hid & Hrd & Hp).
    exists realDate, (m_service_id m). split; [done | split; [done | ]].
    rewrite <- Hid. change (In (pair_of m) (map_values pairs)).
    exact (List.in_map snd _ _ (resolved_pairs_planned _ _ _ Hi Hsep Hm)).
  - intros idx Hf m Hm.
    apply (fetch_all_reads upstream club sd ed meta pairs idx Hi Hf
             (pair_key (pair_of m)) (pair_of m)).
    by apply (resolved_pairs_planned meta).
Qed.

Lemma bar_freeb_sound (s : string) : bar_freeb s = true -> bar_free s.
Proof.
  unfold bar_freeb, bar_free. rewrite List.forallb_forall.
  intros H c Hin ->. specialize (H _ Hin). discriminate H.
Qed.

Lemma append_length (a t : string) :
  String.length (a +:+ t) = (String.length a + String.length t)%nat.
Proof.
  induction a as [ | c a IH]; [reflexivity | ].
  rewrite append_cons. cbn [String.length]. by rewrite IH.
Qed.

Lemma append_inv_tail (a b t : string) : a +:+ t = b +:+ t -> a = b.
Proof.
  revert b. induction a as [ | c a IH]; intros [ | d b] H.
  - reflexivity.
  - apply (f_equal String.length) in H.
    rewrite append_nil, append_length in H. cbn [String.length] in H. lia.
  - apply (f_equal String.length) in H.
    rewrite append_nil, append_length in H. cbn [String.length] in H. lia.
  - rewrite !append_cons in H. injection H as <- H. by rewrite (IH b H).
Qed.

(** The keys of the exclusive room's plan tell its pairs apart: they
    all end in the separator and the one room id. *)
Lemma elite_keys_separate (cfg : config) (eliteId uiDate : string)
    (meta : list meta_entry) :
  (forall m, In m meta -> elite_resolved cfg eliteId uiDate m) ->
  keys_separate meta.
Proof.
  intros Hres m1 m2 H1 H2 Hk.
  destruct (Hres m1 H1) as (_ & _ & Hr1), (Hres m2 H2) as (_ & _ & Hr2).
  unfold pair_of, pair_key in *.
  cbn [service_id pair_room_id] in Hk. rewrite Hr1, Hr2 in *.
  f_equal. by apply (append_inv_tail _ _ ("|" +:+ eliteId)).
Qed.

(** Every slot of the plan has a cell in the grid. *)
Lemma elite_grid_covers (offset : JS.number)
    (idxByPair : gmap string (gmap string item)) (meta : list meta_entry) :
  forall grid0 grid,
    elite_grid offset idxByPair meta grid0 = Ret grid ->
    forall start,
      In start (List.map fst grid0) \/ In start (List.map m_start meta) ->
      In start (List.map fst grid).
Proof.
  induction meta as [ | m meta IH]; intros grid0 grid H start Hin.
  - cbn in H. injection H as <-. destruct Hin as [Hin | []]. done.
  - cbn [elite_grid] in H.
    destruct (elite_cell_of offset idxByPair m) as [c | e | ];
      cbn [mbind comp_bind] in H; try discriminate H.
    apply (IH _ _ H). rewrite map_set_keys.
    destruct Hin as [Hin | [<- | Hin]]; [left | left | by right].
    + by right.
    + by left.
Qed.

(** The exclusive grid, cell by cell: the cell of a slot is computed from
    the two records that the index built from the answer to the query
    for the slot's own pair holds under the slot's real date and its two
    probe times. *)
Lemma elite_grid_reads (offset : JS.number) (upstream : query -> exchange)
    (cfg : config) (eliteId club uiDate sd ed : string)
    (meta : list meta_entry) (pairs : list (string * pair))
    (idxByPair : gmap string (gmap string item))
    (grid : list (string * elite_cell)) :
  elite_plan cfg eliteId uiDate STARTS [] [] = Ret (meta, pairs) ->
  fetch_all upstream club sd ed pairs = Ret idxByPair ->
  elite_grid offset idxByPair meta [] = Ret grid ->
  (forall start, In start STARTS -> exists cell, In (start, cell) grid) /\
  (forall start cell, In (start, cell) grid ->
     exists realDate sid t1 t2 byKey,
       In start STARTS /\
       realDateForStart uiDate start = Some realDate /\
       pickEliteServiceId cfg realDate start = Ret sid /\
       slotTime1 offset start = Some t1 /\
       slotTime2 offset start = Some t2 /\
       index_for upstream club sd ed (mkPair sid eliteId)
         = Fulfilled byKey /\
       let it1 := byKey !! (realDate +:+ "|" +:+ t1) in
       let it2 := byKey !! (realDate +:+ "|" +:+ t2) in
       let st := evaluateRoomStatus (slotInfo it1 realDate t1)
                   (slotInfo it2 realDate t2) in
       cell = mkEliteCell (if is_free (v_status st) then 1 else 0)
                (pickPrice it1 it2) sid eliteId 1 (v_reason st)).
Proof.
  intros Hplan Hfetch Hgrid.
  pose proof (elite_plan_inv _ _ _ _ _ _ _ _ plan_inv_nil Hplan) as Hi.
  destruct (elite_plan_meta _ _ _ _ _ _ _ _ Hplan) as [Hstarts Hres].
  specialize (Hres (List.Forall_nil _)). rewrite List.Forall_forall in Hres.
  pose proof (elite_keys_separate _ _ _ _ Hres) as Hsep.
  cbn [List.map app] in Hstarts.
  split.
  - intros start Hs.
    assert (Hk : In start (List.map fst grid)).
    { apply (elite_grid_covers _ _ _ _ _ Hgrid). right. by rewrite Hstarts. }
    apply List.in_map_iff in Hk as ([k cell] & Hk & Hin). cbn in Hk. subst k.
    by exists cell.
  - intros start cell Hin.
    destruct (elite_grid_cells _ _ _ _ _ Hgrid _ _ Hin)
      as [[] | (m & Hm & <- & Hcell)].
    destruct (Hres m Hm) as (Hrd & Hpick & Hroom).
    destruct (fetch_all_reads upstream club sd ed meta pairs idxByPair Hi
                Hfetch (pair_key (pair_of m)) (pair_of m))
      as (byKey & Hidx & Hlook); [by apply (resolved_pairs_planned meta) | ].
    apply elite_cell_eval in Hcell as (t1 & t2 & H1 & H2 & Hcell).
    cbv zeta in Hcell. rewrite Hlook in Hcell. cbn [probe] in Hcell.
    exists (m_realDate m), (m_service_id m), t1, t2, byKey.
    split; [rewrite <- Hstarts; by apply List.in_map | ].
    split; [done | ]. split; [done | ]. split; [done | ]. split; [done | ].
    split; [by rewrite <- Hroom | ].
    cbv zeta. by rewrite <- Hroom.
Qed.

(** The exclusive room: its queries are the distinct resolved pairs, each
    sent once, there is one resolved slot per label of [STARTS], the
    index stored under a slot's key is the one built from the answer to
    the query for its own pair, and the grid has a cell for every label,
    each computed from the two records which that index holds under the
    slot's real date and probe times. *)
Theorem exclusive_queries_deduplicated (offset : JS.number)
    (upstream : query -> exchange)
    (cfg : config) (eliteId club uiDate sd ed : string)
    (meta : list meta_entry) (pairs : list (string * pair)) :
  elite_plan cfg eliteId uiDate STARTS [] [] = Ret (meta, pairs) ->
  List.NoDup (map_values pairs) /\
  (forall p, In p (map_values pairs) <-> In p (List.map pair_of meta)) /\
  List.map m_start meta = STARTS /\
  (forall idxByPair,
     fetch_all upstream club sd ed pairs = Ret idxByPair ->
     (forall m, In m meta ->
        exists byKey,
          index_for upstream club sd ed (pair_of m) = Fulfilled byKey /\
          idxByPair !! (m_service_id m +:+ "|" +:+ m_room_id m)
            = Some byKey) /\
     (forall grid,
        elite_grid offset idxByPair meta [] = Ret grid ->
        (forall start, In start STARTS ->
           exists cell, In (start, cell) grid) /\
        (forall start cell, In (start, cell) grid ->
           exists realDate sid t1 t2 byKey,
             In start STARTS /\
             realDateForStart uiDate start = Some realDate /\
             pickEliteServiceId cfg realDate start = Ret sid /\
             slotTime1 offset start = Some t1 /\
             slotTime2 offset start = Some t2 /\
             index_for upstream club sd ed (mkPair sid eliteId)
               = Fulfilled byKey /\
             let it1 := byKey !! (realDate +:+ "|" +:+ t1) in
             let it2 := byKey !! (realDate +:+ "|" +:+ t2) in
             let st := evaluateRoomStatus (slotInfo it1 realDate t1)
                         (slotInfo it2 realDate t2) in
             cell = mkEliteCell (if is_free (v_status st) then 1 else 0)
                      (pickPrice it1 it2) sid eliteId 1 (v_reason st)))).
Proof.
  intros Hplan.
  pose proof (elite_plan_inv _ _ _ _ _ _ _ _ plan_inv_nil Hplan) as Hi.
  destruct (elite_plan_meta _ _ _ _ _ _ _ _ Hplan) as [Hstarts Hres].
  specialize (Hres (List.Forall_nil _)). rewrite List.Forall_forall in Hres.
  pose proof (elite_keys_separate _ _ _ _ Hres) as Hsep.
  split; [by apply (planned_pairs_distinct meta) | ].
  split; [ | split; [done | ]].
  - intros p. split; [by apply planned_pairs_resolved | ].
    intros Hin. apply List.in_map_iff in Hin as (m & <- & Hm).
    exact (List.in_map snd _ _ (resolved_pairs_planned _ _ _ Hi Hsep Hm)).
  - intros idx Hf. split.
    + intros m Hm.
      apply (fetch_all_reads upstream club sd ed meta pairs idx Hi Hf
               (pair_key (pair_of m)) (pair_of m)).
      by apply (resolved_pairs_planned meta).
    + intros grid Hgrid.
      exact (elite_grid_reads offset upstream cfg eliteId club uiDate sd ed
               meta pairs idx grid Hplan Hf Hgrid).
Qed.

(** ** Texts made of digits and dashes *)

Lemma digit_string_app (a b : string) :
  digit_string (a +:+ b) = digit_string a && digit_string b.
Proof.
  induction a as [ | c a IH]; [reflexivity | ].
  rewrite append_cons. unfold digit_string in *.
  cbn [String.list_ascii_of_string forallb]. by rewrite IH, andb_assoc.
Qed.

Lemma digit_string_rev_app (a b : string) :
  digit_string (String.rev_app a b) = digit_string a && digit_string b.
Proof.
  revert b. induction a as [ | c a IH]; intros b; [reflexivity | ].
  cbn [String.rev_app]. rewrite IH. unfold digit_string.
  cbn [String.list_ascii_of_string forallb].
  destruct (JS.is_digit c); cbn [andb]; [reflexivity | ].
  by rewrite andb_false_r.
Qed.

Lemma digit_string_rev (s : string) :
  digit_string (String.rev s) = digit_string s.
Proof.
  unfold String.rev. rewrite digit_string_rev_app. by rewrite andb_true_r.
Qed.

Lemma digits_val_digit_string (s : string) :
  digit_string s = true ->
  forall acc, 0 <= acc -> exists v, JS.digits_val s acc = Some v /\ 0 <= v.
Proof.
  induction s as [ | c s IH]; intros H acc Hacc.
  - by exists acc.
  - unfold digit_string in H. cbn [String.list_ascii_of_string forallb] in H.
    apply andb_true_iff in H as [Hc Hs].
    cbn [JS.digits_val]. rewrite Hc. apply IH; [done | ].
    unfold JS.is_digit in Hc. unfold JS.digit_val. lia.
Qed.

Lemma dec_digits_digit_string (fuel : nat) :
  forall n acc,
    0 <= n -> digit_string acc = true ->
    digit_string (JS.dec_digits fuel n acc) = true.
Proof.
  induction fuel as [ | fuel IH]; intros n acc Hn Hacc; [done | ].
  cbn [JS.dec_digits].
  assert (Hd : 0 <= n mod 10 <= 9) by zdiv.
  destruct (digit_char_facts _ Hd) as (Hdig & _).
  assert (Hacc' : digit_string (String (JS.digit_char (n mod 10)) acc) = true).
  { unfold digit_string in *. cbn [String.list_ascii_of_string forallb].
    by rewrite Hdig, Hacc. }
  destruct (n / 10 =? 0); [done | ].
  apply IH; [zdiv | done].
Qed.

Lemma String_digit_string (n : Z) :
  0 <= n -> digit_string (JS.String_ n) = true.
Proof.
  intros Hn. unfold JS.String_.
  destruct (Z.ltb_spec n 0); [lia | ].
  by apply dec_digits_digit_string.
Qed.

Lemma padStart2_digit_string (s : string) :
  digit_string s = true -> digit_string (JS.padStart2 s) = true.
Proof.
  destruct s as [ | c [ | d s]]; intros H; cbn [JS.padStart2];
    [reflexivity | | done].
  unfold digit_string in *. cbn [String.list_ascii_of_string forallb] in *.
  by rewrite H.
Qed.

Lemma is_digit_not_dash (c : ascii) :
  JS.is_digit c = true -> Ascii.eqb c "-" = false.
Proof.
  intros H. destruct (Ascii.eqb_spec c "-") as [-> | ]; [ | done].
  discriminate H.
Qed.

Lemma is_digit_not_colon (c : ascii) :
  JS.is_digit c = true -> Ascii.eqb c ":" = false.
Proof.
  intros H. destruct (Ascii.eqb_spec c ":") as [-> | ]; [ | done].
  discriminate H.
Qed.

Lemma split_go_nonempty (sep : ascii) (s cur : string) :
  exists p rest, JS.split_go sep s cur = p :: rest.
Proof.
  revert cur. induction s as [ | c s IH]; intros cur; cbn [JS.split_go].
  - by eexists _, _.
  - destruct (Ascii.eqb c sep); [by eexists _, _ | apply IH].
Qed.

(** Splitting at the dashes of text made of digits and dashes gives
    runs of digits. *)
Lemma split_go_digit_parts (s : string) :
  forall cur,
    digit_string cur = true ->
    forallb (fun c => JS.is_digit c || Ascii.eqb c "-")
            (String.list_ascii_of_string s) = true ->
    forallb digit_string (JS.split_go "-" s cur) = true.
Proof.
  induction s as [ | c s IH]; intros cur Hcur Hs.
  - cbn [JS.split_go forallb]. by rewrite digit_string_rev, Hcur.
  - cbn [String.list_ascii_of_string forallb] in Hs.
    apply andb_true_iff in Hs as [Hc Hs]. cbn [JS.split_go].
    destruct (Ascii.eqb c "-") eqn:E.
    + cbn [forallb]. rewrite digit_string_rev, Hcur. by apply IH.
    + apply IH; [ | done]. rewrite orb_false_r in Hc.
      unfold digit_string in *. cbn [String.list_ascii_of_string forallb].
      by rewrite Hc, Hcur.
Qed.

Lemma split_go_first_dash (a rest : string) :
  forall cur,
    digit_string a = true ->
    exists p, JS.split_go "-" (a +:+ String "-" rest) cur
              = p :: JS.split_go "-" rest "".
Proof.
  induction a as [ | c a IH]; intros cur Ha.
  - rewrite append_nil. cbn [JS.split_go]. by eexists.
  - unfold digit_string in Ha. cbn [String.list_ascii_of_string forallb] in Ha.
    apply andb_true_iff in Ha as [Hc Ha].
    rewrite append_cons. cbn [JS.split_go].
    rewrite (is_digit_not_dash c Hc). by apply IH.
Qed.

(** Text of the form digits-digits-digits reads as three numbers. *)
Lemma dashed_digits_parse (a b c : string) :
  digit_string a = true -> digit_string b = true -> digit_string c = true ->
  exists y m d rest,
    List.map JS.Number (JS.split "-" (a +:+ "-" +:+ b +:+ "-" +:+ c))
      = Some y :: Some m :: Some d :: rest /\
    0 <= y /\ 0 <= m /\ 0 <= d.
Proof.
  intros Ha Hb Hc.
  assert (Hall : forallb digit_string
                   (JS.split "-" (a +:+ "-" +:+ b +:+ "-" +:+ c)) = true).
  { apply split_go_digit_parts; [reflexivity | ].
    assert (Hw : forall s, digit_string s = true ->
                   forallb (fun c => JS.is_digit c || Ascii.eqb c "-")
                     (String.list_ascii_of_string s) = true).
    { intros s Hs. unfold digit_string in Hs.
      rewrite List.forallb_forall in Hs |- *. intros x Hx.
      by rewrite (Hs x Hx). }
    assert (Happ : forall s t,
              forallb (fun c => JS.is_digit c || Ascii.eqb c "-")
                (String.list_ascii_of_string (s +:+ t))
              = forallb (fun c => JS.is_digit c || Ascii.eqb c "-")
                  (String.list_ascii_of_string s)
                && forallb (fun c => JS.is_digit c || Ascii.eqb c "-")
                     (String.list_ascii_of_string t)).
    { intros s t. induction s as [ | x s IH]; [reflexivity | ].
      rewrite append_cons. cbn [String.list_ascii_of_string forallb].
      by rewrite IH, andb_assoc. }
    rewrite !Happ, (Hw a Ha), (Hw b Hb), (Hw c Hc). reflexivity. }
  unfold JS.split in *.
  change (a +:+ "-" +:+ b +:+ "-" +:+ c)
    with (a +:+ String "-" (b +:+ String "-" c)) in *.
  destruct (split_go_first_dash a (b +:+ String "-" c) "" Ha) as [p1 E1].
  destruct (split_go_first_dash b c "" Hb) as [p2 E2].
  destruct (split_go_nonempty "-" c "") as (p3 & rest & E3).
  rewrite E1, E2, E3 in *. cbn [forallb] in Hall.
  apply andb_true_iff in Hall as [H1 Hall].
  apply andb_true_iff in Hall as [H2 Hall].
  apply andb_true_iff in Hall as [H3 _].
  destruct (digits_val_digit_string p1 H1 0) as (y & Hy & ?); [lia | ].
  destruct (digits_val_digit_string p2 H2 0) as (m & Hm & ?); [lia | ].
  destruct (digits_val_digit_string p3 H3 0) as (d & Hd & ?); [lia | ].
  exists y, m, d, (List.map JS.Number rest).
  cbn [List.map]. unfold JS.Number. by rewrite Hy, Hm, Hd.
Qed.

Lemma YearFromDay_total (n : Z) :
  DayFromYear (YearFromDay n) <= n < DayFromYear (YearFromDay n + 1).
Proof.
  unfold YearFromDay. set (g := 1970 + 400 * n / 146097).
  assert (Hg : DayFromYear (g - 1) <= n < DayFromYear (g + 2)).
  { subst g. unfold DayFromYear. zdiv. }
  pose proof (DayFromYear_succ (g - 1)) as S1.
  pose proof (DayFromYear_succ g) as S2.
  pose proof (DayFromYear_succ (g + 1)) as S3.
  replace (g - 1 + 1) with g in * by lia.
  replace (g + 1 + 1) with (g + 2) in * by lia.
  destruct (Z.ltb_spec n (DayFromYear g)).
  { replace (g - 1 + 1) with g by lia. lia. }
  destruct (Z.leb_spec (DayFromYear (g + 1)) n); [ | lia].
  replace (g + 1 + 1) with (g + 2) by lia. lia.
Qed.

Lemma DayFromYear_mono (y1 y2 : Z) :
  y1 <= y2 -> DayFromYear y1 <= DayFromYear y2.
Proof. unfold DayFromYear. intros H. zdiv. Qed.

Lemma monthStart_nonneg (l m : Z) : 0 <= l -> 0 <= monthStart l m.
Proof.
  intros Hl. unfold monthStart.
  destruct m as [ | p | p]; try lia.
  do 4 (try destruct p as [p | p | ]); lia.
Qed.

Lemma DayWithinYear_range (t : Z) :
  0 <= DayWithinYear t < DaysInYear (YearFromTime t).
Proof.
  unfold DayWithinYear, YearFromTime.
  pose proof (YearFromDay_total (Day t)) as H.
  rewrite DayFromYear_succ in H. lia.
Qed.

Lemma time_fields_range (t : Z) :
  0 <= MonthFromTime t <= 11 /\ 1 <= DateFromTime t <= 31.
Proof.
  pose proof (DayWithinYear_range t) as H.
  unfold DateFromTime, MonthFromTime, InLeapYear, DaysInYear in *.
  destruct (leap (YearFromTime t)); decide_ltb; eval_monthStart; lia.
Qed.

Lemma MakeDay_of_fields (t delta : Z) :
  MakeDay (YearFromTime t) (MonthFromTime t) (DateFromTime t + delta)
  = Day t + delta.
Proof.
  destruct (time_fields_range t) as [Hm _].
  unfold MakeDay.
  replace (MonthFromTime t / 12) with 0 by zdiv.
  replace (MonthFromTime t mod 12) with (MonthFromTime t) by zdiv.
  rewrite Z.add_0_r. unfold DateFromTime, DayWithinYear, InLeapYear. lia.
Qed.

(** The fields of the date that [addDaysIso] prints are not negative. *)
Lemma shifted_fields_nonneg (y m d delta : Z) :
  0 <= y -> 0 <= m -> 0 <= d -> -1 <= delta ->
  let dt := UTC_noon y (m - 1) d in
  let dt' := setUTCDate dt (getUTCDate dt + delta) in
  0 <= getUTCFullYear dt' /\ 0 <= getUTCMonth dt' + 1 /\ 0 <= getUTCDate dt'.
Proof.
  intros Hy Hm Hd Hdelta dt dt'.
  assert (Hnoon : 0 <= 12 * 3600000 < msPerDay) by (unfold msPerDay; lia).
  assert (Htod : 0 <= TimeWithinDay dt < msPerDay).
  { unfold TimeWithinDay, msPerDay. zdiv. }
  assert (Hday' : Day dt' = Day dt + delta).
  { subst dt'. unfold setUTCDate, getUTCDate.
    rewrite MakeDay_of_fields. by apply Day_MakeDate. }
  destruct (time_fields_range dt') as [Hmo Hda].
  unfold getUTCFullYear, getUTCMonth, getUTCDate.
  split; [ | lia].
  assert (Hlow : DayFromYear 99 - 1 <= Day dt).
  { subst dt. unfold UTC_noon. rewrite Day_MakeDate by done.
    unfold MakeDay.
    set (yr := if (0 <=? y) && (y <=? 99) then 1900 + y else y).
    assert (100 <= yr).
    { subst yr. destruct (Z.leb_spec 0 y), (Z.leb_spec y 99); cbn [andb]; lia. }
    assert (99 <= yr + (m - 1) / 12) by zdiv.
    pose proof (DayFromYear_mono 99 (yr + (m - 1) / 12)).
    pose proof (monthStart_nonneg
                  (if leap (yr + (m - 1) / 12) then 1 else 0)
                  ((m - 1) mod 12)).
    destruct (leap (yr + (m - 1) / 12)); lia. }
  unfold YearFromTime. rewrite Hday'.
  pose proof (YearFromDay_total (Day dt + delta)) as Ht.
  pose proof (DayFromYear_succ 98) as S98.
  replace (98 + 1) with 99 in S98 by lia.
  assert (Hl98 : 365 <= DaysInYear 98 <= 366) by by vm_compute.
  destruct (Z.le_gt_cases 98 (YearFromDay (Day dt + delta))); [lia | ].
  pose proof (DayFromYear_mono (YearFromDay (Day dt + delta) + 1) 98).
  lia.
Qed.

Local Ltac peel_digit H s c D :=
  destruct s as [ | c s]; [discriminate H | ];
  cbn [match_prefix] in H;
  destruct (JS.is_digit c) eqn:D; [ | discriminate H].

Local Ltac peel_dash H s c :=
  destruct s as [ | c s]; [discriminate H | ];
  cbn [match_prefix] in H; unfold chr in H;
  destruct (Ascii.eqb_spec c "-") as [-> | ]; [ | discriminate H].

Lemma isIsoDate_date_text (s : string) : isIsoDate s = true -> date_text s.
Proof.
  unfold isIsoDate, date_pattern. intros H.
  peel_digit H s c1 D1. peel_digit H s c2 D2.
  peel_digit H s c3 D3. peel_digit H s c4 D4.
  peel_dash H s c5.
  peel_digit H s c6 D6. peel_digit H s c7 D7.
  peel_dash H s c8.
  peel_digit H s c9 D9. peel_digit H s c10 D10.
  cbn [match_prefix] in H. destruct s; [ | discriminate H].
  exists (String c1 (String c2 (String c3 (String c4 "")))),
         (String c6 (String c7 "")), (String c9 (String c10 "")).
  split; [reflexivity | ].
  unfold digit_string. cbn [String.list_ascii_of_string forallb].
  rewrite D1, D2, D3, D4, D6, D7, D9, D10. by repeat split.
Qed.

Lemma addDaysIso_date_text (s : string) (delta : Z) :
  date_text s -> -1 <= delta ->
  exists r, addDaysIso s delta = Some r /\ date_text r.
Proof.
  intros (a & b & c & -> & Ha & Hb & Hc) Hdelta.
  destruct (dashed_digits_parse a b c Ha Hb Hc)
    as (y & m & d & rest & E & Hy & Hm & Hd).
  unfold addDaysIso. rewrite E.
  destruct (shifted_fields_nonneg y m d delta Hy Hm Hd Hdelta)
    as (HY & HM & HD).
  eexists. split; [reflexivity | ].
  eexists _, _, _. split; [reflexivity | ].
  split; [by apply String_digit_string | ].
  split; by apply padStart2_digit_string, String_digit_string.
Qed.

Lemma getDayType_date_text (s : string) :
  date_text s -> exists t, getDayType s = Some t.
Proof.
  intros (a & b & c & -> & Ha & Hb & Hc).
  destruct (dashed_digits_parse a b c Ha Hb Hc)
    as (y & m & d & rest & E & _).
  unfold getDayType. rewrite E. by eexists.
Qed.

Lemma STARTS_clock (start : string) :
  In start STARTS -> exists hh, 0 <= hh <= 23 /\ start = clock hh 0.
Proof.
  unfold STARTS. cbn [In]. intros H.
  repeat (destruct H as [<- | H]);
    [ exists 6 | exists 8 | exists 10 | exists 12 | exists 14 | exists 16
    | exists 18 | exists 20 | exists 22 | exists 0 | exists 2 | exists 4
    | destruct H ];
    (split; [lia | reflexivity]).
Qed.

Lemma realDateForStart_date_text (uiDate start : string) :
  date_text uiDate -> In start STARTS ->
  exists r, realDateForStart uiDate start = Some r /\ date_text r.
Proof.
  intros Hd Hs. destruct (STARTS_clock start Hs) as (hh & Hh & ->).
  rewrite realDateForStart_clock by lia.
  destruct (hh <? 6); [by apply addDaysIso_date_text | by exists uiDate].
Qed.

(** ** Exceptions and the catch block *)

Lemma request_range (d : string) :
  isIsoDate d = true ->
  date_text d /\
  exists sd ed, addDaysIso d (-1) = Some sd /\ addDaysIso d 1 = Some ed.
Proof.
  intros H. apply isIsoDate_date_text in H. split; [done | ].
  destruct (addDaysIso_date_text _ (-1) H) as (sd & Hs & _); [lia | ].
  destruct (addDaysIso_date_text _ 1 H) as (ed & He & _); [lia | ].
  by exists sd, ed.
Qed.

Lemma pickElite_resolved (cfg : config) (r start : string)
    (dt : DayType) (id : string) :
  getDayType r = Some dt ->
  truthy_id (services_elite cfg dt (getDayBand start)) = Some id ->
  pickEliteServiceId cfg r start = Ret id.
Proof.
  intros Hd Ht. unfold pickEliteServiceId. rewrite Hd.
  cbn [lift mbind comp_bind]. by rewrite Ht.
Qed.

Lemma pickElite_unresolved (cfg : config) (r start : string) (dt : DayType) :
  getDayType r = Some dt ->
  truthy_id (services_elite cfg dt (getDayBand start)) = None ->
  pickEliteServiceId cfg r start =
    Throw (plainError ("Missing elite service_id for "
                       +:+ dayTypeName dt +:+ "/"
                       +:+ bandName (getDayBand start))).
Proof.
  intros Hd Ht. unfold pickEliteServiceId. rewrite Hd.
  cbn [lift mbind comp_bind]. by rewrite Ht.
Qed.

Lemma pickComfort_resolved (cfg : config) (group r start : string)
    (dt : DayType) (id : string) :
  getDayType r = Some dt ->
  truthy_id (services_comfort cfg group dt (getDayBand start)) = Some id ->
  pickComfortServiceId cfg group r start = Ret id.
Proof.
  intros Hd Ht. unfold pickComfortServiceId. rewrite Hd.
  cbn [lift mbind comp_bind]. by rewrite Ht.
Qed.

Lemma pickComfort_unresolved (cfg : config) (group r start : string)
    (dt : DayType) :
  getDayType r = Some dt ->
  truthy_id (services_comfort cfg group dt (getDayBand start)) = None ->
  pickComfortServiceId cfg group r start =
    Throw (plainError ("Missing comfort service_id for " +:+ group +:+ "/"
                       +:+ dayTypeName dt +:+ "/"
                       +:+ bandName (getDayBand start))).
Proof.
  intros Hd Ht. unfold pickComfortServiceId. rewrite Hd.
  cbn [lift mbind comp_bind]. by rewrite Ht.
Qed.

(** The planning loop of the exclusive room stops at the first slot
    without a service id. *)
Lemma elite_plan_throws (cfg : config) (eliteId uiDate : string)
    (start : string) (post : list string) (dt : DayType) :
  elite_slot_unresolved cfg uiDate start dt ->
  forall pre meta pairs,
    (forall s, In s pre -> elite_slot_resolved cfg uiDate s) ->
    elite_plan cfg eliteId uiDate (pre ++ start :: post) meta pairs =
      Throw (plainError ("Missing elite service_id for "
                         +:+ dayTypeName dt +:+ "/"
                         +:+ bandName (getDayBand start))).
Proof.
  intros (r & Hr & Hd & Ht).
  induction pre as [ | s pre IH]; intros meta pairs Hpre.
  - cbn [app elite_plan]. rewrite Hr. cbn [lift mbind comp_bind].
    by rewrite (pickElite_unresolved cfg r start dt Hd Ht).
  - destruct (Hpre s (or_introl eq_refl)) as (r' & dt' & id & Hr' & Hd' & Ht').
    cbn [app elite_plan]. rewrite Hr'. cbn [lift mbind comp_bind].
    rewrite (pickElite_resolved cfg r' s dt' id Hd' Ht').
    cbn [mbind comp_bind]. apply IH. intros s' Hin. apply Hpre. by right.
Qed.

Lemma comfort_plan_rooms_returns (cfg : config) (uiDate start r : string)
    (comfort : list room) :
  realDateForStart uiDate start = Some r ->
  (forall x, In x comfort ->
     comfort_slot_resolved cfg uiDate start (room_group x)) ->
  forall meta pairs,
    exists meta' pairs',
      comfort_plan_rooms cfg start r comfort meta pairs = Ret (meta', pairs').
Proof.
  intros Hr. induction comfort as [ | x comfort IH]; intros Hall meta pairs.
  - by eexists _, _.
  - destruct (Hall x (or_introl eq_refl)) as (r' & dt & id & Hr' & Hd & Ht).
    rewrite Hr in Hr'. injection Hr' as <-.
    cbn [comfort_plan_rooms].
    rewrite (pickComfort_resolved cfg (room_group x) r start dt id Hd Ht).
    cbn [mbind comp_bind]. apply IH. intros x' Hin. apply Hall. by right.
Qed.

Lemma comfort_plan_rooms_throws (cfg : config) (uiDate start r : string)
    (x : room) (rpost : list room) (dt : DayType) :
  realDateForStart uiDate start = Some r ->
  comfort_slot_unresolved cfg uiDate start (room_group x) dt ->
  forall rpre meta pairs,
    (forall x', In x' rpre ->
       comfort_slot_resolved cfg uiDate start (room_group x')) ->
    comfort_plan_rooms cfg start r (rpre ++ x :: rpost) meta pairs =
      Throw (plainError ("Missing comfort service_id for "
                         +:+ room_group x +:+ "/"
                         +:+ dayTypeName dt +:+ "/"
                         +:+ bandName (getDayBand start))).
Proof.
  intros Hr (r0 & Hr0 & Hd & Ht). rewrite Hr in Hr0. injection Hr0 as <-.
  induction rpre as [ | x' rpre IH]; intros meta pairs Hpre.
  - cbn [app comfort_plan_rooms].
    by rewrite (pickComfort_unresolved cfg (room_group x) r start dt Hd Ht).
  - destruct (Hpre x' (or_introl eq_refl))
      as (r' & dt' & id & Hr' & Hd' & Ht').
    rewrite Hr in Hr'. injection Hr' as <-.
    cbn [app comfort_plan_rooms].
    rewrite (pickComfort_resolved cfg (room_group x') r start dt' id Hd' Ht').
    cbn [mbind comp_bind]. apply IH. intros y Hin. apply Hpre. by right.
Qed.

(** The planning loops of the pool stop at the first slot and room
    without a service id. *)
Lemma comfort_plan_throws (cfg : config) (uiDate : string)
    (start : string) (post : list string)
    (rpre : list room) (x : room) (rpost : list room) (dt : DayType) :
  comfort_slot_unresolved cfg uiDate start (room_group x) dt ->
  (forall x', In x' rpre ->
     comfort_slot_resolved cfg uiDate start (room_group x')) ->
  forall pre meta pairs,
    (forall s x', In s pre -> In x' (rpre ++ x :: rpost) ->
       comfort_slot_resolved cfg uiDate s (room_group x')) ->
    comfort_plan cfg uiDate (rpre ++ x :: rpost) (pre ++ start :: post)
      meta pairs =
      Throw (plainError ("Missing comfort service_id for "
                         +:+ room_group x +:+ "/"
                         +:+ dayTypeName dt +:+ "/"
                         +:+ bandName (getDayBand start))).
Proof.
  intros Hun Hrpre.
  induction pre as [ | s pre IH]; intros meta pairs Hpre.
  - destruct Hun as (r & Hr & Hd & Ht).
    cbn [app comfort_plan]. rewrite Hr. cbn [lift mbind comp_bind].
    rewrite (comfort_plan_rooms_throws cfg uiDate start r x rpost dt Hr);
      [reflexivity | by exists r | done].
  - assert (Hx : In x (rpre ++ x :: rpost)).
    { apply List.in_or_app. right. by left. }
    destruct (Hpre s x (or_introl eq_refl) Hx) as (r' & _ & _ & Hr' & _).
    cbn [app comfort_plan]. rewrite Hr'. cbn [lift mbind comp_bind].
    destruct (comfort_plan_rooms_returns cfg uiDate s r' (rpre ++ x :: rpost)
                Hr' (fun y Hy => Hpre s y (or_introl eq_refl) Hy) meta pairs)
      as (meta' & pairs' & ->).
    cbn [mbind comp_bind]. apply IH. intros s' y Hin. apply Hpre. by right.
Qed.

(** Whatever is thrown after the request is validated reaches the catch
    block. A rejected [loadConfig] is answered with the response that the
    catch block builds from its error: the status of the error or 500,
    its message or "Backend error", its details. A service id missing
    from the configuration is answered with status 500 and the message
    that names the day type and band of the first slot (for the pool:
    the first slot and room) without one, whatever upstream would have
    answered. *)
Theorem exceptions_reach_catch_block (offset : JS.number)
    (upstream : query -> exchange) (req : request) :
  req_club_id req <> ""%string -> isIsoDate (req_date req) = true ->
  (forall e,
     availability_grid_elite offset upstream req (Rejected e)
       = Some (catch_response e) /\
     availability_grid_comfort offset upstream req (Rejected e)
       = Some (catch_response e)) /\
  (forall e,
     catch_response e =
       ErrorResponse
         (match status e with
          | Some s => if s =? 0 then 500 else s
          | None => 500
          end)
         (if String.eqb (message e) "" then "Backend error" else message e)
         (err_details e)) /\
  (forall cfg elite pre start post dt,
     snd (splitRooms (rooms cfg)) = Some elite ->
     room_id elite <> ""%string ->
     STARTS = pre ++ start :: post ->
     (forall s, In s pre -> elite_slot_resolved cfg (req_date req) s) ->
     elite_slot_unresolved cfg (req_date req) start dt ->
     availability_grid_elite offset upstream req (Fulfilled cfg)
       = Some (ErrorResponse 500
                 ("Missing elite service_id for " +:+ dayTypeName dt
                  +:+ "/" +:+ bandName (getDayBand start))
                 None)) /\
  (forall cfg pre start post rpre r rpost dt,
     fst (splitRooms (rooms cfg)) = rpre ++ r :: rpost ->
     STARTS = pre ++ start :: post ->
     (forall s r', In s pre -> In r' (rpre ++ r :: rpost) ->
        comfort_slot_resolved cfg (req_date req) s (room_group r')) ->
     (forall r', In r' rpre ->
        comfort_slot_resolved cfg (req_date req) start (room_group r')) ->
     comfort_slot_unresolved cfg (req_date req) start (room_group r) dt ->
     availability_grid_comfort offset upstream req (Fulfilled cfg)
       = Some (ErrorResponse 500
                 ("Missing comfort service_id for " +:+ room_group r
                  +:+ "/" +:+ dayTypeName dt
                  +:+ "/" +:+ bandName (getDayBand start))
                 None)).
Proof.
  intros Hc Hd.
  destruct (request_range _ Hd) as (_ & sd & ed & Hs & He).
  pose proof Hc as Hc'. apply String.eqb_neq in Hc'.
  split.
  { intros e. unfold availability_grid_elite, availability_grid_comfort.
    rewrite Hc', Hd, Hs, He. by split. }
  split; [reflexivity | ].
  split.
  - intros cfg elite pre start post dt Hel Hid Hst Hpre Hun.
    rewrite (elite_handler_run offset upstream req cfg sd ed elite) by done.
    rewrite Hst.
    by rewrite (elite_plan_throws cfg (room_id elite) (req_date req) start
                  post dt Hun pre [] [] Hpre).
  - intros cfg pre start post rpre r rpost dt Hrooms Hst Hpre Hrpre Hun.
    rewrite (comfort_handler_run offset upstream req cfg sd ed); try done.
    + rewrite Hrooms, Hst.
      by rewrite (comfort_plan_throws cfg (req_date req) start post rpre r
                    rpost dt Hun Hrpre pre [] [] Hpre).
    + rewrite Hrooms. by destruct rpre.
Qed.

Lemma exceptions_reach_catch_block_witness :
  availability_grid_elite (JS.int 0) Scenario.upstream Scenario.req
    (Fulfilled cfg_gap)
  = Some (ErrorResponse 500 "Missing elite service_id for weekend/night"
            None).
Proof.
  destruct (exceptions_reach_catch_block (JS.int 0) Scenario.upstream
              Scenario.req) as (_ & _ & Hel & _).
  - discriminate.
  - reflexivity.
  - apply (Hel cfg_gap (mkRoom "e9" "Elite" "elite" "")
             ["06:00"; "08:00"; "10:00"; "12:00"; "14:00"; "16:00"; "18:00";
              "20:00"; "22:00"]%string
             "00:00"%string ["02:00"; "04:00"]%string Weekend).
    + reflexivity.
    + discriminate.
    + reflexivity.
    + intros s Hin. cbn [In] in Hin.
      repeat (destruct Hin as [<- | Hin]);
        [ .. | destruct Hin ];
        (exists "2025-01-20"%string, Weekday; eexists;
         split; [reflexivity | split; reflexivity]).
    + exists "2025-01-19"%string. split; [reflexivity | split; reflexivity].
Defined.

(** ** Worked requests, evaluated *)

Example pooled_missing_scenario :
  exists grid,
    availability_grid_comfort (JS.int 0) Scenario.upstream Scenario.req
      (Fulfilled Scenario.cfg)
    = Some (ComfortGrid "club" "2025-01-20" "2025-01-19" "2025-01-21" grid) /\
    map_get "02:00" grid = Some (mkComfortCell 1 2 3 (Some 900%Q)).
Proof. eexists. split; [vm_compute; reflexivity | reflexivity]. Qed.

Example exclusive_free_scenario :
  exists grid,
    availability_grid_elite (JS.int 0) Scenario.upstream Scenario.req
      (Fulfilled Scenario.cfg)
    = Some (EliteGrid "club" "2025-01-20" "2025-01-19" "2025-01-21" grid) /\
    map_get "14:00" grid =
      Some (mkEliteCell 1 (Some 1200%Q) "elite-weekday-day" "e9" 1 None).
Proof. eexists. split; [vm_compute; reflexivity | reflexivity]. Qed.

(** ** Counting the rooms of the pool *)

(** C1, as stated, fails: in the scenario of two rooms without records and
    one free room the cell is 1 free, 2 busy, 3 in total, so a room whose
    verdict is missing is counted in [busy_count]. *)
Lemma missing_rooms_excluded_refuted :
  comfort_cell_of (JS.int 0) Scenario.cfg scenario_index "2025-01-20" scenario_pool
    "02:00" = Ret (mkComfortCell 1 2 3 (Some 900%Q)) /\
  rooms_with Scenario.cfg scenario_index "02:00" "2025-01-19" "02:00" "03:00"
    is_missing scenario_pool = 2 /\
  ~ (forall offset cfg idxByPair uiDate comfort start cell realDate t1 t2,
       comfort_cell_of offset cfg idxByPair uiDate comfort start = Ret cell ->
       realDateForStart uiDate start = Some realDate ->
       slotTime1 offset start = Some t1 ->
       slotTime2 offset start = Some t2 ->
       free_count cell =
         rooms_with cfg idxByPair start realDate t1 t2 is_free comfort /\
       busy_count cell =
         rooms_with cfg idxByPair start realDate t1 t2 is_busy comfort /\
       total_count cell = Z.of_nat (length comfort)).
Proof.
  split; [vm_compute; reflexivity | ]. split; [vm_compute; reflexivity | ].
  intros H.
  destruct (H (JS.int 0) Scenario.cfg scenario_index "2025-01-20"%string scenario_pool
              "02:00"%string (mkComfortCell 1 2 3 (Some 900%Q))
              "2025-01-19"%string "02:00"%string "03:00"%string)
    as (_ & Hbusy & _); try (vm_compute; reflexivity).
  vm_compute in Hbusy. discriminate Hbusy.
Qed.

(** C1, amended. In every cell of the pooled grid, [free_count] is the
    number of rooms whose verdict is free, [busy_count] the number of
    rooms whose verdict is busy plus the number whose verdict is missing,
    and [total_count] the number of rooms in the pool. *)
Theorem missing_rooms_count_as_busy (offset : JS.number) (cfg : config)
    (idxByPair : gmap string (gmap string item))
    (uiDate : string) (comfort : list room) (start : string)
    (cell : comfort_cell) :
  comfort_cell_of offset cfg idxByPair uiDate comfort start = Ret cell ->
  exists realDate t1 t2,
    realDateForStart uiDate start = Some realDate /\
    slotTime1 offset start = Some t1 /\
    slotTime2 offset start = Some t2 /\
    free_count cell =
      rooms_with cfg idxByPair start realDate t1 t2 is_free comfort /\
    busy_count cell =
      rooms_with cfg idxByPair start realDate t1 t2 is_busy comfort +
      rooms_with cfg idxByPair start realDate t1 t2 is_missing comfort /\
    total_count cell = Z.of_nat (length comfort).
Proof. apply comfort_cell_counts. Qed.

Lemma missing_rooms_count_as_busy_witness :
  exists realDate t1 t2,
    realDateForStart "2025-01-20" "02:00" = Some realDate /\
    slotTime1 (JS.int 0) "02:00" = Some t1 /\
    slotTime2 (JS.int 0) "02:00" = Some t2 /\
    1 = rooms_with Scenario.cfg scenario_index "02:00" realDate t1 t2
          is_free scenario_pool /\
    2 = rooms_with Scenario.cfg scenario_index "02:00" realDate t1 t2
          is_busy scenario_pool +
        rooms_with Scenario.cfg scenario_index "02:00" realDate t1 t2
          is_missing scenario_pool /\
    3 = Z.of_nat (length scenario_pool).
Proof.
  apply (missing_rooms_count_as_busy (JS.int 0) Scenario.cfg scenario_index
           "2025-01-20" scenario_pool "02:00"
           (mkComfortCell 1 2 3 (Some 900%Q))).
  vm_compute. reflexivity.
Defined.

(** C9. In every cell of a pooled grid that the handler returns,
    [free_count + busy_count = total_count], and [total_count] is the
    number of comfort rooms. *)
Theorem pooled_counts_partition (offset : JS.number) (upstream : query -> exchange)
    (req : request) (cfg : config) (club date sd ed : string)
    (grid : list (string * comfort_cell)) :
  availability_grid_comfort offset upstream req (Fulfilled cfg)
    = Some (ComfortGrid club date sd ed grid) ->
  forall start cell, In (start, cell) grid ->
    free_count cell + busy_count cell = total_count cell /\
    total_count cell = Z.of_nat (length (fst (splitRooms (rooms cfg)))).
Proof.
  intros H start cell Hin.
  apply comfort_handler_stages in H
    as (meta & pairs & idx & _ & _ & _ & _ & _ & _ & Hgrid).
  destruct (comfort_grid_cells _ _ _ _ _ _ _ _ Hgrid _ _ Hin)
    as [[] | [_ Hcell]].
  by apply comfort_cell_total in Hcell.
Qed.

Lemma pooled_counts_partition_witness :
  1 + 2 = 3 /\ 3 = Z.of_nat (length (fst (splitRooms (rooms Scenario.cfg)))).
Proof.
  eapply (pooled_counts_partition (JS.int 0) Scenario.upstream Scenario.req
            Scenario.cfg "club" "2025-01-20" "2025-01-19" "2025-01-21" _ _
            "02:00" (mkComfortCell 1 2 3 (Some 900%Q))).
  Unshelve.
  3: { vm_compute. reflexivity. }
  do 10 right. left. reflexivity.
Defined.

(** ** Real dates, day bands and shared queries *)

(** C3. The comment on [realDateForStart] says that the slots 00, 02 and
    04 belong to the day before. For a display date in the first hundred
    years the code answers with a date nineteen centuries later: the day
    before 0050-01-15 is 0050-01-14, the code says 1950-01-14. The year
    is also printed without padding: the day before 1000-01-01 comes out
    as "999-12-31", which no key of an index can equal. *)
Theorem real_date_of_early_year :
  (isIsoDate "0050-01-15" = true /\
   iso_date 50 1 15 = "0050-01-15"%string /\
   Calendar.valid_date 50 1 15 /\
   (let '(y, m, d) := Calendar.prev_day 50 1 15 in iso_date y m d)
     = "0050-01-14"%string /\
   realDateForStart "0050-01-15" "02:00" = Some "1950-01-14"%string) /\
  (isIsoDate "1000-01-01" = true /\
   iso_date 1000 1 1 = "1000-01-01"%string /\
   Calendar.valid_date 1000 1 1 /\
   (let '(y, m, d) := Calendar.prev_day 1000 1 1 in iso_date y m d)
     = "0999-12-31"%string /\
   realDateForStart "1000-01-01" "00:00" = Some "999-12-31"%string /\
   fst (parseDateTime (Item "0999-12-31 00:00:00" JS.JNull JS.JNull))
     = "0999-12-31"%string).
Proof.
  split.
  - split; [reflexivity | ]. split; [reflexivity | ].
    split; [by vm_compute | ]. split; reflexivity.
  - split; [reflexivity | ]. split; [reflexivity | ].
    split; [by vm_compute | ]. split; [reflexivity | ].
    split; reflexivity.
Qed.

(** C4. The band is [day] exactly when the slot label is, in
    lexicographic order, at or above "08:00" and below "16:00", and
    [night] otherwise; the labels 00:00, 02:00 and 04:00 are night; the
    services are picked by the band of the label, and the exclusive grid
    shows for each label the service of that band whatever the probe
    offset is. *)
Theorem day_band_of_slot_label :
  (forall start,
     getDayBand start = BandDay <->
     lex_le "08:00" start /\ lex_lt start "16:00") /\
  (forall start,
     getDayBand start = BandNight <->
     ~ (lex_le "08:00" start /\ lex_lt start "16:00")) /\
  getDayBand "00:00" = BandNight /\
  getDayBand "02:00" = BandNight /\
  getDayBand "04:00" = BandNight /\
  (forall cfg realDate start id,
     pickEliteServiceId cfg realDate start = Ret id ->
     exists dayType,
       getDayType realDate = Some dayType /\
       truthy_id (services_elite cfg dayType (getDayBand start)) = Some id) /\
  (forall cfg group realDate start id,
     pickComfortServiceId cfg group realDate start = Ret id ->
     exists dayType,
       getDayType realDate = Some dayType /\
       truthy_id (services_comfort cfg group dayType (getDayBand start))
         = Some id) /\
  (forall offset upstream req cfg club date sd ed grid start cell,
     availability_grid_elite offset upstream req (Fulfilled cfg)
       = Some (EliteGrid club date sd ed grid) ->
     In (start, cell) grid ->
     exists realDate dayType,
       realDateForStart date start = Some realDate /\
       getDayType realDate = Some dayType /\
       truthy_id (services_elite cfg dayType (getDayBand start))
         = Some (cell_service_id cell)).
Proof.
  split; [apply getDayBand_day_iff | ].
  split.
  { intros start. rewrite <- getDayBand_day_iff.
    destruct (getDayBand start); split; done. }
  do 3 (split; [reflexivity | ]).
  split; [apply pickElite_uses_label_band | ].
  split; [apply pickComfort_uses_label_band | ].
  intros offset upstream req cfg club date sd ed grid start cell H Hin.
  apply elite_handler_stages in H
    as (elite & meta & pairs & idx & _ & _ & _ & _ & _ & Hplan & _ & Hgrid).
  destruct (elite_grid_cells _ _ _ _ _ Hgrid _ _ Hin)
    as [[] | (m & Hm & <- & Hcell)].
  apply elite_cell_service in Hcell as [-> _].
  destruct (elite_plan_meta _ _ _ _ _ _ _ _ Hplan) as [_ Hres].
  specialize (Hres (List.Forall_nil _)).
  rewrite List.Forall_forall in Hres.
  destruct (Hres m Hm) as (Hrd & Hpick & _).
  apply pickElite_uses_label_band in Hpick as (dayType & Hdt & Hid).
  by exists (m_realDate m), dayType.
Qed.

(** C6. With ids that contain the separator of the composite key, two
    distinct resolved pairs share one key and one query: the pairs
    ("a|b", "c") and ("a", "b|c") are both resolved, only ("a", "b|c") is
    queried, and room "c", booked according to the answer to its own
    query, is counted free from the index of the other room. *)
Theorem colliding_keys_share_one_query :
  exists meta pairs grid,
    comfort_plan Scenario.cfg_bar "2025-01-20"
      (fst (splitRooms (rooms Scenario.cfg_bar))) STARTS [] []
      = Ret (meta, pairs) /\
    In (mkPair "a|b" "c") (List.map pair_of meta) /\
    In (mkPair "a" "b|c") (List.map pair_of meta) /\
    map_values pairs = [mkPair "a" "b|c"] /\
    availability_grid_comfort (JS.int 0) Scenario.upstream_bar
      (mkRequest "club" "2025-01-20") (Fulfilled Scenario.cfg_bar)
      = Some (ComfortGrid "club" "2025-01-20" "2025-01-19" "2025-01-21"
                grid) /\
    map_get "06:00" grid = Some (mkComfortCell 2 0 2 (Some 700%Q)) /\
    match index_for Scenario.upstream_bar "club" "2025-01-19" "2025-01-21"
            (mkPair "a|b" "c") with
    | Fulfilled byKey =>
        Some (v_status
                (evaluateRoomStatus
                   (slotInfo (byKey !! "2025-01-20|06:00"%string)
                      "2025-01-20" "06:00")
                   (slotInfo (byKey !! "2025-01-20|07:00"%string)
                      "2025-01-20" "07:00")))
    | Rejected _ => None
    end = Some Busy.
Proof.
  do 3 eexists.
  split; [vm_compute; reflexivity | ].
  split; [left; reflexivity | ].
  split; [right; left; reflexivity | ].
  split; [reflexivity | ].
  split; [vm_compute; reflexivity | ].
  split; [reflexivity | ].
  vm_compute. reflexivity.
Qed.

(** ** Failing fetches *)

Lemma http_error_rejects (resp : http_response) :
  resp_ok resp = false ->
  fetchIndexedRentalTimes (Response resp) =
    Rejected
      (mkError ("Upstream error " +:+ JS.String_ (resp_status resp))
         (Some (resp_status resp))
         (Some (match body_truthy (resp_json resp) with
                | Some b => DetailsJson b
                | None => DetailsRaw (resp_text resp)
                end))).
Proof.
  intros H. unfold fetchIndexedRentalTimes, apiGet. by rewrite H.
Qed.

Lemma result_false_rejects (resp : http_response) (err : JS.value)
    (msg : option string) (data : option (list item)) :
  resp_ok resp = true ->
  resp_json resp = Some (BodyObject (JS.JBool false) err msg data) ->
  fetchIndexedRentalTimes (Response resp) =
    Rejected
      (mkError
         ("Upstream result=false: "
          +:+ default "Upstream returned result=false"%string msg)
         (Some 502)
         (Some (DetailsUpstream (JS.JBool false)
                  (match err with JS.JUndefined => JS.JNull | v => v end)
                  (default "Upstream returned result=false"%string msg)))).
Proof.
  intros H1 H2. unfold fetchIndexedRentalTimes, apiGet. by rewrite H1, H2.
Qed.

(** What the catch block answers to the two kinds of upstream failure:
    the upstream status (or 500) with the parsed body, or the raw text
    when there is no such body; and 502 with the upstream's [result],
    [error] and [error_message]. *)
Lemma http_error_response (resp : http_response) :
  catch_response
    (mkError ("Upstream error " +:+ JS.String_ (resp_status resp))
       (Some (resp_status resp))
       (Some (match body_truthy (resp_json resp) with
              | Some b => DetailsJson b
              | None => DetailsRaw (resp_text resp)
              end)))
  = ErrorResponse
      (if resp_status resp =? 0 then 500 else resp_status resp)
      ("Upstream error " +:+ JS.String_ (resp_status resp))
      (Some (match body_truthy (resp_json resp) with
             | Some b => DetailsJson b
             | None => DetailsRaw (resp_text resp)
             end)).
Proof. reflexivity. Qed.

Lemma result_false_response (err : JS.value) (msg : option string) :
  catch_response
    (mkError
       ("Upstream result=false: "
        +:+ default "Upstream returned result=false"%string msg)
       (Some 502)
       (Some (DetailsUpstream (JS.JBool false)
                (match err with JS.JUndefined => JS.JNull | v => v end)
                (default "Upstream returned result=false"%string msg))))
  = ErrorResponse 502
      ("Upstream result=false: "
       +:+ default "Upstream returned result=false"%string msg)
      (Some (DetailsUpstream (JS.JBool false)
               (match err with JS.JUndefined => JS.JNull | v => v end)
               (default "Upstream returned result=false"%string msg))).
Proof. reflexivity. Qed.

(** C7. An upstream answer with an HTTP error status rejects the fetch
    with that status and with the parsed body (or, without one, the raw
    text) as details; an answer with [result: false] in its body rejects
    it with status 502 and the upstream's [result], [error] and
    [error_message] as details. The catch block turns either error into
    the error response that carries exactly these details. As soon as
    the fetch of one planned pair is rejected, either grid handler
    answers with the error response built from a rejected fetch and with
    no grid; when all rejected fetches fail with the same error, with
    the response built from that error. *)
Theorem failed_fetch_aborts_grid (offset : JS.number)
    (upstream : query -> exchange)
    (req : request) (cfg : config) (sd ed : string) :
  req_club_id req <> ""%string -> isIsoDate (req_date req) = true ->
  addDaysIso (req_date req) (-1) = Some sd ->
  addDaysIso (req_date req) 1 = Some ed ->
  (forall resp,
     resp_ok resp = false ->
     fetchIndexedRentalTimes (Response resp) =
       Rejected
         (mkError ("Upstream error " +:+ JS.String_ (resp_status resp))
            (Some (resp_status resp))
            (Some (match body_truthy (resp_json resp) with
                   | Some b => DetailsJson b
                   | None => DetailsRaw (resp_text resp)
                   end))) /\
     catch_response
       (mkError ("Upstream error " +:+ JS.String_ (resp_status resp))
          (Some (resp_status resp))
          (Some (match body_truthy (resp_json resp) with
                 | Some b => DetailsJson b
                 | None => DetailsRaw (resp_text resp)
                 end)))
     = ErrorResponse
         (if resp_status resp =? 0 then 500 else resp_status resp)
         ("Upstream error " +:+ JS.String_ (resp_status resp))
         (Some (match body_truthy (resp_json resp) with
                | Some b => DetailsJson b
                | None => DetailsRaw (resp_text resp)
                end))) /\
  (forall resp err msg data,
     resp_ok resp = true ->
     resp_json resp = Some (BodyObject (JS.JBool false) err msg data) ->
     fetchIndexedRentalTimes (Response resp) =
       Rejected
         (mkError
            ("Upstream result=false: "
             +:+ default "Upstream returned result=false"%string msg)
            (Some 502)
            (Some (DetailsUpstream (JS.JBool false)
                     (match err with JS.JUndefined => JS.JNull | v => v end)
                     (default "Upstream returned result=false"%string
                        msg)))) /\
     catch_response
       (mkError
          ("Upstream result=false: "
           +:+ default "Upstream returned result=false"%string msg)
          (Some 502)
          (Some (DetailsUpstream (JS.JBool false)
                   (match err with JS.JUndefined => JS.JNull | v => v end)
                   (default "Upstream returned result=false"%string msg))))
     = ErrorResponse 502
         ("Upstream result=false: "
          +:+ default "Upstream returned result=false"%string msg)
         (Some (DetailsUpstream (JS.JBool false)
                  (match err with JS.JUndefined => JS.JNull | v => v end)
                  (default "Upstream returned result=false"%string msg)))) /\
  (forall e,
     catch_response e =
       ErrorResponse
         (match status e with
          | Some s => if s =? 0 then 500 else s
          | None => 500
          end)
         (if String.eqb (message e) "" then "Backend error" else message e)
         (err_details e)) /\
  (forall meta pairs p e,
     fst (splitRooms (rooms cfg)) <> [] ->
     comfort_plan cfg (req_date req) (fst (splitRooms (rooms cfg)))
       STARTS [] [] = Ret (meta, pairs) ->
     In p (map_values pairs) ->
     index_for upstream (req_club_id req) sd ed p = Rejected e ->
     (exists p' e',
        In p' (map_values pairs) /\
        index_for upstream (req_club_id req) sd ed p' = Rejected e' /\
        availability_grid_comfort offset upstream req (Fulfilled cfg)
          = Some (catch_response e')) /\
     ((forall q eq,
         In q (map_values pairs) ->
         index_for upstream (req_club_id req) sd ed q = Rejected eq ->
         eq = e) ->
      availability_grid_comfort offset upstream req (Fulfilled cfg)
        = Some (catch_response e))) /\
  (forall elite meta pairs p e,
     snd (splitRooms (rooms cfg)) = Some elite ->
     room_id elite <> ""%string ->
     elite_plan cfg (room_id elite) (req_date req) STARTS [] []
       = Ret (meta, pairs) ->
     In p (map_values pairs) ->
     index_for upstream (req_club_id req) sd ed p = Rejected e ->
     (exists p' e',
        In p' (map_values pairs) /\
        index_for upstream (req_club_id req) sd ed p' = Rejected e' /\
        availability_grid_elite offset upstream req (Fulfilled cfg)
          = Some (catch_response e')) /\
     ((forall q eq,
         In q (map_values pairs) ->
         index_for upstream (req_club_id req) sd ed q = Rejected eq ->
         eq = e) ->
      availability_grid_elite offset upstream req (Fulfilled cfg)
        = Some (catch_response e))).
Proof.
  intros Hc Hd Hs He.
  split.
  { intros resp H. split; [by apply http_error_rejects | ].
    apply http_error_response. }
  split.
  { intros resp err msg data H1 H2.
    split; [by apply (result_false_rejects resp err msg data) | ].
    apply result_false_response. }
  split; [reflexivity | ].
  split.
  - intros meta pairs p e Hne Hplan Hin Hrej.
    destruct (fetch_all_rejects upstream _ sd ed pairs p e Hin Hrej)
      as (p' & e' & Hin' & Hrej' & Hall).
    assert (Hrun : availability_grid_comfort offset upstream req
                     (Fulfilled cfg) = Some (catch_response e')).
    { rewrite (comfort_handler_run offset upstream req cfg sd ed) by done.
      rewrite Hplan. cbn [mbind comp_bind]. by rewrite Hall. }
    split; [by exists p', e' | ].
    intros Hsame. by rewrite <- (Hsame p' e' Hin' Hrej').
  - intros elite meta pairs p e Hel Hid Hplan Hin Hrej.
    destruct (fetch_all_rejects upstream _ sd ed pairs p e Hin Hrej)
      as (p' & e' & Hin' & Hrej' & Hall).
    assert (Hrun : availability_grid_elite offset upstream req
                     (Fulfilled cfg) = Some (catch_response e')).
    { rewrite (elite_handler_run offset upstream req cfg sd ed elite)
        by done.
      rewrite Hplan. cbn [mbind comp_bind]. by rewrite Hall. }
    split; [by exists p', e' | ].
    intros Hsame. by rewrite <- (Hsame p' e' Hin' Hrej').
Qed.

Lemma failed_fetch_aborts_grid_witness :
  availability_grid_comfort (JS.int 0) Scenario.upstream_down Scenario.req
    (Fulfilled Scenario.cfg)
  = Some (ErrorResponse 503 "Upstream error 503"
            (Some (DetailsRaw "Service Unavailable"))).
Proof.
  destruct (failed_fetch_aborts_grid (JS.int 0) Scenario.upstream_down Scenario.req
              Scenario.cfg "2025-01-19" "2025-01-21")
    as (_ & _ & _ & Hpool & _).
  - vm_compute. discriminate.
  - reflexivity.
  - reflexivity.
  - reflexivity.
  - edestruct Hpool as [(p' & e' & Hin & Hrej & Hrun) _].
    + vm_compute. discriminate.
    + vm_compute. reflexivity.
    + vm_compute. right. left. reflexivity.
    + vm_compute. reflexivity.
    + rewrite Hrun. f_equal. clear -Hrej.
      unfold index_for, Scenario.upstream_down, Scenario.upstream,
        Scenario.answer_with, fetchIndexedRentalTimes, apiGet in Hrej.
      cbn [query_of q_room_id] in Hrej.
      destruct (String.eqb (pair_room_id p') "r2").
      * cbn [answer resp_ok resp_status resp_json resp_text negb body_truthy]
          in Hrej.
        injection Hrej as <-. reflexivity.
      * destruct (String.eqb (pair_room_id p') "r3");
          [discriminate Hrej | ].
        destruct (String.eqb (pair_room_id p') "e9"); discriminate Hrej.
Defined.

(** ** Probe times *)






(** ** Instances *)

Lemma real_date_of_calendar_day_witness :
  realDateForStart "2025-01-20" "02:00" = Some "2025-01-19"%string /\
  realDateForStart "2024-03-01" "04:00" = Some "2024-02-29"%string /\
  realDateForStart "2025-01-01" "00:00" = Some "2024-12-31"%string /\
  realDateForStart "2025-01-20" "06:00" = Some "2025-01-20"%string.
Proof.
  split; [ | split; [ | split]].
  - apply (real_date_of_calendar_day 2025 1 20 2 0);
      [by vm_compute | lia | congruence | lia].
  - apply (real_date_of_calendar_day 2024 3 1 4 0);
      [by vm_compute | lia | congruence | lia].
  - apply (real_date_of_calendar_day 2025 1 1 0 0);
      [by vm_compute | lia | congruence | lia].
  - apply (real_date_of_calendar_day 2025 1 20 6 0);
      [by vm_compute | lia | congruence | lia].
Defined.

Lemma pooled_queries_deduplicated_witness :
  exists meta pairs,
    comfort_plan Scenario.cfg "2025-01-20" scenario_pool STARTS [] []
      = Ret (meta, pairs) /\
    length (map_values pairs) = 9%nat /\
    List.NoDup (map_values pairs) /\
    (forall p, In p (map_values pairs) <-> In p (List.map pair_of meta)).
Proof.
  do 2 eexists. split; [vm_compute; reflexivity | ].
  split; [reflexivity | ].
  edestruct (pooled_queries_deduplicated Scenario.upstream Scenario.cfg
               "club" "2025-01-20" "2025-01-19" "2025-01-21")
    as (Hnd & Hiff & _).
  - vm_compute. reflexivity.
  - intros m Hin. apply bar_freeb_sound.
    revert m Hin.
    apply (proj1 (List.forallb_forall
                    (fun m => bar_freeb (m_service_id m)) _)).
    vm_compute. reflexivity.
  - split; [exact Hnd | exact Hiff].
Defined.

Lemma exclusive_queries_deduplicated_witness :
  exists meta pairs,
    elite_plan Scenario.cfg "e9" "2025-01-20" STARTS [] []
      = Ret (meta, pairs) /\
    map_values pairs =
      [mkPair "elite-weekday-night" "e9"; mkPair "elite-weekday-day" "e9";
       mkPair "elite-weekend-night" "e9"] /\
    List.NoDup (map_values pairs).
Proof.
  do 2 eexists. split; [vm_compute; reflexivity | ].
  split; [reflexivity | ].
  edestruct (exclusive_queries_deduplicated (JS.int 0) Scenario.upstream
               Scenario.cfg "e9" "club" "2025-01-20" "2025-01-19"
               "2025-01-21")
    as (Hnd & _).
  - vm_compute. reflexivity.
  - exact Hnd.
Defined.

(** ** The pool reads the indexes of its own pairs *)




(** ** The lowest price of a slot *)

Lemma Math_min_cases (a b : Q) :
  (Math_min a b = a /\ (a <= b)%Q) \/ (Math_min a b = b /\ (b <= a)%Q).
Proof.
  unfold Math_min. destruct (Qle_bool a b) eqn:E.
  - left. split; [reflexivity | by apply Qle_bool_iff].
  - right. split; [reflexivity | ].
    apply Qlt_le_weak, Qnot_le_lt. intros H.
    apply Qle_bool_iff in H. congruence.
Qed.

Lemma free_prices_cons (cfg : config)
    (idxByPair : gmap string (gmap string item))
    (start realDate t1 t2 : string) (r : room) (comfort : list room) :
  free_prices cfg idxByPair start realDate t1 t2 (r :: comfort) =
    match comfort_room_status cfg idxByPair start realDate t1 t2 r with
    | Ret (st, Some p) => if is_free (v_status st) then [p] else []
    | _ => []
    end ++ free_prices cfg idxByPair start realDate t1 t2 comfort.
Proof. reflexivity. Qed.

(** The fold keeps the least price seen so far. *)
Lemma comfort_fold_min (cfg : config)
    (idxByPair : gmap string (gmap string item))
    (start realDate t1 t2 : string) (comfort : list room) :
  forall (f b : Z) (mp : option Q) (f' b' : Z) (mp' : option Q),
    comfort_fold cfg idxByPair start realDate t1 t2 comfort f b mp
      = Ret (f', b', mp') ->
    let prices := free_prices cfg idxByPair start realDate t1 t2 comfort in
    (mp' = None <-> mp = None /\ prices = []) /\
    (forall q, mp' = Some q ->
       (mp = Some q \/ In q prices) /\
       (forall p, mp = Some p -> (q <= p)%Q) /\
       (forall p, In p prices -> (q <= p)%Q)).
Proof.
  induction comfort as [ | r comfort IH]; intros f b mp f' b' mp' H.
  - cbn in H. injection H as <- <- <-. cbn. split.
    + split; [by intros -> | by intros [-> _]].
    + intros q ->. split; [by left | ]. split; [ | intros p []].
      intros p Hp. injection Hp as <-. apply Qle_refl.
  - cbn [comfort_fold] in H. rewrite free_prices_cons.
    destruct (comfort_room_status cfg idxByPair start realDate t1 t2 r)
      as [[st pr] | e | ]; cbn [mbind comp_bind] in H; try discriminate H.
    destruct (is_free (v_status st)).
    + destruct pr as [p0 | ].
      * apply IH in H. cbv zeta in H. destruct H as [Hnone Hsome].
        cbn [app]. split.
        { split.
          - intros E. apply Hnone in E as [E _]. discriminate E.
          - intros [_ E]. discriminate E. }
        intros q Hq. destruct (Hsome q Hq) as (Hfrom & Hle0 & Hle).
        assert (Hcur : forall x,
                  Some (match mp with None => p0 | Some m => Math_min m p0 end)
                    = Some x ->
                  (mp = Some x \/ x = p0) /\
                  (forall p, mp = Some p -> (x <= p)%Q) /\ (x <= p0)%Q).
        { intros x Hx. injection Hx as <-. destruct mp as [m | ].
          - destruct (Math_min_cases m p0) as [[-> Hl] | [-> Hl]].
            + split; [by left | ]. split; [ | done].
              intros p Hp. injection Hp as <-. apply Qle_refl.
            + split; [by right | ]. split; [ | apply Qle_refl].
              intros p Hp. by injection Hp as <-.
          - split; [by right | ]. split; [done | apply Qle_refl]. }
        set (cur := match mp with None => p0 | Some m => Math_min m p0 end)
          in *.
        destruct (Hcur cur eq_refl) as (Hc1 & Hc2 & Hc3).
        assert (Hqc : (q <= cur)%Q) by by apply Hle0.
        split; [ | split].
        { destruct Hfrom as [Hfrom | Hin].
          - injection Hfrom as <-.
            destruct Hc1 as [Hc1 | Hc1]; [by left | right; by left].
          - right. by right. }
        { intros p Hp. apply (Qle_trans _ cur); [done | by apply Hc2]. }
        { intros p [<- | Hin]; [ | by apply Hle].
          by apply (Qle_trans _ cur). }
      * apply IH in H. exact H.
    + apply IH in H. by destruct pr.
Qed.

(** In every cell of the pooled grid, [min_price] is the least of the
    numeric prices picked for the rooms whose verdict is free, and it is
    null exactly when no free room has a numeric price. *)
Theorem pooled_min_price_is_least (offset : JS.number) (cfg : config)
    (idxByPair : gmap string (gmap string item))
    (uiDate : string) (comfort : list room) (start : string)
    (cell : comfort_cell) :
  comfort_cell_of offset cfg idxByPair uiDate comfort start = Ret cell ->
  exists realDate t1 t2,
    realDateForStart uiDate start = Some realDate /\
    slotTime1 offset start = Some t1 /\
    slotTime2 offset start = Some t2 /\
    let prices := free_prices cfg idxByPair start realDate t1 t2 comfort in
    (min_price cell = None <-> prices = []) /\
    (forall q, min_price cell = Some q ->
       In q prices /\ forall p, In p prices -> (q <= p)%Q).
Proof.
  unfold comfort_cell_of. intros H.
  destruct (realDateForStart uiDate start) as [realDate | ];
    [ | discriminate H].
  destruct (slotTime1 offset start) as [t1 | ]; [ | discriminate H].
  destruct (slotTime2 offset start) as [t2 | ]; [ | discriminate H].
  cbn in H.
  destruct (comfort_fold cfg idxByPair start realDate t1 t2 comfort 0 0 None)
    as [[[f b] mp] | e | ] eqn:E; cbn in H; try discriminate H.
  injection H as <-. apply comfort_fold_min in E. cbv zeta in E.
  destruct E as [Hnone Hsome].
  exists realDate, t1, t2. do 3 (split; [done | ]).
  cbn [min_price]. split.
  - split; [intros E; by apply Hnone in E as [_ E] | ].
    intros E. by apply Hnone.
  - intros q Hq. destruct (Hsome q Hq) as ([Hfrom | Hin] & _ & Hle);
      [discriminate Hfrom | by split].
Qed.

Lemma pooled_min_price_is_least_witness :
  exists realDate t1 t2,
    realDateForStart "2025-01-20" "02:00" = Some realDate /\
    slotTime1 (JS.int 0) "02:00" = Some t1 /\
    slotTime2 (JS.int 0) "02:00" = Some t2 /\
    let prices :=
      free_prices Scenario.cfg scenario_index "02:00" realDate t1 t2
        scenario_pool in
    (Some 900%Q = None <-> prices = []) /\
    (forall q, Some 900%Q = Some q ->
       In q prices /\ forall p, In p prices -> (q <= p)%Q).
Proof.
  apply (pooled_min_price_is_least (JS.int 0) Scenario.cfg scenario_index
           "2025-01-20" scenario_pool "02:00"
           (mkComfortCell 1 2 3 (Some 900%Q))).
  vm_compute. reflexivity.
Defined.

(** ** The index of an upstream answer *)

Lemma index_items_lookup (items : list item) :
  forall (byKey : gmap string item) (k : string),
    index_items items byKey !! k =
      match last_with_key k items with
      | Some it => Some it
      | None => byKey !! k
      end.
Proof.
  induction items as [ | it items IH]; intros byKey k; [reflexivity | ].
  cbn [index_items last_with_key]. unfold item_key.
  destruct (parseDateTime it) as [d t].
  destruct (String.eqb d "" || String.eqb t "").
  - rewrite IH. by destruct (last_with_key k items).
  - rewrite IH. destruct (last_with_key k items); [reflexivity | ].
    destruct (String.eqb_spec (d +:+ "|" +:+ t) k) as [<- | Hne].
    + apply lookup_insert_eq.
    + by apply lookup_insert_ne.
Qed.

Local Ltac peel_class H s c D :=
  destruct s as [ | c s]; [discriminate H | ];
  cbn [match_prefix] in H;
  match type of H with
  | (if ?b then _ else _) = _ => destruct b eqn:D; [ | discriminate H]
  end.

(** The two groups that [parseDateTime] cuts out of a timestamp. *)
Lemma parseDateTime_groups (it : item) (d t : string) :
  parseDateTime it = (d, t) -> d <> ""%string ->
  isIsoDate d = true /\ clock_text t = true /\
  exists sep rest,
    (sep = " "%char \/ sep = "T"%char) /\
    date_time it = d +:+ String sep (t +:+ rest).
Proof.
  unfold parseDateTime. intros H Hd.
  destruct (match_prefix _ (date_time it)) as [rest | ] eqn:E;
    [ | injection H as <- <-; done].
  set (s := date_time it) in *. clearbody s.
  unfold date_pattern, time_pattern in E. cbn [app] in E.
  peel_class E s c1 D1. peel_class E s c2 D2.
  peel_class E s c3 D3. peel_class E s c4 D4.
  peel_class E s c5 D5.
  peel_class E s c6 D6. peel_class E s c7 D7.
  peel_class E s c8 D8.
  peel_class E s c9 D9. peel_class E s c10 D10.
  peel_class E s c11 D11.
  peel_class E s c12 D12. peel_class E s c13 D13.
  peel_class E s c14 D14.
  peel_class E s c15 D15. peel_class E s c16 D16.
  cbn [match_prefix] in E. injection E as <-.
  cbn in H. injection H as <- <-.
  split; [ | split].
  - unfold isIsoDate, date_pattern. cbn [match_prefix].
    by rewrite D1, D2, D3, D4, D5, D6, D7, D8, D9, D10.
  - unfold clock_text, time_pattern. cbn [match_prefix].
    rewrite D12, D13, D14, D15, D16. by destruct s.
  - exists c11, s. split; [ | by destruct s].
    unfold chr in D11. apply orb_true_iff in D11 as [D | D];
      apply Ascii.eqb_eq in D; subst c11; [by left | by right].
Qed.

Lemma isIsoDate_bar_free (d : string) : isIsoDate d = true -> bar_free d.
Proof.
  unfold isIsoDate, date_pattern. intros H.
  destruct (match_prefix _ d) as [[ | ? ?] | ] eqn:E; try discriminate H.
  clear H.
  peel_class E d c1 D1. peel_class E d c2 D2.
  peel_class E d c3 D3. peel_class E d c4 D4.
  peel_class E d c5 D5.
  peel_class E d c6 D6. peel_class E d c7 D7.
  peel_class E d c8 D8.
  peel_class E d c9 D9. peel_class E d c10 D10.
  cbn [match_prefix] in E. injection E as ->.
  apply bar_freeb_sound. unfold bar_freeb.
  cbn [String.list_ascii_of_string forallb].
  assert (Hdig : forall c, JS.is_digit c = true -> Ascii.eqb c "|" = false).
  { intros c Hc. destruct (Ascii.eqb_spec c "|") as [-> | ]; [ | done].
    discriminate Hc. }
  unfold chr in D5, D8.
  apply Ascii.eqb_eq in D5, D8. subst c5 c8.
  by rewrite (Hdig c1 D1), (Hdig c2 D2), (Hdig c3 D3), (Hdig c4 D4),
    (Hdig c6 D6), (Hdig c7 D7), (Hdig c9 D9), (Hdig c10 D10).
Qed.

(** A timestamp that starts with a date, a blank or a T, and a time is
    cut into that date and that time. *)
Lemma parseDateTime_complete (it : item) (d t rest : string) (sep : ascii) :
  isIsoDate d = true -> clock_text t = true ->
  sep = " "%char \/ sep = "T"%char ->
  date_time it = d +:+ String sep (t +:+ rest) ->
  parseDateTime it = (d, t).
Proof.
  unfold isIsoDate, clock_text, date_pattern, time_pattern.
  intros Hd Ht Hsep Hdt.
  destruct (match_prefix _ d) as [[ | ? ?] | ] eqn:Ed; try discriminate Hd.
  destruct (match_prefix _ t) as [[ | ? ?] | ] eqn:Et; try discriminate Ht.
  clear Hd Ht.
  peel_class Ed d c1 D1. peel_class Ed d c2 D2.
  peel_class Ed d c3 D3. peel_class Ed d c4 D4.
  peel_class Ed d c5 D5.
  peel_class Ed d c6 D6. peel_class Ed d c7 D7.
  peel_class Ed d c8 D8.
  peel_class Ed d c9 D9. peel_class Ed d c10 D10.
  cbn [match_prefix] in Ed. injection Ed as ->.
  peel_class Et t c12 D12. peel_class Et t c13 D13.
  peel_class Et t c14 D14.
  peel_class Et t c15 D15. peel_class Et t c16 D16.
  cbn [match_prefix] in Et. injection Et as ->.
  assert (Hs : chr " " sep || chr "T" sep = true).
  { destruct Hsep as [-> | ->]; reflexivity. }
  unfold parseDateTime, date_pattern, time_pattern. rewrite Hdt.
  cbv [String.append]. cbn [app match_prefix].
  rewrite D1, D2, D3, D4, D5, D6, D7, D8, D9, D10, Hs,
    D12, D13, D14, D15, D16.
  cbn. by destruct rest.
Qed.

(** The index of an upstream answer. A lookup gives the last record of
    the answer whose timestamp parses to the key, and nothing when there
    is none; a record is indexed under the date and the time cut from the
    start of its timestamp, of the forms YYYY-MM-DD and HH:MM; so a
    lookup under a time that is not of the form HH:MM finds nothing,
    whatever the answer holds. *)
Theorem index_lookup_last_record :
  (forall items k, index_items items ∅ !! k = last_with_key k items) /\
  (forall it k,
     item_key it = Some k ->
     exists d t sep rest,
       k = d +:+ "|" +:+ t /\
       isIsoDate d = true /\ clock_text t = true /\
       (sep = " "%char \/ sep = "T"%char) /\
       date_time it = d +:+ String sep (t +:+ rest)) /\
  (forall it d t sep rest,
     isIsoDate d = true -> clock_text t = true ->
     sep = " "%char \/ sep = "T"%char ->
     date_time it = d +:+ String sep (t +:+ rest) ->
     item_key it = Some (d +:+ "|" +:+ t)) /\
  (forall items date time,
     bar_free date -> clock_text time = false ->
     index_items items ∅ !! (date +:+ "|" +:+ time) = None).
Proof.
  split; [intros items k; by rewrite index_items_lookup, lookup_empty;
          destruct (last_with_key k items) | ].
  split.
  { intros it k H. unfold item_key in H.
    destruct (parseDateTime it) as [d t] eqn:E.
    destruct (String.eqb_spec d "") as [-> | Hd]; [discriminate H | ].
    destruct (String.eqb t ""); [discriminate H | ].
    cbn [orb] in H. injection H as <-.
    destruct (parseDateTime_groups it d t E Hd)
      as (Hi & Hc & sep & rest & Hsep & Hdt).
    by exists d, t, sep, rest. }
  split.
  { intros it d t sep rest Hd Ht Hsep Hdt.
    unfold item_key.
    rewrite (parseDateTime_complete it d t rest sep Hd Ht Hsep Hdt).
    destruct d as [ | c d]; [discriminate Hd | ].
    destruct t as [ | c' t]; [discriminate Ht | ].
    reflexivity. }
  intros items date time Hb Ht.
  rewrite index_items_lookup, lookup_empty.
  destruct (last_with_key (date +:+ "|" +:+ time) items) as [it | ] eqn:E;
    [ | reflexivity].
  exfalso.
  assert (Hk : item_key it = Some (date +:+ "|" +:+ time)).
  { clear -E. induction items as [ | x items IH]; [discriminate E | ].
    cbn [last_with_key] in E.
    destruct (last_with_key (date +:+ "|" +:+ time) items) as [y | ];
      [injection E as ->; by apply IH | ].
    destruct (item_key x) as [k' | ] eqn:Ex; [ | discriminate E].
    destruct (String.eqb_spec k' (date +:+ "|" +:+ time)) as [-> | ];
      [ | discriminate E].
    by injection E as <-. }
  unfold item_key in Hk. destruct (parseDateTime it) as [d t] eqn:Ep.
  destruct (String.eqb_spec d "") as [-> | Hd]; [discriminate Hk | ].
  destruct (String.eqb t ""); [discriminate Hk | ].
  cbn [orb] in Hk. injection Hk as Hk.
  destruct (parseDateTime_groups it d t Ep Hd) as (Hi & Hc & _).
  apply append_bar_inj in Hk as [-> ->];
    [congruence | by apply isIsoDate_bar_free | done].
Qed.

(** ** Shifting twice *)



(** ** Day of the week *)

Lemma WeekDay_zeller (y m d : Z) :
  1 <= m <= 12 ->
  (DayFromYear y + monthStart (if leap y then 1 else 0) (m - 1) + d - 1 + 4 + 1)
    mod 7 = zeller y m d.
Proof.
  intros Hm. unfold zeller, DayFromYear.
  destruct (leap y) eqn:E.
  - apply leap_spec in E.
    split_month m; eval_pred; cbv beta iota zeta; eval_monthStart;
      cbn [Z.ltb Z.compare Pos.compare Pos.compare_cont];
      zdiv.
  - assert (~ ((y mod 4 = 0 /\ y mod 100 <> 0) \/ y mod 400 = 0)) as N.
    { rewrite <- leap_spec. congruence. }
    split_month m; eval_pred; cbv beta iota zeta; eval_monthStart;
      cbn [Z.ltb Z.compare Pos.compare Pos.compare_cont];
      zdiv.
Qed.

(** For a calendar date whose year [Date.UTC] takes as it is,
    [getDayType] answers "weekend" exactly on the Fridays, Saturdays and
    Sundays of the Gregorian calendar, as Zeller's congruence gives
    them, and "weekday" on the other days. *)
Theorem getDayType_weekend_days (y m d : Z) :
  valid_date y m d -> 100 <= y <= 9999 ->
  getDayType (iso_date y m d) =
    Some (if zeller_weekend y m d then Weekend else Weekday).
Proof.
  intros [Hm Hd] Hy.
  pose proof (days_in_month_le_31 y m) as Hle.
  unfold getDayType.
  rewrite split_iso_date by lia. cbn [List.map].
  rewrite Number_four_digits, !Number_two_digits by lia.
  cbv zeta. f_equal.
  unfold getUTCDay, WeekDay, UTC_noon.
  destruct (Z.leb_spec 0 y), (Z.leb_spec y 99); cbn [andb]; try lia.
  rewrite Day_MakeDate by (unfold msPerDay; lia).
  rewrite MakeDay_valid by done.
  pose proof (WeekDay_zeller y m d Hm) as Hz.
  unfold zeller_weekend. rewrite <- Hz.
  set (n := DayFromYear y + monthStart (if leap y then 1 else 0) (m - 1)
            + d - 1) in *.
  assert (Hrel : (n + 4 + 1) mod 7 = ((n + 4) mod 7 + 1) mod 7) by zdiv.
  rewrite Hrel.
  assert (Hr : 0 <= (n + 4) mod 7 < 7) by zdiv.
  set (w := (n + 4) mod 7) in *.
  assert (w = 0 \/ w = 1 \/ w = 2 \/ w = 3 \/ w = 4 \/ w = 5 \/ w = 6)
    as C by lia.
  repeat (destruct C as [C | C]); rewrite C; reflexivity.
Qed.

Lemma getDayType_weekend_days_witness :
  getDayType "2025-01-20" = Some Weekday /\
  getDayType "2025-01-19" = Some Weekend /\
  getDayType "2024-02-29" = Some Weekday /\
  getDayType "2000-01-01" = Some Weekend.
Proof.
  split; [ | split; [ | split]].
  - apply (getDayType_weekend_days 2025 1 20); [by vm_compute | lia].
  - apply (getDayType_weekend_days 2025 1 19); [by vm_compute | lia].
  - apply (getDayType_weekend_days 2024 2 29); [by vm_compute | lia].
  - apply (getDayType_weekend_days 2000 1 1); [by vm_compute | lia].
Defined.

(** ** The day after, and the range asked of upstream *)

Lemma next_day_valid (y m d : Z) :
  valid_date y m d ->
  let '(y', m', d') := next_day y m d in valid_date y' m' d'.
Proof.
  intros [Hm Hd]. unfold next_day, valid_date.
  destruct (Z.ltb_spec d (days_in_month y m)); [lia | ].
  destruct (Z.ltb_spec m 12).
  - split; [lia | ].
    unfold days_in_month.
    split_month m; try lia; destruct (leap_year y); vm_compute;
      split; congruence.
  - vm_compute. repeat split; congruence.
Qed.

Lemma MakeDay_next_day (y m d : Z) :
  valid_date y m d ->
  let '(y', m', d') := next_day y m d in
  MakeDay y (m - 1) (d + 1) = MakeDay y' (m' - 1) d'.
Proof.
  intros [Hm Hd]. unfold next_day.
  destruct (Z.ltb_spec d (days_in_month y m)); [reflexivity | ].
  assert (d = days_in_month y m) as -> by lia.
  destruct (Z.ltb_spec m 12).
  - rewrite !MakeDay_valid by lia.
    unfold days_in_month, leap_year. fold (leap y).
    destruct (leap y); split_month m; try lia; cbv beta iota;
      match goal with
      | |- context [monthStart ?l (?a + 1 - 1)] =>
          replace (a + 1 - 1) with a by lia
      end;
      eval_pred; eval_monthStart; lia.
  - assert (m = 12) as -> by lia.
    rewrite !MakeDay_valid by lia.
    pose proof (DayFromYear_succ y) as HS. unfold DaysInYear in HS.
    unfold days_in_month.
    destruct (leap y), (leap (y + 1)); eval_pred; eval_monthStart; lia.
Qed.

Lemma addDaysIso_next_day (y m d : Z) :
  valid_date y m d -> 1000 <= y <= 9999 -> (y, m, d) <> (9999, 12, 31) ->
  addDaysIso (iso_date y m d) 1 =
    Some (let '(y', m', d') := next_day y m d in iso_date y' m' d').
Proof.
  intros Hv Hy Hne.
  pose proof (days_in_month_le_31 y m) as Hle.
  assert (Hnoon : 0 <= 12 * 3600000 < msPerDay) by (unfold msPerDay; lia).
  pose proof (next_day_valid y m d Hv) as Hv'.
  pose proof (MakeDay_next_day y m d Hv) as HMk.
  assert (let '(y', _, _) := next_day y m d in 1000 <= y' <= 9999) as Hy1.
  { unfold next_day. destruct Hv as [Hm Hd].
    destruct (Z.ltb_spec d (days_in_month y m)); [lia | ].
    destruct (Z.ltb_spec m 12); [lia | ].
    assert (y <> 9999); [ | lia].
    intros ->. apply Hne. assert (m = 12) as -> by lia.
    assert (d = 31) as -> by (unfold days_in_month in *; lia).
    reflexivity. }
  destruct (next_day y m d) as [[y' m'] d'].
  destruct (fields_of_valid_date y m d _ Hv Hnoon) as (HY & HM & HD).
  destruct (fields_of_valid_date y' m' d' _ Hv' Hnoon) as (HY' & HM' & HD').
  destruct Hv as [Hm Hd], Hv' as [Hm' Hd'].
  pose proof (days_in_month_le_31 y' m') as Hle'.
  unfold addDaysIso.
  rewrite split_iso_date by lia. cbn [List.map].
  rewrite Number_four_digits, !Number_two_digits by lia.
  cbv zeta.
  assert (Hdt : UTC_noon y (m - 1) d
                = MakeDate (MakeDay y (m - 1) d) (12 * 3600000)).
  { unfold UTC_noon.
    destruct (Z.leb_spec 0 y), (Z.leb_spec y 99); cbn [andb]; try reflexivity.
    lia. }
  rewrite Hdt.
  assert (Hdt' : setUTCDate (MakeDate (MakeDay y (m - 1) d) (12 * 3600000))
                   (getUTCDate
                      (MakeDate (MakeDay y (m - 1) d) (12 * 3600000)) + 1)
                 = MakeDate (MakeDay y' (m' - 1) d') (12 * 3600000)).
  { unfold setUTCDate, getUTCDate. rewrite HY, HM, HD.
    rewrite TimeWithinDay_MakeDate by done. by rewrite HMk. }
  rewrite Hdt'.
  unfold getUTCFullYear, getUTCMonth, getUTCDate.
  rewrite HY', HM', HD'. replace (m' - 1 + 1) with m' by lia.
  rewrite String_four_digits, !String_two_digits by lia.
  reflexivity.
Qed.

Lemma next_prev_day (y m d : Z) :
  valid_date y m d ->
  (let '(y', m', d') := prev_day y m d in next_day y' m' d') = (y, m, d).
Proof.
  intros [Hm Hd]. unfold prev_day, next_day.
  destruct (Z.ltb_spec 1 d).
  - destruct (Z.ltb_spec (d - 1) (days_in_month y m)); [ | lia].
    f_equal. lia.
  - assert (d = 1) as -> by lia.
    destruct (Z.ltb_spec 1 m).
    + destruct (Z.ltb_spec (days_in_month y (m - 1))
                  (days_in_month y (m - 1))); [lia | ].
      destruct (Z.ltb_spec (m - 1) 12); [ | lia].
      f_equal. f_equal. lia.
    + assert (m = 1) as -> by lia.
      change (days_in_month (y - 1) 12) with 31.
      cbn. do 2 f_equal. lia.
Qed.

Lemma prev_next_day (y m d : Z) :
  valid_date y m d ->
  (let '(y', m', d') := next_day y m d in prev_day y' m' d') = (y, m, d).
Proof.
  intros [Hm Hd]. unfold prev_day, next_day.
  destruct (Z.ltb_spec d (days_in_month y m)).
  - destruct (Z.ltb_spec 1 (d + 1)); [ | lia]. f_equal. lia.
  - assert (d = days_in_month y m) as -> by lia.
    destruct (Z.ltb_spec m 12).
    + cbn. destruct (Z.ltb_spec 1 (m + 1)); [ | lia].
      replace (m + 1 - 1) with m by lia. reflexivity.
    + assert (m = 12) as -> by lia. cbn.
      replace (y + 1 - 1) with y by lia. reflexivity.
Qed.

(** For a calendar date with a four-digit year (the first and the last
    such date apart), the range asked of upstream runs from the day
    before to the day after the display date; adding a day to the first
    or taking one from the second gives the display date back; and the
    real date of every slot is the display date or the first day of the
    range. *)
Theorem upstream_range_brackets_the_date (y m d : Z) :
  valid_date y m d -> 1000 <= y <= 9999 ->
  (y, m, d) <> (1000, 1, 1) -> (y, m, d) <> (9999, 12, 31) ->
  let date := iso_date y m d in
  let before := let '(y', m', d') := prev_day y m d in iso_date y' m' d' in
  let after := let '(y', m', d') := next_day y m d in iso_date y' m' d' in
  addDaysIso date (-1) = Some before /\
  addDaysIso date 1 = Some after /\
  addDaysIso before 1 = Some date /\
  addDaysIso after (-1) = Some date /\
  (forall start, In start STARTS ->
     realDateForStart date start = Some date \/
     realDateForStart date start = Some before) /\
  (forall offset upstream req loadConfig club dt sd ed grid,
     req_date req = date ->
     availability_grid_elite offset upstream req loadConfig
       = Some (EliteGrid club dt sd ed grid) ->
     dt = date /\ sd = before /\ ed = after) /\
  (forall offset upstream req loadConfig club dt sd ed grid,
     req_date req = date ->
     availability_grid_comfort offset upstream req loadConfig
       = Some (ComfortGrid club dt sd ed grid) ->
     dt = date /\ sd = before /\ ed = after).
Proof.
  intros Hv Hy Hlo Hhi date before after.
  pose proof (days_in_month_le_31 y m) as Hle31.
  assert (Hb : addDaysIso date (-1) = Some before)
    by by apply addDaysIso_prev_day.
  assert (Ha : addDaysIso date 1 = Some after)
    by by apply addDaysIso_next_day.
  split; [done | ]. split; [done | ].
  split; [ | split; [ | split; [ | split]]].
  - subst before date.
    pose proof (prev_day_valid y m d Hv) as Hv'.
    pose proof (next_prev_day y m d Hv) as Hnp.
    assert (let '(y', m', d') := prev_day y m d in
            1000 <= y' <= 9999 /\ (y', m', d') <> (9999, 12, 31)) as Hr.
    { unfold prev_day. destruct Hv as [Hm Hd].
      destruct (Z.ltb_spec 1 d); [split; [lia | ] | ].
      { intros E. injection E as -> -> E. lia. }
      destruct (Z.ltb_spec 1 m); [split; [lia | ] | ].
      { intros E. injection E as -> E _. lia. }
      assert (y <> 1000).
      { intros ->. apply Hlo. f_equal; [f_equal | ]; lia. }
      split; [lia | ]. intros E. injection E as E. lia. }
    destruct (prev_day y m d) as [[y' m'] d']. destruct Hr as [Hy' Hne'].
    rewrite (addDaysIso_next_day y' m' d' Hv' Hy' Hne'). by rewrite Hnp.
  - subst after date.
    pose proof (next_day_valid y m d Hv) as Hv'.
    pose proof (prev_next_day y m d Hv) as Hpn.
    assert (let '(y', m', d') := next_day y m d in
            1000 <= y' <= 9999 /\ (y', m', d') <> (1000, 1, 1)) as Hr.
    { unfold next_day. destruct Hv as [Hm Hd].
      destruct (Z.ltb_spec d (days_in_month y m)); [split; [lia | ] | ].
      { intros E. injection E as -> -> E. lia. }
      destruct (Z.ltb_spec m 12); [split; [lia | ] | ].
      { intros E. injection E as -> E. lia. }
      assert (y <> 9999).
      { intros ->. apply Hhi. assert (m = 12) as -> by lia.
        assert (d = 31) as -> by (unfold days_in_month in *; lia).
        reflexivity. }
      split; [lia | ]. intros E. injection E as E. lia. }
    destruct (next_day y m d) as [[y' m'] d']. destruct Hr as [Hy' Hne'].
    rewrite (addDaysIso_prev_day y' m' d' Hv' Hy' Hne'). by rewrite Hpn.
  - intros start Hs. destruct (STARTS_clock start Hs) as (hh & Hh & ->).
    rewrite realDateForStart_clock by lia.
    destruct (hh <? 6); [by right | by left].
  - intros offset upstream req loadConfig club dt sd ed grid Hreq H.
    unfold availability_grid_elite in H.
    destruct (String.eqb (req_club_id req) ""); [discriminate H | ].
    destruct (isIsoDate (req_date req)); cbn [negb] in H; [ | discriminate H].
    rewrite Hreq, Hb, Ha in H. cbn [mbind option_bind] in H.
    destruct loadConfig as [cfg | e]; cbn [await mbind comp_bind] in H;
      [ | discriminate H].
    destruct (snd (splitRooms (rooms cfg))) as [elite | ];
      [ | discriminate H].
    destruct (String.eqb (room_id elite) ""); [discriminate H | ].
    destruct (elite_plan _ _ _ _ _ _) as [[meta pairs] | | ];
      cbn [mbind comp_bind try_catch] in H; try discriminate H.
    destruct (fetch_all _ _ _ _ _) as [idx | | ];
      cbn [mbind comp_bind try_catch] in H; try discriminate H.
    destruct (elite_grid _ _ _ _) as [g | | ];
      cbn [mbind comp_bind try_catch] in H; try discriminate H.
    by injection H as _ <- <- <- _.
  - intros offset upstream req loadConfig club dt sd ed grid Hreq H.
    unfold availability_grid_comfort in H.
    destruct (String.eqb (req_club_id req) ""); [discriminate H | ].
    destruct (isIsoDate (req_date req)); cbn [negb] in H; [ | discriminate H].
    rewrite Hreq, Hb, Ha in H. cbn [mbind option_bind] in H.
    destruct loadConfig as [cfg | e]; cbn [await mbind comp_bind] in H;
      [ | discriminate H].
    destruct (fst (splitRooms (rooms cfg))) as [ | r0 rest];
      [discriminate H | ].
    destruct (comfort_plan _ _ _ _ _ _) as [[meta pairs] | | ];
      cbn [mbind comp_bind try_catch] in H; try discriminate H.
    destruct (fetch_all _ _ _ _ _) as [idx | | ];
      cbn [mbind comp_bind try_catch] in H; try discriminate H.
    destruct (comfort_grid _ _ _ _ _ _ _) as [g | | ];
      cbn [mbind comp_bind try_catch] in H; try discriminate H.
    by injection H as _ <- <- <- _.
Qed.

Lemma upstream_range_brackets_the_date_witness :
  addDaysIso "2024-02-29" (-1) = Some "2024-02-28"%string /\
  addDaysIso "2024-02-29" 1 = Some "2024-03-01"%string /\
  addDaysIso "2024-02-28" 1 = Some "2024-02-29"%string /\
  addDaysIso "2024-03-01" (-1) = Some "2024-02-29"%string.
Proof.
  destruct (upstream_range_brackets_the_date 2024 2 29)
    as (H1 & H2 & H3 & H4 & _);
    [by vm_compute | lia | congruence | congruence | ].
  by repeat split.
Defined.
